(** * voice_to_notes: a shallow embedding of the V1 and V2 pipelines

    The development embeds the pure parts of [voice_to_notes.py] (both
    versions of the repository) as Rocq functions and the effectful parts
    (file writes, backend calls, exceptions) in a small state-and-exception
    monad over an explicit file system.

    Conventions.
    - A Python [str] is a sequence of Unicode code points: [pystr] is
      [list N].  Literals of the source are written as Rocq strings holding
      their UTF-8 bytes and decoded by [utf8], as the Python reader does.
    - A Python [int] is a [Z]; [len] returns a [Z].
    - [print] calls are not modelled: they write to the terminal only. *)

From Stdlib Require Import ZArith NArith Ascii String List Lia Bool DecimalString.
From stdpp Require Import base option list gmap.

Set Warnings "-register-all".

Local Open Scope Z_scope.

(** ** Python strings *)

Module Py.

Definition pystr : Type := list N.

(** [utf8_decode] reads a well-formed UTF-8 byte sequence; a byte that
    starts no sequence is kept as it is. *)
Fixpoint utf8_decode (bs : list N) : pystr :=
  match bs with
  | [] => []
  | b :: rest =>
    if (b <? 128)%N then b :: utf8_decode rest
    else if (b <? 224)%N then
      match rest with
      | c1 :: r1 =>
        (N.lor (N.shiftl (N.land b 31) 6) (N.land c1 63)) :: utf8_decode r1
      | _ => b :: utf8_decode rest
      end
    else if (b <? 240)%N then
      match rest with
      | c1 :: c2 :: r2 =>
        (N.lor (N.shiftl (N.land b 15) 12)
           (N.lor (N.shiftl (N.land c1 63) 6) (N.land c2 63))) :: utf8_decode r2
      | _ => b :: utf8_decode rest
      end
    else
      match rest with
      | c1 :: c2 :: c3 :: r3 =>
        (N.lor (N.shiftl (N.land b 7) 18)
           (N.lor (N.shiftl (N.land c1 63) 12)
              (N.lor (N.shiftl (N.land c2 63) 6) (N.land c3 63)))) :: utf8_decode r3
      | _ => b :: utf8_decode rest
      end
  end.

Definition utf8 (s : string) : pystr :=
  utf8_decode (map N_of_ascii (list_ascii_of_string s)).

(** [len(s)] *)
Definition len {A} (l : list A) : Z := Z.of_nat (length l).

(** [s.startswith(p)] and [s.endswith(p)] *)
Fixpoint startswith (s p : pystr) : bool :=
  match p, s with
  | [], _ => true
  | c :: p', d :: s' => if (c =? d)%N then startswith s' p' else false
  | _ :: _, [] => false
  end.

Definition endswith (s p : pystr) : bool := startswith (rev s) (rev p).

(** [str.isspace] for one character: the code points Python's [str.strip()]
    removes. *)
Definition isspace (c : N) : bool :=
  ((9 <=? c) && (c <=? 13) || (28 <=? c) && (c <=? 32) || (c =? 133)
   || (c =? 160) || (c =? 5760) || (8192 <=? c) && (c <=? 8202)
   || (c =? 8232) || (c =? 8233) || (c =? 8239) || (c =? 8287)
   || (c =? 12288))%N.

Fixpoint lstrip (s : pystr) : pystr :=
  match s with
  | c :: s' => if isspace c then lstrip s' else s
  | [] => []
  end.

Definition rstrip (s : pystr) : pystr := rev (lstrip (rev s)).

(** [s.strip()] *)
Definition strip (s : pystr) : pystr := rstrip (lstrip s).

(** [s.split(sep)] for a one-character separator: the result is never
    empty, and [''.split(sep)] is [['']]. *)
Fixpoint split (sep : N) (s : pystr) : list pystr :=
  match s with
  | [] => [[]]
  | c :: s' =>
    if (c =? sep)%N then [] :: split sep s'
    else match split sep s' with
         | w :: ws => (c :: w) :: ws
         | [] => [[c]]
         end
  end.

(** [s.split(sep, 1)]: at most one cut, at the first separator. *)
Fixpoint split1 (sep : N) (s : pystr) : list pystr :=
  match s with
  | [] => [[]]
  | c :: s' =>
    if (c =? sep)%N then [[]; s']
    else match split1 sep s' with
         | w :: ws => (c :: w) :: ws
         | [] => [[c]]
         end
  end.

(** [sep.join(parts)] *)
Fixpoint join (sep : pystr) (parts : list pystr) : pystr :=
  match parts with
  | [] => []
  | [p] => p
  | p :: ps => p ++ sep ++ join sep ps
  end.

(** [c in s] for a character [c] *)
Definition char_in (c : N) (s : pystr) : bool := existsb (N.eqb c) s.

(** [needle in s] for a string: a scan over the start positions. *)
Fixpoint contains (s needle : pystr) : bool :=
  if startswith s needle then true
  else match s with
       | [] => false
       | _ :: s' => contains s' needle
       end.

(** [s.replace(c, '')] for a one-character [c] *)
Definition remove_char (c : N) (s : pystr) : pystr :=
  filter (fun d => d ≠ c) s.

(** [str(n)] for an [int] *)
Definition digits_of_uint (u : Decimal.uint) : pystr :=
  map N_of_ascii (list_ascii_of_string (DecimalString.NilEmpty.string_of_uint u)).

Definition str_of_int (n : Z) : pystr :=
  match n with
  | Z0 => [48%N]
  | Zpos p => digits_of_uint (Pos.to_uint p)
  | Zneg p => 45%N :: digits_of_uint (Pos.to_uint p)
  end.

(** Slices [s[:n]], [s[n:]] and [s[:-n]] for a literal [n >= 0]. *)
Definition slice_to {A} (n : nat) (s : list A) : list A := take n s.
Definition slice_from {A} (n : nat) (s : list A) : list A := drop n s.
Definition slice_to_neg {A} (n : nat) (s : list A) : list A :=
  take (length s - n) s.

End Py.

Import Py.

(** ** Python values, as far as the program handles them

    [json.loads] returns [None], booleans, numbers, strings, lists and
    dicts; the program passes them on untyped.  A float is kept as the text
    it was read from. *)

Inductive value : Type :=
| VNone
| VBool (b : bool)
| VInt (n : Z)
| VFloat (lexeme : pystr)
| VStr (s : pystr)
| VList (items : list value)
| VDict (entries : list (pystr * value)).

(** Exceptions the program can meet.  All of them derive from Python's
    [Exception]. *)
Inductive exn : Type :=
| TypeError
| AttributeError
| ValueError
| KeyError
| JSONDecodeError
| OSError
| FileNotFoundError
| CalledProcessError
| BackendError (status : Z)
| RecursionError
| UnicodeEncodeError.

Inductive outcome (A : Type) : Type :=
| Ret (a : A)
| Raise (e : exn).
Arguments Ret {A} a.
Arguments Raise {A} e.

Definition obind {A B} (m : outcome A) (k : A -> outcome B) : outcome B :=
  match m with
  | Ret a => k a
  | Raise e => Raise e
  end.

(** [for x in xs: acc = body(acc, x)] where the body may raise. *)
Fixpoint ofold {A B} (body : B -> A -> outcome B) (xs : list A) (acc : B)
  : outcome B :=
  match xs with
  | [] => Ret acc
  | x :: xs' => obind (body acc x) (ofold body xs')
  end.

(** The library functions the program calls and this development does not
    re-implement: the theorems hold for every implementation. *)
Class PyLib : Type := {
  (** [json.loads]: the value read, or [None] when it raises *)
  json_loads : pystr -> option value;
  (** what [json.loads] raises on a text it does not read:
      [json.JSONDecodeError] on a text that is not JSON, and for instance
      [RecursionError] on one nested too deeply or [ValueError] on an
      integer of too many digits *)
  json_loads_error : pystr -> exn;
  (** [json.dumps(v, indent=2, ensure_ascii=False)], or [None] when it
      raises [RecursionError], on a value nested too deeply *)
  json_dumps : value -> option pystr;
  (** [format(v, '')] as an f-string field applies it to a value that is
      not a [str] *)
  format_value : value -> pystr;
  (** [bool(x)] for the float read from a lexeme *)
  float_truth : pystr -> bool;
  (** [Path(p).stem] *)
  path_stem : pystr -> pystr;
  (** [os.path.join(dir, name)] *)
  path_join : pystr -> pystr -> pystr;
  (** [os.path.splitext(os.path.basename(p))[0]] *)
  path_base_name : pystr -> pystr
}.

(** *** Dicts: insertion-ordered, one entry per key *)

Module Dict.

Fixpoint get (k : pystr) (d : list (pystr * value)) : option value :=
  match d with
  | [] => None
  | (k', v) :: d' => if decide (k' = k) then Some v else get k d'
  end.

Definition mem (k : pystr) (d : list (pystr * value)) : bool :=
  match get k d with Some _ => true | None => false end.

(** [d[k] = v]: an existing key keeps its place. *)
Fixpoint set (k : pystr) (v : value) (d : list (pystr * value))
  : list (pystr * value) :=
  match d with
  | [] => [(k, v)]
  | (k', v') :: d' =>
    if decide (k' = k) then (k, v) :: d' else (k', v') :: set k v d'
  end.

(** [dict(pairs)]: a repeated key takes the last value. *)
Definition of_pairs (ps : list (pystr * value)) : list (pystr * value) :=
  fold_left (fun d kv => set (fst kv) (snd kv) d) ps [].

End Dict.

(** *** Dynamic operations *)

Section Dynamic.
Context `{PyLib}.

(** [bool(v)] *)
Definition truthy (v : value) : bool :=
  match v with
  | VNone => false
  | VBool b => b
  | VInt n => negb (n =? 0)
  | VFloat x => float_truth x
  | VStr s => match s with [] => false | _ => true end
  | VList l => match l with [] => false | _ => true end
  | VDict d => match d with [] => false | _ => true end
  end.

(** [v == s] for a string [s] *)
Definition eq_str (v : value) (s : pystr) : bool :=
  match v with
  | VStr t => bool_decide (t = s)
  | _ => false
  end.

(** [s in v] for a string [s] *)
Definition py_in (s : pystr) (v : value) : outcome bool :=
  match v with
  | VStr t => Ret (contains t s)
  | VList l => Ret (existsb (fun x => eq_str x s) l)
  | VDict d => Ret (Dict.mem s d)
  | _ => Raise TypeError
  end.

(** [v[k] = x] for a string [k] *)
Definition py_setitem (v : value) (k : pystr) (x : value) : outcome value :=
  match v with
  | VDict d => Ret (VDict (Dict.set k x d))
  | _ => Raise TypeError
  end.

(** [v.get(k, default)] *)
Definition py_get (v : value) (k : pystr) (default : value) : outcome value :=
  match v with
  | VDict d => Ret (match Dict.get k d with Some x => x | None => default end)
  | _ => Raise AttributeError
  end.

(** [v[k]] for a string [k]; the program reads a key only after [get]
    found it. *)
Definition py_getitem (v : value) (k : pystr) : outcome value :=
  match v with
  | VDict d => match Dict.get k d with Some x => Ret x | None => Raise KeyError end
  | _ => Raise TypeError
  end.

(** [len(v)] *)
Definition py_len (v : value) : outcome Z :=
  match v with
  | VStr s => Ret (len s)
  | VList l => Ret (len l)
  | VDict d => Ret (len d)
  | _ => Raise TypeError
  end.

(** [iter(v)], run to the end *)
Definition py_iter (v : value) : outcome (list value) :=
  match v with
  | VStr s => Ret (map (fun c => VStr [c]) s)
  | VList l => Ret l
  | VDict d => Ret (map (fun kv => VStr (fst kv)) d)
  | _ => Raise TypeError
  end.

(** [list(v.keys())] *)
Definition py_keys (v : value) : outcome (list pystr) :=
  match v with
  | VDict d => Ret (map fst d)
  | _ => Raise AttributeError
  end.

(** [v.split(':', 1)] *)
Definition py_split1 (v : value) : outcome (list pystr) :=
  match v with
  | VStr s => Ret (split1 58 s)
  | _ => Raise AttributeError
  end.

(** An f-string field [{v}] *)
Definition fstr (v : value) : pystr :=
  match v with
  | VStr s => s
  | _ => format_value v
  end.

End Dynamic.

(** ** The world the program runs in *)

(** A call of [GenerativeModel(model).generate_content(prompt, config)]. *)
Record Request : Type := {
  req_model : pystr;
  req_prompt : pystr;
  req_max_output_tokens : option Z;
  (** the temperature, as the decimal literal of the source *)
  req_temperature : option pystr
}.

(** What [subprocess.run(["whisper", ...], check=True)] can do. *)
Inductive WhisperResult : Type :=
| WhisperFailed                       (* CalledProcessError *)
| WhisperNotRun (e : exn)             (* any other exception *)
| WhisperDone (written : list (pystr * pystr)). (* the files it wrote: path, text *)

(** The services outside the program. *)
Class Env : Type := {
  (** [response.text] of the generative backend, or the exception the call
      or the access raises *)
  generate_content : Request -> outcome pystr;
  (** whether [open(path, 'w')] succeeds *)
  writable : pystr -> bool;
  (** [datetime.now().strftime("%Y-%m-%d")] and [...("%H:%M")] *)
  current_date : pystr;
  current_time : pystr;
  (** [os.path.exists] on an audio file *)
  audio_exists : pystr -> bool;
  (** the Whisper command line: audio file, model, output directory *)
  whisper : pystr -> pystr -> pystr -> WhisperResult
}.

Record World : Type := {
  (** text files, by path *)
  files : gmap pystr pystr;
  (** [os.environ['GEMINI_API_KEY']] *)
  gemini_api_key : option pystr;
  (** the requests sent to the generative backend, oldest first *)
  sent : list Request
}.

Definition set_files (f : gmap pystr pystr) (w : World) : World :=
  {| files := f; gemini_api_key := gemini_api_key w; sent := sent w |}.
Definition set_api_key (k : option pystr) (w : World) : World :=
  {| files := files w; gemini_api_key := k; sent := sent w |}.
Definition add_sent (r : Request) (w : World) : World :=
  {| files := files w; gemini_api_key := gemini_api_key w; sent := sent w ++ [r] |}.

(** Computations over the world that return or raise. *)
Definition M (A : Type) : Type := World -> outcome A * World.

#[global] Instance outcome_ret : MRet outcome := fun A a => Ret a.
#[global] Instance outcome_bind : MBind outcome := fun A B k m => obind m k.
#[global] Instance M_ret : MRet M := fun A a w => (Ret a, w).
#[global] Instance M_bind : MBind M := fun A B k m w =>
  match m w with
  | (Ret a, w') => k a w'
  | (Raise e, w') => (Raise e, w')
  end.

Definition lift {A} (o : outcome A) : M A := fun w => (o, w).

(** [try: body  except Exception as e: handler(e)] *)
Definition try_except {A} (body : M A) (handler : exn -> M A) : M A :=
  fun w =>
    match body w with
    | (Ret a, w') => (Ret a, w')
    | (Raise e, w') => handler e w'
    end.

Definition otry {A} (body : outcome A) (handler : exn -> outcome A) : outcome A :=
  match body with
  | Ret a => Ret a
  | Raise e => handler e
  end.

Section Effects.
Context `{Env}.

(** [os.getenv('GEMINI_API_KEY')] *)
Definition getenv_api_key : M (option pystr) :=
  fun w => (Ret (gemini_api_key w), w).

(** [os.environ['GEMINI_API_KEY'] = k] *)
Definition setenv_api_key (k : pystr) : M unit :=
  fun w => (Ret tt, set_api_key (Some k) w).

(** One call to the backend: the request is recorded as sent. *)
Definition call_backend (r : Request) : M pystr :=
  fun w => (generate_content r, add_sent r w).

(** [with open(path, 'w') as f: f.write(content)]: the write succeeds when
    the path can be opened. The content is taken to be text that the
    encoding of the file can write; a text with a lone surrogate, on which
    [f.write] raises [UnicodeEncodeError], is excluded by hypothesis where a
    theorem writes text read from JSON. *)
Definition write_file (path content : pystr) : M unit :=
  fun w =>
    if writable path then (Ret tt, set_files (<[path := content]> (files w)) w)
    else (Raise OSError, w).

(** [with open(path, 'r') as f: f.read()] *)
Definition read_file (path : pystr) : M pystr :=
  fun w =>
    match files w !! path with
    | Some t => (Ret t, w)
    | None => (Raise FileNotFoundError, w)
    end.

(** [subprocess.run(["whisper", audio_file, "--model", model,
    "--output_format", "txt", "--output_dir", output_dir], check=True)] *)
Definition run_whisper (audio_file model output_dir : pystr) : M unit :=
  fun w =>
    match whisper audio_file model output_dir with
    | WhisperFailed => (Raise CalledProcessError, w)
    | WhisperNotRun e => (Raise e, w)
    | WhisperDone written =>
      (Ret tt,
       set_files (fold_left (fun fs pc => <[fst pc := snd pc]> fs) written (files w)) w)
    end.

(** [os.path.exists] on a text file *)
Definition file_exists (path : pystr) : M bool :=
  fun w => (Ret (bool_decide (is_Some (files w !! path))), w).

End Effects.

(** [re.search(r'\{.*\}', s, re.DOTALL)]: the match starts at the first
    opening brace and, the star being greedy, ends at the last closing brace
    after it. *)
Fixpoint up_to_last_brace (s : pystr) : option pystr :=
  match s with
  | [] => None
  | c :: s' =>
    match up_to_last_brace s' with
    | Some m => Some (c :: m)
    | None => if (c =? 125)%N then Some [c] else None
    end
  end.

Fixpoint search_braces (s : pystr) : option pystr :=
  match s with
  | [] => None
  | c :: s' =>
    if (c =? 123)%N then
      match up_to_last_brace s' with
      | Some m => Some (c :: m)
      | None => None
      end
    else search_braces s'
  end.

(** [enumerate(xs, start)] *)
Fixpoint enumerate {A} (start : Z) (xs : list A) : list (Z * A) :=
  match xs with
  | [] => []
  | x :: xs' => (start, x) :: enumerate (start + 1) xs'
  end.

(** A literal of the source that holds double quotes is written with [~] in
    their place. *)
Definition utf8q (s : string) : pystr :=
  map (fun c => if (c =? 126)%N then 34%N else c) (utf8 s).

(** ** Version 1: local Whisper, Gemini summary, three output files *)

Module V1.

Record ModelConfig : Type := {
  max_tokens : Z;
  temperature : pystr;
  description : pystr
}.

Definition get_available_gemini_models : list (pystr * ModelConfig) :=
  [ (utf8 "gemini-1.5-flash",
     {| max_tokens := 8192; temperature := utf8 "0.7";
        description := utf8 "Gemini 1.5 Flash - Modelo rápido y eficiente (recomendado)" |});
    (utf8 "gemini-1.5-pro",
     {| max_tokens := 8192; temperature := utf8 "0.7";
        description := utf8 "Gemini 1.5 Pro - Modelo avanzado con más contexto" |});
    (utf8 "gemini-pro",
     {| max_tokens := 4096; temperature := utf8 "0.7";
        description := utf8 "Gemini Pro - Modelo básico (puede no estar disponible)" |});
    (utf8 "gemini-2.0-flash",
     {| max_tokens := 8192; temperature := utf8 "0.7";
        description := utf8 "Gemini 2.0 Flash - Modelo más reciente (experimental)" |}) ].

Fixpoint models_get (name : pystr) (ms : list (pystr * ModelConfig))
  : option ModelConfig :=
  match ms with
  | [] => None
  | (n, c) :: ms' => if decide (n = name) then Some c else models_get name ms'
  end.

(** [bool(s)] for a string and for [os.getenv]'s result *)
Definition nonempty (s : pystr) : bool :=
  match s with [] => false | _ => true end.

Definition set_and_nonempty (o : option pystr) : bool :=
  match o with Some s => nonempty s | None => false end.

Definition required_keys : list pystr :=
  [ utf8 "resumen_ejecutivo"; utf8 "puntos_clave"; utf8 "conceptos_importantes";
    utf8 "preguntas_dudas"; utf8 "tareas_acciones"; utf8 "detalles_adicionales";
    utf8 "estructura_contenido" ].

(** The sentences collected by the loop of [generate_basic_summary]:
    [sentences.extend(...)] once per line that is not blank. *)
Definition collect_sentences (lines : list pystr) : list pystr :=
  fold_left
    (fun sentences line =>
       if nonempty (strip line)
       then sentences ++ map strip (filter (fun s => nonempty (strip s) = true) (split 46 line))
       else sentences)
    lines [].

Definition generate_basic_summary (text : pystr) : value :=
  let lines := split 10 text in
  let sentences := collect_sentences lines in
  let max_sentences := Z.min 5 (len sentences) in
  let summary_sentences := take (Z.to_nat max_sentences) sentences in
  VDict
    [ (utf8 "resumen_ejecutivo", VStr (join (utf8 ". ") summary_sentences ++ utf8 "."));
      (utf8 "puntos_clave",
       VList [ VStr (utf8 "Transcripción automática procesada");
               VStr (utf8 "Análisis básico sin IA externa");
               VStr (utf8 "Texto de " ++ str_of_int (len text) ++ utf8 " caracteres procesado") ]);
      (utf8 "conceptos_importantes",
       VList [ VStr (utf8 "Audio transcrito"); VStr (utf8 "Procesamiento local") ]);
      (utf8 "preguntas_dudas", VList []);
      (utf8 "tareas_acciones",
       VList [ VStr (utf8 "Revisar transcripción completa");
               VStr (utf8 "Configurar acceso a Gemini para análisis avanzado") ]);
      (utf8 "detalles_adicionales", VList []);
      (utf8 "estructura_contenido", VList []) ].

Section Program.
Context `{PyLib} `{Env}.

(** The text embedded in the prompt: at most [max_chars] characters of the
    transcript, with the marker when something was cut. *)
Definition max_chars : Z := 12000.

Definition truncation_marker : pystr :=
  utf8 "...
[TEXTO TRUNCADO PARA ANÁLISIS]".

Definition truncate_text (text : pystr) : pystr :=
  if len text >? max_chars
  then take (Z.to_nat max_chars) text ++ truncation_marker
  else text.

Definition build_prompt (text : pystr) : pystr :=
    utf8 "
Eres un asistente especializado en crear resúmenes académicos detallados en español.

Analiza esta transcripción y genera un resumen completo en español.

TRANSCRIPCIÓN:
"
    ++ text
    ++ utf8q "

Crea un análisis con:
1. RESUMEN EJECUTIVO: Un párrafo completo (3-5 oraciones) que capture la esencia de la sesión
2. PUNTOS CLAVE PRINCIPALES: Lista (3-8 puntos) con explicaciones de cada tema abordado
3. CONCEPTOS IMPORTANTES: Términos técnicos, teorías, definiciones importantes
4. PREGUNTAS Y DUDAS: Interrogantes, discusiones y puntos de reflexión mencionados
5. TAREAS Y ACCIONES: Exámenes, trabajos, fechas, entregas mencionadas
6. DETALLES ADICIONALES: Ejemplos dados, referencias mencionadas, datos específicos
7. ESTRUCTURA DEL CONTENIDO: Organización de los temas tratados

IMPORTANTE: Responde ÚNICAMENTE con un JSON válido usando estas claves exactas:
{
    ~resumen_ejecutivo~: ~string con párrafo detallado~,
    ~puntos_clave~: [~explicación del punto 1~, ~explicación del punto 2~],
    ~conceptos_importantes~: [~concepto: explicación~, ~concepto: explicación~],
    ~preguntas_dudas~: [~pregunta con contexto~, ~pregunta con contexto~],
    ~tareas_acciones~: [~tarea específica~, ~acción específica~],
    ~detalles_adicionales~: [~ejemplo relevante~, ~dato específico~],
    ~estructura_contenido~: [~tema 1: descripción~, ~tema 2: descripción~]
}

Solo JSON, sin texto adicional.
".

(** [clean_content] as [json.loads] receives it. *)
Definition strip_fences (response_text : pystr) : pystr :=
  let clean_content := strip response_text in
  let clean_content :=
    if startswith clean_content (utf8 "```json") then drop 7 clean_content
    else if startswith clean_content (utf8 "```") then drop 3 clean_content
    else clean_content in
  let clean_content :=
    if endswith clean_content (utf8 "```")
    then take (length clean_content - 3) clean_content
    else clean_content in
  strip clean_content.

(** [for key in required_keys: if key not in summary_json:
    summary_json[key] = []] *)
Definition fill_required_keys (summary_json : value) : outcome value :=
  ofold
    (fun summary_json key =>
       present ← py_in key summary_json;
       if negb present then py_setitem summary_json key (VList [])
       else mret summary_json)
    required_keys summary_json.

(** The record returned when no JSON could be read. *)
Definition fallback_structure (response_text : pystr) : value :=
  VDict
    [ (utf8 "resumen_ejecutivo",
       VStr (if len response_text >? 800
             then take 800 response_text ++ utf8 "..."
             else response_text));
      (utf8 "puntos_clave",
       VList [ VStr (utf8 "Contenido procesado por Gemini");
               VStr (utf8 "Revisar formato de respuesta") ]);
      (utf8 "conceptos_importantes",
       VList [ VStr (utf8 "Respuesta sin formato JSON válido") ]);
      (utf8 "preguntas_dudas", VList []);
      (utf8 "tareas_acciones",
       VList [ VStr (utf8 "Revisar configuración de prompt") ]);
      (utf8 "detalles_adicionales",
       VList [ VStr (utf8 "Contenido generado pero formato incorrecto") ]);
      (utf8 "estructura_contenido",
       VList [ VStr (utf8 "Gemini respondió correctamente");
               VStr (utf8 "Formato de JSON necesita ajuste") ]) ].

(** The inner [try] of [generate_gemini_summary]: only
    [json.JSONDecodeError] is handled here; another exception of
    [json.loads], a [TypeError] of the key loop, or the [AttributeError] of
    [summary_json.keys()] in the message printed before the return, goes to
    the outer handler. Inside the handler, the bare [except] takes every
    exception of the second [json.loads]. *)
Definition parse_response (response_text : pystr) : outcome value :=
  let clean_content := strip_fences response_text in
  match json_loads clean_content with
  | Some summary_json =>
    summary_json ← fill_required_keys summary_json;
    _ ← py_keys summary_json;
    mret summary_json
  | None =>
    match json_loads_error clean_content with
    | JSONDecodeError =>
      let extracted :=
        match search_braces clean_content with
        | Some json_str => json_loads json_str
        | None => None
        end in
      match extracted with
      | Some summary_json => Ret summary_json
      | None => Ret (fallback_structure response_text)
      end
    | e => Raise e
    end
  end.

(** [available_models.get(model, available_models["gemini-1.5-flash"])] *)
Definition model_config_for (model : pystr) : outcome ModelConfig :=
  match models_get (utf8 "gemini-1.5-flash") get_available_gemini_models with
  | None => Raise KeyError
  | Some fallback =>
    Ret (default fallback (models_get model get_available_gemini_models))
  end.

(** [gemini_model.generate_content(prompt, generation_config=...)] *)
Definition summary_request (model prompt : pystr) (model_config : ModelConfig)
  : Request :=
  {| req_model := model; req_prompt := prompt;
     req_max_output_tokens := Some (max_tokens model_config);
     req_temperature := Some (temperature model_config) |}.

Definition generate_gemini_summary (text model : pystr) : M value :=
  try_except
    (api_key ← getenv_api_key;
     if negb (set_and_nonempty api_key) then mret VNone
     else
       let text := truncate_text text in
       let prompt := build_prompt text in
       model_config ← lift (model_config_for model);
       response_text ← call_backend (summary_request model prompt model_config);
       if negb (nonempty response_text) then mret VNone
       else lift (parse_response response_text))
    (fun _ => mret VNone).

(** *** The summary note *)

(** One conditional section of the note:
    [if summary.get(key) and len(summary[key]) > 0:] the heading, one line
    per item, a blank line. *)
Definition section (gemini_summary : value) (key heading : pystr)
    (line : Z -> value -> outcome pystr) (markdown_content : pystr)
  : outcome pystr :=
  got ← py_get gemini_summary key VNone;
  if truthy got then
    n ← py_getitem gemini_summary key ≫= py_len;
    if n >? 0 then
      items ← py_getitem gemini_summary key ≫= py_iter;
      markdown_content ←
        ofold (fun acc ix => l ← line (fst ix) (snd ix); mret (acc ++ l))
              (enumerate 1 items) (markdown_content ++ heading);
      mret (markdown_content ++ utf8 "
")
    else mret markdown_content
  else mret markdown_content.

(** [name, desc = x.split(':', 1)] *)
Definition split_name_desc (x : value) : outcome (pystr * pystr) :=
  parts ← py_split1 x;
  match parts with
  | [name; desc] => mret (name, desc)
  | _ => Raise ValueError
  end.

Definition punto_line (i : Z) (punto : value) : outcome pystr :=
  mret (str_of_int i ++ utf8 ". " ++ fstr punto ++ utf8 "
").

Definition concepto_line (i : Z) (concepto : value) : outcome pystr :=
  has_colon ← py_in (utf8 ":") concepto;
  if (has_colon : bool) then
    '(concepto_name, concepto_desc) ← split_name_desc concepto;
    mret (utf8 "- **" ++ strip concepto_name ++ utf8 ":** " ++ strip concepto_desc ++ utf8 "
")
  else mret (utf8 "- **" ++ fstr concepto ++ utf8 "**
").

Definition pregunta_line (i : Z) (pregunta : value) : outcome pystr :=
  mret (utf8 "❓ " ++ fstr pregunta ++ utf8 "
").

Definition tarea_line (i : Z) (tarea : value) : outcome pystr :=
  mret (utf8 "- [ ] " ++ fstr tarea ++ utf8 "
").

Definition detalle_line (i : Z) (detalle : value) : outcome pystr :=
  mret (utf8 "💡 " ++ fstr detalle ++ utf8 "
").

Definition tema_line (i : Z) (tema : value) : outcome pystr :=
  has_colon ← py_in (utf8 ":") tema;
  if (has_colon : bool) then
    '(tema_name, tema_desc) ← split_name_desc tema;
    mret (str_of_int i ++ utf8 ". **" ++ strip tema_name ++ utf8 ":** " ++ strip tema_desc ++ utf8 "
")
  else mret (str_of_int i ++ utf8 ". " ++ fstr tema ++ utf8 "
").

Definition model_description_of (gemini_model : pystr) : pystr :=
  match models_get gemini_model get_available_gemini_models with
  | Some c => description c
  | None => gemini_model
  end.

(** The f-string the note starts with, in two parts: the title and the
    metadata, then the executive summary. *)
Definition summary_metadata (original_filename gemini_model : pystr) : pystr :=
  let model_description := model_description_of gemini_model in
    utf8 "# Resumen de Clase - "
    ++ path_stem original_filename
    ++ utf8 "

## Metadatos
- **Fecha:** "
    ++ current_date
    ++ utf8 "
- **Hora:** "
    ++ current_time
    ++ utf8 "
- **Archivo original:** "
    ++ original_filename
    ++ utf8 "
- **Procesado con:** Whisper (OpenAI) + Google Gemini
- **Modelo IA:** "
    ++ gemini_model
    ++ utf8 " ("
    ++ model_description
    ++ utf8 ")
- **Tipo:** Resumen detallado (sin transcripción)

".

Definition summary_header (resumen : value) (original_filename gemini_model : pystr)
  : pystr :=
  summary_metadata original_filename gemini_model ++
    utf8 "## Resumen Ejecutivo
"
    ++ fstr resumen
    ++ utf8 "

".

Definition summary_footer (gemini_model : pystr) : pystr :=
  let model_description := model_description_of gemini_model in
    utf8 "---

## Tags
#resumen #clase #notas #audio #whisper #google-gemini #ai-summary #"
    ++ remove_char 45 gemini_model
    ++ utf8 "

## Notas Adicionales
- [ ] Revisar y ampliar puntos clave
- [ ] Agregar enlaces a conceptos relacionados usando [[concepto]]
- [ ] Crear mapas conceptuales basados en la estructura
- [ ] Verificar tareas y fechas importantes
- [ ] Conectar con notas de clases anteriores
- [ ] Consultar transcripción completa si es necesario

## Referencias y Seguimiento
- [ ] Buscar material complementario sobre conceptos mencionados
- [ ] Preparar preguntas para próxima clase basadas en dudas identificadas
- [ ] Revisar bibliografía relacionada con los temas tratados
- [ ] Actualizar cronograma de estudios con las tareas identificadas

---
*Resumen generado automáticamente con Voice Note Processor + Google Gemini*
*Modelo usado: "
    ++ gemini_model
    ++ utf8 " ("
    ++ model_description
    ++ utf8 ")*
*Procesado el "
    ++ current_date
    ++ utf8 " a las "
    ++ current_time
    ++ utf8 "*
".

(** The text of the summary note, up to the file write. *)
Definition summary_markdown (gemini_summary : value)
    (original_filename gemini_model : pystr) : outcome pystr :=
  resumen ← py_get gemini_summary (utf8 "resumen_ejecutivo") (VStr (utf8 "No disponible"));
  let markdown_content := summary_header resumen original_filename gemini_model in
  markdown_content ←
    section gemini_summary (utf8 "puntos_clave") (utf8 "## Puntos Clave Principales
") punto_line markdown_content;
  markdown_content ←
    section gemini_summary (utf8 "conceptos_importantes") (utf8 "## Conceptos Importantes
") concepto_line markdown_content;
  markdown_content ←
    section gemini_summary (utf8 "preguntas_dudas") (utf8 "## Preguntas y Dudas
") pregunta_line markdown_content;
  markdown_content ←
    section gemini_summary (utf8 "tareas_acciones") (utf8 "## Tareas y Acciones
") tarea_line markdown_content;
  markdown_content ←
    section gemini_summary (utf8 "detalles_adicionales") (utf8 "## Detalles Adicionales
") detalle_line markdown_content;
  markdown_content ←
    section gemini_summary (utf8 "estructura_contenido") (utf8 "## Estructura del Contenido
") tema_line markdown_content;
  mret (markdown_content ++ summary_footer gemini_model).

(** The write at the end of both renderers: [True] when the file was
    written, [False] when the write raised. *)
Definition write_note (output_path markdown_content : pystr) : M bool :=
  try_except
    (_ ← write_file output_path markdown_content; mret true)
    (fun _ => mret false).

Definition create_obsidian_summary_only (gemini_summary : value)
    (original_filename output_path gemini_model : pystr) : M bool :=
  markdown_content ← lift (summary_markdown gemini_summary original_filename gemini_model);
  write_note output_path markdown_content.

(** *** The transcript note *)

Definition transcription_markdown (text_content original_filename : pystr) : pystr :=
  let paragraphs :=
    map strip (filter (fun p => nonempty (strip p) = true) (split 10 text_content)) in
  let markdown_content :=
    utf8 "# Transcripción de Clase - "
    ++ path_stem original_filename
    ++ utf8 "

## Metadatos
- **Fecha:** "
    ++ current_date
    ++ utf8 "
- **Hora:** "
    ++ current_time
    ++ utf8 "
- **Archivo original:** "
    ++ original_filename
    ++ utf8 "
- **Procesado con:** Whisper (OpenAI)
- **Tipo:** Transcripción completa (sin resumen)
- **Longitud:** "
    ++ str_of_int (len text_content)
    ++ utf8 " caracteres
- **Párrafos:** "
    ++ str_of_int (len paragraphs)
    ++ utf8 " secciones

## Transcripción Completa

" in
  let markdown_content :=
    fold_left
      (fun acc ip =>
         if len (snd ip) >? 30
         then acc ++ utf8 "### Sección " ++ str_of_int (fst ip) ++ utf8 "

" ++ snd ip ++ utf8 "

"
         else acc)
      (enumerate 1 paragraphs) markdown_content in
  markdown_content ++
    utf8 "---

## Tags
#transcripcion #clase #notas #audio #whisper #texto-completo

## Notas para Edición
- [ ] Revisar y corregir errores de transcripción
- [ ] Añadir puntuación donde sea necesario
- [ ] Identificar términos técnicos para crear enlaces [[concepto]]
- [ ] Marcar secciones importantes con **texto en negrita**
- [ ] Agregar > citas donde sea relevante
- [ ] Crear índice de temas si es necesario

## Sugerencias de Uso
- [ ] Usar esta transcripción junto con el resumen generado
- [ ] Buscar términos específicos con Cmd+F / Ctrl+F
- [ ] Extraer citas textuales importantes
- [ ] Identificar ejemplos específicos mencionados

---
*Transcripción generada automáticamente con Voice Note Processor*
*Procesado el "
    ++ current_date
    ++ utf8 " a las "
    ++ current_time
    ++ utf8 "*
".

Definition create_obsidian_transcription_only
    (text_content original_filename output_path : pystr) : M bool :=
  write_note output_path (transcription_markdown text_content original_filename).

(** *** The pipeline *)

Definition transcribe_audio (audio_file model output_dir : pystr)
  : M (option pystr) :=
  try_except
    (_ ← run_whisper audio_file model output_dir;
     let audio_name := path_stem audio_file in
     let txt_file := path_join output_dir (audio_name ++ utf8 ".txt") in
     found ← file_exists txt_file;
     if (found : bool) then mret (Some txt_file)
     else lift (Raise FileNotFoundError))
    (fun _ => mret None).

Definition check_gemini_access : M bool :=
  try_except
    (api_key ← getenv_api_key;
     if negb (set_and_nonempty api_key) then mret false
     else
       response_text ←
         call_backend
           {| req_model := utf8 "gemini-1.5-flash"; req_prompt := utf8 "Hello";
              req_max_output_tokens := Some 10; req_temperature := None |};
       mret (nonempty response_text))
    (fun _ => mret false).

(** Step 3 of the pipeline: the summary of Gemini when the access check
    passes, [None] otherwise. *)
Definition gemini_summary_or_none (text_content gemini_model : pystr) : M value :=
  access ← check_gemini_access;
  if (access : bool) then generate_gemini_summary text_content gemini_model
  else mret VNone.

Definition process_voice_note_gemini
    (audio_file whisper_model output_dir gemini_model : pystr) : M bool :=
  if negb (audio_exists audio_file) then mret false
  else
    txt_file ← transcribe_audio audio_file whisper_model output_dir;
    if negb (set_and_nonempty txt_file) then mret false
    else
      let txt_file := default [] txt_file in
      read ← try_except (t ← read_file txt_file; mret (Some t)) (fun _ => mret None);
      match read with
      | None => mret false
      | Some text_content =>
        gemini_summary ← gemini_summary_or_none text_content gemini_model;
        let gemini_summary :=
          if negb (truthy gemini_summary) then generate_basic_summary text_content
          else gemini_summary in
        let audio_name := path_stem audio_file in
        let success_count := 0 in
        let summary_file := path_join output_dir (audio_name ++ utf8 "_resumen.md") in
        ok ← create_obsidian_summary_only gemini_summary audio_file summary_file gemini_model;
        let success_count := if (ok : bool) then success_count + 1 else success_count in
        let transcription_file :=
          path_join output_dir (audio_name ++ utf8 "_transcripcion.md") in
        ok ← create_obsidian_transcription_only text_content audio_file transcription_file;
        let success_count := if (ok : bool) then success_count + 1 else success_count in
        let success_count := success_count + 1 in
        mret (success_count >=? 2)
      end.

(** The parsed command line. *)
Record Args : Type := {
  audio_file : option pystr;
  model : pystr;
  output_dir : pystr;
  gemini_api_key_arg : option pystr;
  gemini_model : pystr;
  list_models : bool;
  check_gemini : bool
}.

(** [main], after [parser.parse_args()]; the result is the exit status of
    the process: 0 when [main] returns, 1 on [sys.exit(1)]. *)
Definition main (args : Args) : M Z :=
  if list_models args then mret 0
  else if check_gemini args then (_ ← check_gemini_access; mret 0)
  else if negb (set_and_nonempty (audio_file args)) then mret 1
  else
    _ ← (if set_and_nonempty (gemini_api_key_arg args)
         then setenv_api_key (default [] (gemini_api_key_arg args))
         else mret tt);
    success ←
      process_voice_note_gemini (default [] (audio_file args)) (model args)
        (output_dir args) (gemini_model args);
    if (success : bool) then mret 0 else mret 1.

End Program.

End V1.

(** ** Version 2: chunked remote Whisper, Gemini summary

    The module raises [EnvironmentError] when it is loaded without
    [HF_API_TOKEN]; what follows is the program after that check. *)

Module V2.

(** [pydub.AudioSegment], as far as the program uses it. *)
Class AudioLib (Audio : Type) : Type := {
  (** [AudioSegment.from_file(path)]: the decoded audio, or the decoder's
      exception *)
  from_file : pystr -> outcome Audio;
  (** [len(audio)]: the duration in milliseconds *)
  audio_len : Audio -> Z;
  (** [audio[start:end]] *)
  audio_slice : Audio -> Z -> Z -> Audio
}.

(** What pydub promises about them. *)
Class AudioLaws (Audio : Type) `{AudioLib Audio} : Prop := {
  audio_len_nonneg : forall a, 0 <= audio_len a;
  audio_len_slice : forall a s e,
    0 <= s -> s <= e -> e <= audio_len a -> audio_len (audio_slice a s e) = e - s
}.

(** The reply of the inference endpoint to one [session.post]. *)
Record Response : Type := {
  status : Z;
  (** [await resp.json()] *)
  json : outcome value;
  (** [await resp.text()] *)
  text : pystr
}.

(** The remote speech-recognition service: model URL and audio bytes. *)
Class Whisper (Audio : Type) : Type := {
  post : pystr -> Audio -> outcome Response
}.

Definition WHISPER_MODELS : list (pystr * pystr) :=
  [ (utf8 "tiny", utf8 "openai/whisper-tiny");
    (utf8 "base", utf8 "openai/whisper-base");
    (utf8 "small", utf8 "openai/whisper-small");
    (utf8 "medium", utf8 "openai/whisper-medium");
    (utf8 "large", utf8 "openai/whisper-large") ].

Fixpoint models_getitem (name : pystr) (ms : list (pystr * pystr)) : outcome pystr :=
  match ms with
  | [] => Raise KeyError
  | (n, m) :: ms' => if decide (n = name) then Ret m else models_getitem name ms'
  end.

(** [range(n)] *)
Definition range (n : nat) : list Z := map Z.of_nat (seq 0 n).

(** [asyncio.gather] over the tasks, under a completion order.

    A task is given by its result.  The event loop completes the tasks in
    the order [arrival] (task numbers, each when its response arrives);
    [gather] keeps one slot per task, in the order the tasks were passed,
    stores each result in the slot of its task, re-raises the first
    exception a task raises, and returns the slots once every one is
    filled.  [None]: some task has not completed, [gather] is still
    waiting. *)
Fixpoint gather_loop {B} (tasks : list (outcome B)) (arrival : list nat)
    (slots : list (option B)) : option (outcome (list B)) :=
  match arrival with
  | [] => match mapM id slots with
          | Some results => Some (Ret results)
          | None => None
          end
  | i :: arrival' =>
    match tasks !! i with
    | Some (Ret r) => gather_loop tasks arrival' (<[i := Some r]> slots)
    | Some (Raise e) => Some (Raise e)
    | None => gather_loop tasks arrival' slots
    end
  end.

Definition gather {B} (tasks : list (outcome B)) (arrival : list nat)
  : option (outcome (list B)) :=
  gather_loop tasks arrival (replicate (length tasks) None).

(** ["\n\n".join(xs)]: every item must be a [str]. *)
Fixpoint py_join (sep : pystr) (xs : list value) : outcome pystr :=
  match xs with
  | [] => Ret []
  | [VStr s] => Ret s
  | VStr s :: xs' => obind (py_join sep xs') (fun rest => Ret (s ++ sep ++ rest))
  | _ => Raise TypeError
  end.

Section Program.
Context `{PyLib} `{Env} {Audio : Type} `{AudioLib Audio} `{Whisper Audio}.

(** An exported chunk: the path it was written to and the audio in it. *)
Definition chunk_name (i : Z) : pystr :=
  utf8 "chunk_" ++ str_of_int i ++ utf8 ".mp3".

Definition fragment_audio (audio_path chunk_dir : pystr)
  : outcome (list (pystr * Audio)) :=
  audio ← from_file audio_path;
  let duration_ms := audio_len audio in
  if duration_ms <=? 10 * 60 * 1000 then
    let output_path := path_join chunk_dir (utf8 "chunk_0.mp3") in
    mret [(output_path, audio)]
  else
    let chunk_len := duration_ms / 4 in
    mret
      (fold_left
         (fun chunk_paths i =>
            let start := i * chunk_len in
            let end_ := if i <? 3 then (i + 1) * chunk_len else duration_ms in
            let chunk := audio_slice audio start end_ in
            let path := path_join chunk_dir (chunk_name i) in
            chunk_paths ++ [(path, chunk)])
         (range 4) []).

(** One request: the text of the reply, or the error marker. *)
Definition transcribe_chunk (file : pystr * Audio) (model_url : pystr)
  : outcome value :=
  let audio_data := snd file in
  resp ← post model_url audio_data;
  if status resp =? 200 then
    json_data ← json resp;
    py_get json_data (utf8 "text") (VStr [])
  else
    let error := text resp in
    mret (VStr (utf8 "[ERROR] " ++ str_of_int (status resp) ++ utf8 ": " ++ error)).

(** [None]: the event loop never hands a result back. *)
Definition transcribe_all_chunks (chunk_paths : list (pystr * Audio))
    (model : pystr) (arrival : list nat) : option (outcome (list value)) :=
  match models_getitem model WHISPER_MODELS with
  | Raise e => Some (Raise e)
  | Ret name =>
    let model_url := utf8 "https://api-inference.huggingface.co/models/" ++ name in
    let tasks := map (fun path => transcribe_chunk path model_url) chunk_paths in
    gather tasks arrival
  end.

Definition save_transcription (text output_dir base_name : pystr) : M pystr :=
  let path := path_join output_dir (base_name ++ utf8 ".txt") in
  _ ← write_file path text;
  mret path.

(** [for x in summary.get(key, []): content += prefix + str(x) + "\n"] *)
Definition bullet_list (gemini_summary : value) (key prefix : pystr)
    (markdown_content : pystr) : outcome pystr :=
  items ← py_get gemini_summary key (VList []) ≫= py_iter;
  mret (fold_left (fun acc x => acc ++ prefix ++ fstr x ++ utf8 "
") items markdown_content).

(** The f-string the note starts with, in two parts: the title and the
    metadata, then the executive summary and the first heading. *)
Definition summary_metadata (original_filename gemini_model : pystr) : pystr :=
    utf8 "# Resumen de Clase - "
    ++ original_filename
    ++ utf8 "

## Metadatos
- **Fecha:** "
    ++ current_date
    ++ utf8 "
- **Hora:** "
    ++ current_time
    ++ utf8 "
- **Archivo original:** "
    ++ original_filename
    ++ utf8 "
- **Modelo IA:** "
    ++ gemini_model
    ++ utf8 "

".

Definition summary_header (resumen : value) (original_filename gemini_model : pystr)
  : pystr :=
  summary_metadata original_filename gemini_model ++
    utf8 "## Resumen Ejecutivo
"
    ++ fstr resumen
    ++ utf8 "

## Puntos Clave Principales
".

Definition summary_markdown (gemini_summary : value)
    (original_filename gemini_model : pystr) : outcome pystr :=
  resumen ← py_get gemini_summary (utf8 "resumen_ejecutivo") (VStr (utf8 "No disponible"));
  let markdown_content := summary_header resumen original_filename gemini_model in
  markdown_content ← bullet_list gemini_summary (utf8 "puntos_clave") (utf8 "- ") markdown_content;
  let markdown_content := markdown_content ++ utf8 "
## Conceptos Importantes
" in
  markdown_content ← bullet_list gemini_summary (utf8 "conceptos_importantes") (utf8 "- ") markdown_content;
  let markdown_content := markdown_content ++ utf8 "
## Preguntas y Dudas
" in
  markdown_content ← bullet_list gemini_summary (utf8 "preguntas_dudas") (utf8 "- ") markdown_content;
  let markdown_content := markdown_content ++ utf8 "
## Tareas y Acciones
" in
  markdown_content ← bullet_list gemini_summary (utf8 "tareas_acciones") (utf8 "- [ ] ") markdown_content;
  let markdown_content := markdown_content ++ utf8 "
## Detalles Adicionales
" in
  markdown_content ← bullet_list gemini_summary (utf8 "detalles_adicionales") (utf8 "- ") markdown_content;
  let markdown_content := markdown_content ++ utf8 "
## Estructura del Contenido
" in
  bullet_list gemini_summary (utf8 "estructura_contenido") (utf8 "- ") markdown_content.

Definition create_obsidian_summary_only (gemini_summary : value)
    (original_filename output_path gemini_model : pystr) : M unit :=
  markdown_content ← lift (summary_markdown gemini_summary original_filename gemini_model);
  write_file output_path markdown_content.

Definition build_prompt (text : pystr) : pystr :=
    utf8 "
Eres un asistente especializado en crear resúmenes académicos detallados en español.

Analiza esta transcripción y genera un resumen completo en español.

TRANSCRIPCIÓN:
"
    ++ text
    ++ utf8q "

Crea un análisis con:
1. RESUMEN EJECUTIVO: Un párrafo completo (3-5 oraciones) que capture la esencia de la sesión
2. PUNTOS CLAVE PRINCIPALES: Lista (3-8 puntos) con explicaciones de cada tema abordado
3. CONCEPTOS IMPORTANTES: Términos técnicos, teorías, definiciones importantes
4. PREGUNTAS Y DUDAS: Interrogantes, discusiones y puntos de reflexión mencionados
5. TAREAS Y ACCIONES: Exámenes, trabajos, fechas, entregas mencionadas
6. DETALLES ADICIONALES: Ejemplos dados, referencias mencionadas, datos específicos
7. ESTRUCTURA DEL CONTENIDO: Organización de los temas tratados

IMPORTANTE: Responde ÚNICAMENTE con un JSON válido usando estas claves exactas:
{
    ~resumen_ejecutivo~: ~string con párrafo detallado~,
    ~puntos_clave~: [~explicación del punto 1~, ~explicación del punto 2~],
    ~conceptos_importantes~: [~concepto: explicación~, ~concepto: explicación~],
    ~preguntas_dudas~: [~pregunta con contexto~, ~pregunta con contexto~],
    ~tareas_acciones~: [~tarea específica~, ~acción específica~],
    ~detalles_adicionales~: [~ejemplo relevante~, ~dato específico~],
    ~estructura_contenido~: [~tema 1: descripción~, ~tema 2: descripción~]
}

Solo JSON, sin texto adicional.
".

(** [content] as [json.loads] receives it. *)
Definition strip_fences (response_text : pystr) : pystr :=
  let content := strip response_text in
  let content :=
    if startswith content (utf8 "```json") then drop 7 content
    else if startswith content (utf8 "```") then drop 3 content
    else content in
  if endswith content (utf8 "```")
  then take (length content - 3) content
  else content.

(** [gemini_model.generate_content(prompt, generation_config=...)] with the
    fixed [model_config] *)
Definition summary_request (model prompt : pystr) : Request :=
  {| req_model := model; req_prompt := prompt;
     req_max_output_tokens := Some 4096;
     req_temperature := Some (utf8 "0.7") |}.

Definition generate_gemini_summary (text model : pystr) : M value :=
  api_key ← getenv_api_key;
  if negb (V1.set_and_nonempty api_key) then mret VNone
  else
    let prompt := build_prompt text in
    try_except
      (response_text ← call_backend (summary_request model prompt);
       let content := strip_fences response_text in
       match json_loads content with
       | None => lift (Raise (json_loads_error content))
       | Some summary_json => lift (V1.fill_required_keys summary_json)
       end)
      (fun _ => mret VNone).

(** The parsed command line. *)
Record Args : Type := {
  audio_path : pystr;
  model : pystr;
  output_dir : pystr
}.

(** [main], after [parser.parse_args()], under the completion order
    [arrival] of the chunk requests.  [None]: the event loop never hands the
    transcriptions back. *)
Definition main (args : Args) (arrival : list nat) : option (M unit) :=
  let base_name := path_base_name (audio_path args) in
  let chunk_dir := utf8 "./chunks" in
  match fragment_audio (audio_path args) chunk_dir with
  | Raise e => Some (lift (Raise e))
  | Ret chunk_paths =>
    match transcribe_all_chunks chunk_paths (model args) arrival with
    | None => None
    | Some transcriptions =>
      Some
        (transcriptions ← lift transcriptions;
         full_text ← lift (py_join (utf8 "

") transcriptions);
         txt_path ← save_transcription full_text (output_dir args) base_name;
         summary_json ← generate_gemini_summary full_text (utf8 "gemini-1.5-flash");
         let summary_path := path_join (output_dir args) (base_name ++ utf8 "_resumen.md") in
         create_obsidian_summary_only summary_json base_name summary_path
           (utf8 "gemini-1.5-flash"))
    end
  end.

End Program.

End V2.

(** ** A concrete library and world, to run the program on examples *)

Module Json.

(** The white space [json] skips. *)
Definition is_ws (c : N) : bool :=
  ((c =? 32) || (c =? 9) || (c =? 10) || (c =? 13))%N.

Fixpoint skip_ws (s : pystr) : pystr :=
  match s with
  | c :: s' => if is_ws c then skip_ws s' else s
  | [] => []
  end.

Definition is_digit (c : N) : bool := ((48 <=? c) && (c <=? 57))%N.

Definition hex_digit (c : N) : option N :=
  if is_digit c then Some (c - 48)%N
  else if ((97 <=? c) && (c <=? 102))%N then Some (c - 87)%N
  else if ((65 <=? c) && (c <=? 70))%N then Some (c - 55)%N
  else None.

(** Four hexadecimal digits, as after a backslash and [u]. *)
Definition read_hex4 (s : pystr) : option (N * pystr) :=
  match s with
  | a :: b :: c :: d :: rest =>
    match hex_digit a, hex_digit b, hex_digit c, hex_digit d with
    | Some x, Some y, Some z, Some t =>
      Some ((((x * 16 + y) * 16 + z) * 16 + t)%N, rest)
    | _, _, _, _ => None
    end
  | _ => None
  end.

Definition simple_escape (c : N) : option N :=
  if (c =? 34)%N then Some 34%N          (* quote *)
  else if (c =? 92)%N then Some 92%N     (* backslash *)
  else if (c =? 47)%N then Some 47%N     (* slash *)
  else if (c =? 98)%N then Some 8%N      (* b *)
  else if (c =? 102)%N then Some 12%N    (* f *)
  else if (c =? 110)%N then Some 10%N    (* n *)
  else if (c =? 114)%N then Some 13%N    (* r *)
  else if (c =? 116)%N then Some 9%N     (* t *)
  else None.

(** The characters of a string after its opening quote, up to the closing
    one; [acc] holds what was read, last character first. *)
Fixpoint string_body (fuel : nat) (s acc : pystr) : option (pystr * pystr) :=
  match fuel with
  | O => None
  | S fuel' =>
    match s with
    | [] => None
    | c :: rest =>
      if (c =? 34)%N then Some (rev acc, rest)
      else if (c =? 92)%N then
        match rest with
        | [] => None
        | e :: rest' =>
          if (e =? 117)%N then
            match read_hex4 rest' with
            | None => None
            | Some (hi, rest'') =>
              let paired :=
                if ((55296 <=? hi) && (hi <=? 56319))%N then
                  match rest'' with
                  | b :: u :: rest3 =>
                    if ((b =? 92) && (u =? 117))%N then
                      match read_hex4 rest3 with
                      | Some (lo, rest4) =>
                        if ((56320 <=? lo) && (lo <=? 57343))%N
                        then Some ((65536 + (hi - 55296) * 1024 + (lo - 56320))%N, rest4)
                        else None
                      | None => None
                      end
                    else None
                  | _ => None
                  end
                else None in
              match paired with
              | Some (cp, rest4) => string_body fuel' rest4 (cp :: acc)
              | None => string_body fuel' rest'' (hi :: acc)
              end
            end
          else
            match simple_escape e with
            | Some x => string_body fuel' rest' (x :: acc)
            | None => None
            end
        end
      else if (c <? 32)%N then None
      else string_body fuel' rest (c :: acc)
    end
  end.

Definition parse_string (s : pystr) : option (pystr * pystr) :=
  string_body (S (length s)) s [].

(** The longest run of digits at the start. *)
Fixpoint span_digits (s : pystr) : pystr * pystr :=
  match s with
  | c :: s' =>
    if is_digit c then let '(ds, rest) := span_digits s' in (c :: ds, rest)
    else ([], s)
  | [] => ([], [])
  end.

Definition digits_value (ds : pystr) : Z :=
  fold_left (fun acc d => acc * 10 + Z.of_N (d - 48)) ds 0.

(** A number: the integer part, then a fraction and an exponent when they
    are complete.  Without either the value is an [int]. *)
Definition parse_number (s : pystr) : option (value * pystr) :=
  let '(negative, s1) :=
    match s with
    | c :: s' => if (c =? 45)%N then (true, s') else (false, s)
    | [] => (false, s)
    end in
  let '(int_digits, s2) :=
    match s1 with
    | c :: s' => if (c =? 48)%N then ([c], s') else span_digits s1
    | [] => ([], [])
    end in
  match int_digits with
  | [] => None
  | _ =>
    let '(frac, s3) :=
      match s2 with
      | c :: s' =>
        if (c =? 46)%N then
          match span_digits s' with
          | ([], _) => ([], s2)
          | (ds, rest) => (c :: ds, rest)
          end
        else ([], s2)
      | [] => ([], s2)
      end in
    let '(expo, s4) :=
      match s3 with
      | c :: s' =>
        if ((c =? 101) || (c =? 69))%N then
          let '(sign, s'') :=
            match s' with
            | g :: t => if ((g =? 43) || (g =? 45))%N then ([g], t) else ([], s')
            | [] => ([], s')
            end in
          match span_digits s'' with
          | ([], _) => ([], s3)
          | (ds, rest) => (c :: sign ++ ds, rest)
          end
        else ([], s3)
      | [] => ([], s3)
      end in
    let sign := if negative then [45%N] else [] in
    match frac, expo with
    | [], [] =>
      Some (VInt (if negative then - digits_value int_digits else digits_value int_digits), s4)
    | _, _ => Some (VFloat (sign ++ int_digits ++ frac ++ expo), s4)
    end
  end.

Definition literals : list (pystr * value) :=
  [ (utf8 "null", VNone); (utf8 "true", VBool true); (utf8 "false", VBool false);
    (utf8 "NaN", VFloat (utf8 "NaN")); (utf8 "Infinity", VFloat (utf8 "Infinity"));
    (utf8 "-Infinity", VFloat (utf8 "-Infinity")) ].

Fixpoint parse_literal (ls : list (pystr * value)) (s : pystr)
  : option (value * pystr) :=
  match ls with
  | [] => None
  | (word, v) :: ls' =>
    if startswith s word then Some (v, drop (length word) s)
    else parse_literal ls' s
  end.

(** One value at the start of [s], and what follows it.  [members] reads
    an object from its first key on, [elements] an array from its first
    item on. *)
Fixpoint parse_value (fuel : nat) (s : pystr) : option (value * pystr) :=
  match fuel with
  | O => None
  | S fuel' =>
    match s with
    | [] => None
    | c :: rest =>
      if (c =? 34)%N then
        match parse_string rest with
        | Some (str, rest') => Some (VStr str, rest')
        | None => None
        end
      else if (c =? 123)%N then
        match skip_ws rest with
        | d :: rest' =>
          if (d =? 125)%N then Some (VDict [], rest')
          else members fuel' (d :: rest') []
        | [] => None
        end
      else if (c =? 91)%N then
        match skip_ws rest with
        | d :: rest' =>
          if (d =? 93)%N then Some (VList [], rest')
          else elements fuel' (d :: rest') []
        | [] => None
        end
      else
        match parse_literal literals s with
        | Some r => Some r
        | None => parse_number s
        end
    end
  end
with members (fuel : nat) (s : pystr) (acc : list (pystr * value))
  : option (value * pystr) :=
  match fuel with
  | O => None
  | S fuel' =>
    match s with
    | q :: rest =>
      if (q =? 34)%N then
        match parse_string rest with
        | Some (key, rest1) =>
          match skip_ws rest1 with
          | colon :: rest2 =>
            if (colon =? 58)%N then
              match parse_value fuel' (skip_ws rest2) with
              | Some (v, rest3) =>
                match skip_ws rest3 with
                | d :: rest4 =>
                  if (d =? 44)%N then members fuel' (skip_ws rest4) (acc ++ [(key, v)])
                  else if (d =? 125)%N
                  then Some (VDict (Dict.of_pairs (acc ++ [(key, v)])), rest4)
                  else None
                | [] => None
                end
              | None => None
              end
            else None
          | [] => None
          end
        | None => None
        end
      else None
    | [] => None
    end
  end
with elements (fuel : nat) (s : pystr) (acc : list value)
  : option (value * pystr) :=
  match fuel with
  | O => None
  | S fuel' =>
    match parse_value fuel' s with
    | Some (v, rest) =>
      match skip_ws rest with
      | d :: rest' =>
        if (d =? 44)%N then elements fuel' (skip_ws rest') (acc ++ [v])
        else if (d =? 93)%N then Some (VList (acc ++ [v]), rest')
        else None
      | [] => None
      end
    | None => None
    end
  end.

(** [json.loads(s)]: one value, white space around it, nothing else. *)
Definition loads (s : pystr) : option value :=
  match parse_value (S (length s)) (skip_ws s) with
  | Some (v, rest) =>
    match skip_ws rest with
    | [] => Some v
    | _ => None
    end
  | None => None
  end.

(** A string as [json.dumps] writes it with [ensure_ascii=False]: the
    quote, the backslash and the control characters are escaped, every
    other character is written as it is. *)
Definition dump_char (c : N) : pystr :=
  if (c =? 34)%N then [92; 34]%N
  else if (c =? 92)%N then [92; 92]%N
  else if (c =? 10)%N then [92; 110]%N
  else if (c =? 13)%N then [92; 114]%N
  else if (c =? 9)%N then [92; 116]%N
  else if (c =? 8)%N then [92; 98]%N
  else if (c =? 12)%N then [92; 102]%N
  else if (c <? 32)%N then
    [92; 117; 48; 48; 48 + c / 16;
     if (c mod 16 <? 10) then 48 + c mod 16 else 87 + c mod 16]%N
  else [c].

Definition dump_string (s : pystr) : pystr :=
  34%N :: flat_map dump_char s ++ [34%N].

(** The line break and the indentation before an item at [level]. *)
Definition indent_of (level : nat) : pystr :=
  10%N :: repeat 32%N (2 * level).

(** [json.dumps(v, indent=2, ensure_ascii=False)]; a float is written as
    it was read. *)
Fixpoint dumps (level : nat) (v : value) : pystr :=
  match v with
  | VNone => utf8 "null"
  | VBool true => utf8 "true"
  | VBool false => utf8 "false"
  | VInt n => str_of_int n
  | VFloat x => x
  | VStr s => dump_string s
  | VList [] => utf8 "[]"
  | VList l =>
    utf8 "["
    ++ join (utf8 ",") (map (fun x => indent_of (S level) ++ dumps (S level) x) l)
    ++ indent_of level ++ utf8 "]"
  | VDict [] => utf8 "{}"
  | VDict d =>
    utf8 "{"
    ++ join (utf8 ",")
         (map (fun kv =>
                 let '(k, x) := kv in
                 indent_of (S level) ++ dump_string k ++ utf8 ": " ++ dumps (S level) x)
              d)
    ++ indent_of level ++ utf8 "}"
  end.

(** The deepest nesting of brackets and braces outside strings. *)
Fixpoint depth_from (s : pystr) (in_string escaped : bool) (cur best : nat) : nat :=
  match s with
  | [] => best
  | c :: s' =>
    if in_string then
      if escaped then depth_from s' true false cur best
      else if (c =? 92)%N then depth_from s' true true cur best
      else if (c =? 34)%N then depth_from s' false false cur best
      else depth_from s' true false cur best
    else if (c =? 34)%N then depth_from s' true false cur best
    else if ((c =? 91) || (c =? 123))%N
    then depth_from s' false false (S cur) (Nat.max best (S cur))
    else if ((c =? 93) || (c =? 125))%N
    then depth_from s' false false (Nat.pred cur) best
    else depth_from s' false false cur best
  end.

Definition depth (s : pystr) : nat := depth_from s false false 0 0.

End Json.

Module Concrete.

(** [str(v)] for the values of the examples: exact on [None], booleans,
    integers and strings; a list or dict is shown with its strings in
    single quotes and without escapes. *)
Fixpoint show (quoted : bool) (v : value) : pystr :=
  match v with
  | VNone => utf8 "None"
  | VBool true => utf8 "True"
  | VBool false => utf8 "False"
  | VInt n => str_of_int n
  | VFloat x => x
  | VStr s => if quoted then utf8 "'" ++ s ++ utf8 "'" else s
  | VList l => utf8 "[" ++ join (utf8 ", ") (map (show true) l) ++ utf8 "]"
  | VDict d =>
    utf8 "{" ++
    join (utf8 ", ")
      (map (fun kv => let '(k, x) := kv in utf8 "'" ++ k ++ utf8 "': " ++ show true x) d)
    ++ utf8 "}"
  end.

(** A float read from a lexeme is zero when its digits before the exponent
    are all zero. *)
Fixpoint mantissa_zero (s : pystr) : bool :=
  match s with
  | [] => true
  | c :: s' =>
    if ((c =? 101) || (c =? 69))%N then true
    else if ((49 <=? c) && (c <=? 57) || (c =? 78) || (c =? 73))%N then false
    else mantissa_zero s'
  end.

(** The last component of a POSIX path. *)
Definition last_component (p : pystr) : pystr :=
  List.last (filter (fun c => c ≠ [] ∧ c ≠ utf8 ".") (split 47 p)) [].

(** The part of a file name before its last suffix. *)
Definition drop_suffix (name : pystr) : pystr :=
  match rev (split 46 name) with
  | suffix :: before =>
    let root := join (utf8 ".") (rev before) in
    match suffix, root with
    | [], _ => name
    | _, [] => name
    | _, _ => root
    end
  | [] => name
  end.

Definition join_path (dir name : pystr) : pystr :=
  if startswith name (utf8 "/") then name
  else match dir with
       | [] => name
       | _ => if endswith dir (utf8 "/") then dir ++ name
              else dir ++ utf8 "/" ++ name
       end.

(** The library of the examples. Its parser has no limit of nesting or of
    digits: a text it does not read is not JSON, and the exception is
    [json.JSONDecodeError]. *)
Definition py : PyLib := {|
  json_loads := Json.loads;
  json_loads_error := fun _ => JSONDecodeError;
  json_dumps := fun v => Some (Json.dumps 0 v);
  format_value := show false;
  float_truth := fun x => negb (mantissa_zero x);
  path_stem := fun p => drop_suffix (last_component p);
  path_join := join_path;
  path_base_name := fun p => drop_suffix (List.last (split 47 p) [])
|}.

(** A world where the backend answers every request with [reply], every
    path is writable, and Whisper writes [transcript] next to the audio. *)
Definition env (reply : outcome pystr) (transcript : pystr) : Env := {|
  generate_content := fun _ => reply;
  writable := fun _ => true;
  current_date := utf8 "2025-01-31";
  current_time := utf8 "09:30";
  audio_exists := fun _ => true;
  whisper := fun audio_file _ output_dir =>
    WhisperDone
      [(join_path output_dir (drop_suffix (last_component audio_file) ++ utf8 ".txt"),
        transcript)]
|}.

(** The same world with a read-only disk. *)
Definition env_read_only (reply : outcome pystr) (transcript : pystr) : Env := {|
  generate_content := fun _ => reply;
  writable := fun _ => false;
  current_date := utf8 "2025-01-31";
  current_time := utf8 "09:30";
  audio_exists := fun _ => true;
  whisper := fun audio_file _ output_dir =>
    WhisperDone
      [(join_path output_dir (drop_suffix (last_component audio_file) ++ utf8 ".txt"),
        transcript)]
|}.

Definition world (key : option pystr) : World :=
  {| files := ∅; gemini_api_key := key; sent := [] |}.

(** Audio as its duration in milliseconds; a slice is clamped to the
    audio, as pydub does. *)
Definition duration_audio (decoded : outcome Z) : V2.AudioLib Z := {|
  V2.from_file := fun _ => decoded;
  V2.audio_len := fun a => Z.max 0 a;
  V2.audio_slice := fun a s e => Z.max 0 (Z.min e (Z.max 0 a) - Z.max 0 s)
|}.

(** Audio as its list of millisecond frames. *)
Definition frames_audio (A : Type) (decode : pystr -> outcome (list A))
  : V2.AudioLib (list A) := {|
  V2.from_file := decode;
  V2.audio_len := fun a => len a;
  V2.audio_slice := fun a s e => take (Z.to_nat e - Z.to_nat s) (drop (Z.to_nat s) a)
|}.

(** A remote Whisper that reads a number of milliseconds back. *)
Definition echo_whisper : V2.Whisper Z := {|
  V2.post := fun _ a =>
    Ret {| V2.status := 200;
           V2.json := Ret (VDict [(utf8 "text", VStr (utf8 "audio de " ++ str_of_int a ++ utf8 " ms"))]);
           V2.text := [] |}
|}.

End Concrete.

(** ** The specification's words, where a claim compares them with the code *)

Module Spec.

(** The sentence fragments of a transcript, as the specification describes
    them: the text is split into lines, each line that is not blank is split
    on the period, and the pieces are trimmed and kept when not empty. *)
Definition fragments (text : pystr) : list pystr :=
  flat_map
    (fun line => filter (fun s => s ≠ []) (map strip (split 46 line)))
    (filter (fun line => strip line ≠ []) (split 10 text)).

(** A summary record as the data model has it: one string and six lists of
    strings. *)
Record SummaryRecord : Type := {
  resumen_ejecutivo : pystr;
  puntos_clave : list pystr;
  conceptos_importantes : list pystr;
  preguntas_dudas : list pystr;
  tareas_acciones : list pystr;
  detalles_adicionales : list pystr;
  estructura_contenido : list pystr
}.

(** The dict that holds such a record. *)
Definition to_value (r : SummaryRecord) : value :=
  VDict
    [ (utf8 "resumen_ejecutivo", VStr (resumen_ejecutivo r));
      (utf8 "puntos_clave", VList (map VStr (puntos_clave r)));
      (utf8 "conceptos_importantes", VList (map VStr (conceptos_importantes r)));
      (utf8 "preguntas_dudas", VList (map VStr (preguntas_dudas r)));
      (utf8 "tareas_acciones", VList (map VStr (tareas_acciones r)));
      (utf8 "detalles_adicionales", VList (map VStr (detalles_adicionales r)));
      (utf8 "estructura_contenido", VList (map VStr (estructura_contenido r))) ].

(** A section of a note: nothing for an empty list, otherwise the heading,
    one line per item and a blank line. *)
Definition section (heading : pystr) (line : Z -> pystr -> pystr)
    (items : list pystr) : pystr :=
  match items with
  | [] => []
  | _ =>
    heading ++ concat (map (fun ix => line (fst ix) (snd ix)) (enumerate 1 items))
    ++ utf8 "
"
  end.

(** The line of a numbered item, of a bulleted item with a given mark, and
    of an item shown as a name and its description when it holds a colon. *)
Definition numbered_line (i : Z) (s : pystr) : pystr :=
  str_of_int i ++ utf8 ". " ++ s ++ utf8 "
".

Definition marked_line (mark : pystr) (i : Z) (s : pystr) : pystr :=
  mark ++ s ++ utf8 "
".

Definition concepto_line (i : Z) (s : pystr) : pystr :=
  match split1 58 s with
  | [name; desc] =>
    utf8 "- **" ++ strip name ++ utf8 ":** " ++ strip desc ++ utf8 "
"
  | _ => utf8 "- **" ++ s ++ utf8 "**
"
  end.

Definition tema_line (i : Z) (s : pystr) : pystr :=
  match split1 58 s with
  | [name; desc] =>
    str_of_int i ++ utf8 ". **" ++ strip name ++ utf8 ":** " ++ strip desc ++ utf8 "
"
  | _ => str_of_int i ++ utf8 ". " ++ s ++ utf8 "
"
  end.

(** The items of a list, one line each, under a heading that is always
    there. *)
Definition bullets (mark : pystr) (items : list pystr) : pystr :=
  concat (map (fun s => mark ++ s ++ utf8 "
") items).

(** The record with nothing in it. *)
Definition empty_record : SummaryRecord :=
  {| resumen_ejecutivo := []; puntos_clave := []; conceptos_importantes := [];
     preguntas_dudas := []; tareas_acciones := []; detalles_adicionales := [];
     estructura_contenido := [] |}.

(** How many of the three output files a run of version 1 produced: the
    two notes count when their write succeeded, the plain transcript was
    found after the transcription. *)
Definition files_produced (summary_written transcription_written : bool) : Z :=
  (if summary_written then 1 else 0) + (if transcription_written then 1 else 0) + 1.

(** The files after a write that may have failed. *)
Definition write_if (ok : bool) (path content : pystr) (fs : gmap pystr pystr)
  : gmap pystr pystr :=
  if ok then <[path := content]> fs else fs.


(** The call to the backend failed: it raised (no network, a status that is
    not 2xx, a blocked answer) or it brought an empty text. *)
Definition backend_failed (reply : outcome pystr) : Prop :=
  match reply with
  | Raise _ => True
  | Ret t => t = []
  end.

(** The dict after the required keys were filled in: each missing key is
    given the empty list. *)
Definition fill_defaults (keys : list pystr) (d : list (pystr * value))
  : list (pystr * value) :=
  fold_left (fun d k => if Dict.mem k d then d else Dict.set k (VList []) d) keys d.

(** A record is complete when it has the seven required fields. *)
Definition complete (d : list (pystr * value)) : bool :=
  forallb (fun k => Dict.mem k d) V1.required_keys.

End Spec.

(** ** More of the program

    The parts of the transcript note of version 1, and the test script
    [test_gemini_api.py]. *)

(** Text that UTF-8 can encode: it holds no surrogate code point. *)
Definition encodable (s : pystr) : bool :=
  forallb (fun c => negb ((55296 <=? c) && (c <=? 57343))%N) s.

(** [print] of a text computed from the answers, on a standard output that
    encodes as UTF-8: a lone surrogate cannot be written. *)
Definition print_text (s : pystr) : outcome unit :=
  if encodable s then Ret tt else Raise UnicodeEncodeError.

Module V1Parts.
Section Parts.
Context `{PyLib} `{Env}.

(** The paragraphs of the transcript note. *)
Definition paragraphs_of (text_content : pystr) : list pystr :=
  map strip (filter (fun p => V1.nonempty (strip p) = true) (split 10 text_content)).

(** The f-string the transcript note starts with. *)
Definition transcription_header (text_content original_filename : pystr) : pystr :=
  let paragraphs := paragraphs_of text_content in
    utf8 "# Transcripción de Clase - "
    ++ path_stem original_filename
    ++ utf8 "

## Metadatos
- **Fecha:** "
    ++ current_date
    ++ utf8 "
- **Hora:** "
    ++ current_time
    ++ utf8 "
- **Archivo original:** "
    ++ original_filename
    ++ utf8 "
- **Procesado con:** Whisper (OpenAI)
- **Tipo:** Transcripción completa (sin resumen)
- **Longitud:** "
    ++ str_of_int (len text_content)
    ++ utf8 " caracteres
- **Párrafos:** "
    ++ str_of_int (len paragraphs)
    ++ utf8 " secciones

## Transcripción Completa

".

(** One section of the transcript note. *)
Definition transcription_section (i : Z) (paragraph : pystr) : pystr :=
  utf8 "### Sección " ++ str_of_int i ++ utf8 "

" ++ paragraph ++ utf8 "

".

(** The f-string the transcript note ends with. *)
Definition transcription_footer : pystr :=
    utf8 "---

## Tags
#transcripcion #clase #notas #audio #whisper #texto-completo

## Notas para Edición
- [ ] Revisar y corregir errores de transcripción
- [ ] Añadir puntuación donde sea necesario
- [ ] Identificar términos técnicos para crear enlaces [[concepto]]
- [ ] Marcar secciones importantes con **texto en negrita**
- [ ] Agregar > citas donde sea relevante
- [ ] Crear índice de temas si es necesario

## Sugerencias de Uso
- [ ] Usar esta transcripción junto con el resumen generado
- [ ] Buscar términos específicos con Cmd+F / Ctrl+F
- [ ] Extraer citas textuales importantes
- [ ] Identificar ejemplos específicos mencionados

---
*Transcripción generada automáticamente con Voice Note Processor*
*Procesado el "
    ++ current_date
    ++ utf8 " a las "
    ++ current_time
    ++ utf8 "*
".

End Parts.
End V1Parts.

Module TestScript.
Section Script.
Context `{PyLib} `{Env}.

Definition json_prompt : pystr :=
  utf8q "
Generate a JSON response with this structure:
{
    ~test~: ~success~,
    ~message~: ~This is a test response in Spanish~,
    ~numbers~: [1, 2, 3]
}

Respond ONLY with valid JSON, no additional text.
".

(** A call of [model.generate_content(prompt)] without a configuration. *)
Definition plain_request (prompt : pystr) : Request :=
  {| req_model := utf8 "gemini-1.5-flash"; req_prompt := prompt;
     req_max_output_tokens := None; req_temperature := None |}.

(** [clean_content] as [json.loads] receives it in the script: only the
    fence that names JSON is removed at the start. *)
Definition clean (response_text : pystr) : pystr :=
  let clean_content := strip response_text in
  let clean_content :=
    if startswith clean_content (utf8 "```json") then drop 7 clean_content
    else clean_content in
  let clean_content :=
    if endswith clean_content (utf8 "```")
    then take (length clean_content - 3) clean_content
    else clean_content in
  strip clean_content.

(** The inner [try]: [True] when the answer parses and can be shown, and
    [True] again from the handler of [json.JSONDecodeError] when the raw
    answer can be shown. Another exception of [json.loads], or of a
    [print], leaves it. *)
Definition check_json (response_text : pystr) : outcome bool :=
  otry
    (match json_loads (clean response_text) with
     | Some parsed_json =>
       match json_dumps parsed_json with
       | Some shown => _ ← print_text shown; mret true
       | None => Raise RecursionError
       end
     | None => Raise (json_loads_error (clean response_text))
     end)
    (fun e => match e with
              | JSONDecodeError => _ ← print_text response_text; mret true
              | _ => Raise e
              end).

Definition test_gemini_api_simple : M bool :=
  api_key ← getenv_api_key;
  if negb (V1.set_and_nonempty api_key) then mret false
  else
    try_except
      (response_text ← call_backend (plain_request (utf8 "Say hello in Spanish"));
       if V1.nonempty response_text then
         _ ← lift (print_text response_text);
         json_response_text ← call_backend (plain_request json_prompt);
         if V1.nonempty json_response_text then lift (check_json json_response_text)
         else mret false
       else mret false)
      (fun _ => mret false).

End Script.
End TestScript.

(** More worlds for the examples. *)
Module Worlds.

(** Whisper exits with an error; the backend answers [reply]. *)
Definition env_whisper_fails (reply : outcome pystr) : Env := {|
  generate_content := fun _ => reply;
  writable := fun _ => true;
  current_date := utf8 "2025-01-31";
  current_time := utf8 "09:30";
  audio_exists := fun _ => true;
  whisper := fun _ _ _ => WhisperFailed
|}.

(** The backend answers the first prompt with [hello] and every other one
    with [reply]. *)
Definition env_two_replies (first : pystr) (hello reply : outcome pystr) : Env := {|
  generate_content := fun r => if decide (req_prompt r = first) then hello else reply;
  writable := fun _ => true;
  current_date := utf8 "2025-01-31";
  current_time := utf8 "09:30";
  audio_exists := fun _ => true;
  whisper := fun _ _ _ => WhisperFailed
|}.

(** The library of the examples with an interpreter that allows [limit]
    levels of nesting: on a text nested more deeply, [json.loads] raises
    [RecursionError]. *)
Definition py_limited (limit : nat) : PyLib := {|
  json_loads := fun s =>
    if (Json.depth s <=? limit)%nat then Json.loads s else None;
  json_loads_error := fun s =>
    if (Json.depth s <=? limit)%nat then JSONDecodeError else RecursionError;
  json_dumps := @json_dumps Concrete.py;
  format_value := @format_value Concrete.py;
  float_truth := @float_truth Concrete.py;
  path_stem := @path_stem Concrete.py;
  path_join := @path_join Concrete.py;
  path_base_name := @path_base_name Concrete.py
|}.


(** A remote Whisper whose connection breaks on the chunk of 0
    milliseconds. *)
Definition broken_whisper : V2.Whisper Z := {|
  V2.post := fun _ a =>
    if a =? 0 then Raise OSError
    else Ret {| V2.status := 200;
                V2.json := Ret (VDict [(utf8 "text", VStr (utf8 "hola"))]);
                V2.text := [] |}
|}.

End Worlds.

(** Definitions used to state further properties. *)
Module Facts.

(** The text that stands for a chunk in the transcript: the [text] entry of
    the answer, or the error marker. *)
Definition chunk_text (resp : V2.Response) : pystr :=
  if V2.status resp =? 200 then
    match V2.json resp with
    | Ret (VDict d) =>
      match Dict.get (utf8 "text") d with
      | Some (VStr s) => s
      | _ => []
      end
    | _ => []
    end
  else utf8 "[ERROR] " ++ str_of_int (V2.status resp) ++ utf8 ": " ++ V2.text resp.


(** A value that is not a container: [None], a boolean or a number. *)
Definition scalar (v : value) : Prop :=
  match v with
  | VNone | VBool _ | VInt _ | VFloat _ => True
  | _ => False
  end.

(** Python finds every required key in the value: [key in v] is true for
    each of them. *)
Definition holds_required_keys (v : value) : bool :=
  forallb (fun key => match py_in key v with Ret true => true | _ => false end)
          V1.required_keys.

(** The field [key] of the record is the list of strings [items], or is
    missing and [items] is empty. *)
Definition holds_strings (key : pystr) (d : list (pystr * value))
    (items : list pystr) : Prop :=
  Dict.get key d = Some (VList (map VStr items))
  \/ (Dict.get key d = None /\ items = []).

(** A parser that reads only objects from a text that starts with an
    opening brace, as [json.loads] does. *)
Definition objects_from_braces `{PyLib} : Prop :=
  forall j v, startswith j [123%N] = true -> json_loads j = Some v ->
              exists d, v = VDict d.

End Facts.
(** * Properties *)

(** ** Strings and lists *)

Section ListFacts.
Context {A : Type}.

Lemma take_min_len (l : list A) (n : Z) :
  0 <= n -> take (Z.to_nat (Z.min n (len l))) l = take (Z.to_nat n) l.
Proof.
  intros Hn. unfold len.
  destruct (Z.le_ge_cases n (Z.of_nat (length l))) as [Hle | Hge].
  - now rewrite Z.min_l.
  - rewrite Z.min_r by lia. rewrite Nat2Z.id.
    rewrite !take_ge; [reflexivity | lia | lia].
Qed.

Lemma fold_left_extend {B} (g : B -> list A) (keep : B -> bool) (xs : list B)
    (acc : list A) :
  fold_left (fun acc x => if keep x then acc ++ g x else acc) xs acc
  = acc ++ flat_map g (filter (fun x => keep x = true) xs).
Proof.
  revert acc. induction xs as [| x xs IH]; intros acc; simpl.
  - now rewrite app_nil_r.
  - rewrite IH. rewrite filter_cons. destruct (keep x) eqn:Hk.
    + rewrite decide_True by reflexivity. simpl. now rewrite app_assoc.
    + rewrite decide_False by discriminate. reflexivity.
Qed.

End ListFacts.

Lemma nonempty_true (s : pystr) : V1.nonempty s = true <-> s ≠ [].
Proof. destruct s; simpl; split; congruence. Qed.

Lemma map_filter_strip (xs : list pystr) :
  map strip (filter (fun s => V1.nonempty (strip s) = true) xs)
  = filter (fun s => s ≠ []) (map strip xs).
Proof.
  induction xs as [| x xs IH]; [reflexivity |].
  rewrite filter_cons. simpl map. rewrite filter_cons.
  destruct (decide (V1.nonempty (strip x) = true)) as [Hx | Hx].
  - rewrite decide_True by now apply nonempty_true. simpl. now rewrite IH.
  - rewrite decide_False by (intros Hne; apply Hx; now apply nonempty_true).
    exact IH.
Qed.

Lemma filter_nonblank (xs : list pystr) :
  filter (fun l => V1.nonempty (strip l) = true) xs
  = filter (fun l => strip l ≠ []) xs.
Proof.
  apply list_filter_iff. intros x. apply nonempty_true.
Qed.

(** The loop of [generate_basic_summary] collects the fragments of the
    specification. *)
Lemma collect_sentences_fragments (text : pystr) :
  V1.collect_sentences (split 10 text) = Spec.fragments text.
Proof.
  unfold V1.collect_sentences, Spec.fragments.
  rewrite (fold_left_extend
             (fun line => map strip (filter (fun s => V1.nonempty (strip s) = true) (split 46 line)))
             (fun line => V1.nonempty (strip line))).
  simpl. rewrite filter_nonblank.
  apply flat_map_ext. intros line. apply map_filter_strip.
Qed.

Lemma split_cons_inv (sep : N) (s : pystr) :
  exists w ws, split sep s = w :: ws.
Proof.
  destruct s as [| c s']; simpl; [eauto |].
  destruct (c =? sep)%N; [eauto |]. destruct (split sep s'); eauto.
Qed.

(** A piece of [s.split(sep)] holds no separator and only characters of
    [s]. *)
Lemma split_pieces (sep : N) (s w : pystr) :
  w ∈ split sep s -> (sep ∉ w) /\ (forall c, c ∈ w -> c ∈ s).
Proof.
  revert w. induction s as [| c s' IH]; intros w Hw; simpl in Hw.
  - apply list_elem_of_singleton in Hw. subst w. split; [| easy].
    apply not_elem_of_nil.
  - destruct (N.eqb_spec c sep) as [-> | Hne].
    + apply elem_of_cons in Hw. destruct Hw as [-> | Hw].
      * split; [apply not_elem_of_nil | easy].
      * destruct (IH w Hw) as [H1 H2]. split; [exact H1 |].
        intros d Hd. right. now apply H2.
    + destruct (split sep s') as [| w0 ws] eqn:Hs.
      * apply list_elem_of_singleton in Hw. subst w. split.
        -- intros Hin. apply list_elem_of_singleton in Hin. congruence.
        -- intros d Hd. apply list_elem_of_singleton in Hd. subst d. left.
      * apply elem_of_cons in Hw. destruct Hw as [-> | Hw].
        -- destruct (IH w0 ltac:(left)) as [H1 H2]. split.
           ++ intros Hin. apply elem_of_cons in Hin.
              destruct Hin as [Heq | Hin]; [congruence | now apply H1].
           ++ intros d Hd. apply elem_of_cons in Hd.
              destruct Hd as [-> | Hd]; [left | right; now apply H2].
        -- destruct (IH w ltac:(now right)) as [H1 H2]. split; [exact H1 |].
           intros d Hd. right. now apply H2.
Qed.

Lemma elem_of_rev {A} (l : list A) (x : A) : x ∈ rev l <-> x ∈ l.
Proof. rewrite !list_elem_of_In. symmetry. apply in_rev. Qed.

Lemma elem_of_take_in {A} (l : list A) (n : nat) (x : A) : x ∈ take n l -> x ∈ l.
Proof.
  intros Hx. apply elem_of_take in Hx. destruct Hx as (i & Hi & _).
  apply list_elem_of_lookup. eauto.
Qed.

Lemma lstrip_elem (s : pystr) (c : N) : c ∈ lstrip s -> c ∈ s.
Proof.
  induction s as [| d s' IH]; simpl; [easy |].
  destruct (isspace d); [| easy]. intros Hc. right. now apply IH.
Qed.

Lemma strip_elem (s : pystr) (c : N) : c ∈ strip s -> c ∈ s.
Proof.
  unfold strip, rstrip. intros Hc.
  apply (proj1 (elem_of_rev _ _)) in Hc. apply lstrip_elem in Hc.
  apply (proj1 (elem_of_rev _ _)) in Hc. now apply lstrip_elem.
Qed.

(** Every fragment is non-empty and holds neither a period nor a line
    break. *)
Lemma fragments_shape (text f : pystr) :
  f ∈ Spec.fragments text -> f ≠ [] /\ (46%N ∉ f) /\ (10%N ∉ f).
Proof.
  unfold Spec.fragments. intros Hf.
  apply list_elem_of_In, in_flat_map in Hf. destruct Hf as (line & Hline & Hf).
  apply list_elem_of_In, list_elem_of_filter in Hline. destruct Hline as [_ Hline].
  apply list_elem_of_In, list_elem_of_filter in Hf. destruct Hf as [Hne Hf].
  apply list_elem_of_In, in_map_iff in Hf. destruct Hf as (piece & <- & Hpiece).
  apply list_elem_of_In in Hpiece.
  destruct (split_pieces _ _ _ Hpiece) as [Hdot Hsub].
  destruct (split_pieces _ _ _ Hline) as [Hnl _].
  split; [exact Hne |]. split.
  - intros Hin. apply Hdot. now apply strip_elem.
  - intros Hin. apply Hnl, Hsub. now apply strip_elem.
Qed.

Lemma endswith_app (s p : pystr) : endswith (s ++ p) p = true.
Proof.
  unfold endswith. rewrite rev_app_distr.
  generalize (rev s). induction (rev p) as [| c r IH]; intros t.
  - destruct t; reflexivity.
  - simpl. rewrite N.eqb_refl. apply IH.
Qed.

(** ** The fallback summarizer *)

(** The record [generate_basic_summary] returns. *)
Lemma generate_basic_summary_record (text : pystr) :
  V1.generate_basic_summary text
  = Spec.to_value
      {| Spec.resumen_ejecutivo :=
           join (utf8 ". ") (take 5 (Spec.fragments text)) ++ utf8 ".";
         Spec.puntos_clave :=
           [ utf8 "Transcripción automática procesada";
             utf8 "Análisis básico sin IA externa";
             utf8 "Texto de " ++ str_of_int (len text) ++ utf8 " caracteres procesado" ];
         Spec.conceptos_importantes :=
           [ utf8 "Audio transcrito"; utf8 "Procesamiento local" ];
         Spec.preguntas_dudas := [];
         Spec.tareas_acciones :=
           [ utf8 "Revisar transcripción completa";
             utf8 "Configurar acceso a Gemini para análisis avanzado" ];
         Spec.detalles_adicionales := [];
         Spec.estructura_contenido := [] |}.
Proof.
  unfold V1.generate_basic_summary, Spec.to_value. cbv zeta.
  rewrite collect_sentences_fragments.
  rewrite take_min_len by lia. reflexivity.
Qed.

(** C7. For every transcript, [generate_basic_summary] returns a record
    whose executive summary is the first at most five sentence fragments of
    the whole document (the text split into lines, every line that is not
    blank split on the period, the pieces trimmed and kept when not empty),
    joined with a period and a space and closed by a period; the other six
    fields are fixed entries, one of them reporting the number of characters
    of the transcript. *)
Theorem generate_basic_summary_spec (text : pystr) :
  let chosen := take 5 (Spec.fragments text) in
  V1.generate_basic_summary text
  = Spec.to_value
      {| Spec.resumen_ejecutivo := join (utf8 ". ") chosen ++ utf8 ".";
         Spec.puntos_clave :=
           [ utf8 "Transcripción automática procesada";
             utf8 "Análisis básico sin IA externa";
             utf8 "Texto de " ++ str_of_int (len text) ++ utf8 " caracteres procesado" ];
         Spec.conceptos_importantes :=
           [ utf8 "Audio transcrito"; utf8 "Procesamiento local" ];
         Spec.preguntas_dudas := [];
         Spec.tareas_acciones :=
           [ utf8 "Revisar transcripción completa";
             utf8 "Configurar acceso a Gemini para análisis avanzado" ];
         Spec.detalles_adicionales := [];
         Spec.estructura_contenido := [] |}
  /\ (length chosen <= 5)%nat
  /\ endswith (join (utf8 ". ") chosen ++ utf8 ".") (utf8 ".") = true
  /\ (forall f, f ∈ chosen -> f ≠ [] /\ (46%N ∉ f) /\ (10%N ∉ f)).
Proof.
  intros chosen. repeat split.
  - apply generate_basic_summary_record.
  - subst chosen. rewrite length_take. lia.
  - apply endswith_app.
  - apply (fragments_shape text). subst chosen.
    eapply elem_of_take_in; eassumption.
  - apply (fragments_shape text f). subst chosen.
    eapply elem_of_take_in; eassumption.
  - apply (fragments_shape text f). subst chosen.
    eapply elem_of_take_in; eassumption.
Qed.

(** Three lines of two sentences each: five of the six fragments are
    kept. *)
Example generate_basic_summary_three_lines :
  Dict.get (utf8 "resumen_ejecutivo")
    match V1.generate_basic_summary
            (utf8 "Uno. Dos.
Tres. Cuatro.
Cinco. Seis.") with
    | VDict d => d
    | _ => []
    end
  = Some (VStr (utf8 "Uno. Dos. Tres. Cuatro. Cinco.")).
Proof. vm_compute. reflexivity. Qed.

(** ** The audio segmenter *)

Lemma duration_audio_laws (decoded : outcome Z) :
  @V2.AudioLaws Z (Concrete.duration_audio decoded).
Proof. split; simpl; intros; lia. Qed.

Lemma frames_audio_laws (A : Type) (decode : pystr -> outcome (list A)) :
  @V2.AudioLaws (list A) (Concrete.frames_audio A decode).
Proof.
  split; simpl; unfold len; intros.
  - lia.
  - rewrite length_take, length_drop. lia.
Qed.

Section Segmenter.
Context `{PyLib} {Audio : Type} `{V2.AudioLib Audio} `{!V2.AudioLaws Audio}.

(** The four slices of a long recording. *)
Lemma fragment_audio_long (audio_path chunk_dir : pystr) (audio : Audio) :
  V2.from_file audio_path = Ret audio ->
  (V2.audio_len audio <=? 600000) = false ->
  V2.fragment_audio audio_path chunk_dir
  = Ret (map (fun i =>
                (path_join chunk_dir (V2.chunk_name i),
                 V2.audio_slice audio (i * (V2.audio_len audio / 4))
                   (if i <? 3 then (i + 1) * (V2.audio_len audio / 4)
                    else V2.audio_len audio)))
           [0; 1; 2; 3]).
Proof.
  intros Hfile Hlong. unfold V2.fragment_audio. rewrite Hfile. simpl.
  change (10 * 60 * 1000) with 600000. now rewrite Hlong.
Qed.

(** C4. For every audio input that decodes: a recording of at most ten
    minutes (600000 ms, the bound included) gives exactly one chunk, the
    whole recording; a longer one gives exactly four chunks, the first
    three of length [d / 4] (integer division) and the last of length
    [d / 4 + d mod 4], so that the four lengths add up to the duration
    [d]. *)
Theorem fragment_audio_chunks (audio_path chunk_dir : pystr) (audio : Audio) :
  V2.from_file audio_path = Ret audio ->
  exists chunks,
    V2.fragment_audio audio_path chunk_dir = Ret chunks /\
    let d := V2.audio_len audio in
    if d <=? 10 * 60 * 1000
    then map snd chunks = [audio]
    else exists c0 c1 c2 c3,
        map snd chunks = [c0; c1; c2; c3] /\
        V2.audio_len c0 = d / 4 /\
        V2.audio_len c1 = d / 4 /\
        V2.audio_len c2 = d / 4 /\
        V2.audio_len c3 = d / 4 + d mod 4 /\
        V2.audio_len c0 + V2.audio_len c1 + V2.audio_len c2 + V2.audio_len c3 = d.
Proof.
  intros Hfile. change (10 * 60 * 1000) with 600000.
  destruct (V2.audio_len audio <=? 600000) eqn:Hd.
  - exists [(path_join chunk_dir (utf8 "chunk_0.mp3"), audio)]. split.
    + unfold V2.fragment_audio. rewrite Hfile. simpl.
      change (10 * 60 * 1000) with 600000. now rewrite Hd.
    + simpl. now rewrite Hd.
  - eexists. split; [exact (fragment_audio_long _ _ audio Hfile Hd) |].
    cbv zeta. rewrite Hd.
    set (d := V2.audio_len audio).
    assert (Hlt : 600000 < d) by (apply Z.leb_gt; exact Hd).
    pose proof (Z.div_mod d 4 ltac:(lia)) as Hdm.
    pose proof (Z.mod_pos_bound d 4 ltac:(lia)) as Hmod.
    do 4 eexists. split; [reflexivity |].
    simpl. rewrite !V2.audio_len_slice by (fold d; lia). lia.
Qed.

End Segmenter.

(** A recording of forty minutes: four chunks of ten minutes. *)
Lemma fragment_audio_chunks_witness :
  @V2.from_file Z (Concrete.duration_audio (Ret 2400000)) (utf8 "clase.m4a") = Ret 2400000 /\
  exists chunks,
    @V2.fragment_audio Concrete.py Z (Concrete.duration_audio (Ret 2400000)) (utf8 "clase.m4a") (utf8 "./chunks")
    = Ret chunks /\
    let d := @V2.audio_len Z (Concrete.duration_audio (Ret 2400000)) 2400000 in
    if d <=? 10 * 60 * 1000
    then map snd chunks = [2400000]
    else exists c0 c1 c2 c3,
        map snd chunks = [c0; c1; c2; c3] /\
        @V2.audio_len Z (Concrete.duration_audio (Ret 2400000)) c0 = d / 4 /\
        @V2.audio_len Z (Concrete.duration_audio (Ret 2400000)) c1 = d / 4 /\
        @V2.audio_len Z (Concrete.duration_audio (Ret 2400000)) c2 = d / 4 /\
        @V2.audio_len Z (Concrete.duration_audio (Ret 2400000)) c3 = d / 4 + d mod 4 /\
        @V2.audio_len Z (Concrete.duration_audio (Ret 2400000)) c0
        + @V2.audio_len Z (Concrete.duration_audio (Ret 2400000)) c1
        + @V2.audio_len Z (Concrete.duration_audio (Ret 2400000)) c2
        + @V2.audio_len Z (Concrete.duration_audio (Ret 2400000)) c3 = d.
Proof.
  split; [reflexivity |].
  apply (@fragment_audio_chunks Concrete.py Z (Concrete.duration_audio (Ret 2400000))
           (duration_audio_laws (Ret 2400000)) (utf8 "clase.m4a") (utf8 "./chunks") 2400000).
  reflexivity.
Defined.

(** Exactly ten minutes: one chunk.  Forty minutes: four chunks of ten
    minutes.  One millisecond more than ten minutes: the last chunk takes
    the remainder. *)
Example fragment_audio_ten_minutes :
  @V2.fragment_audio Concrete.py Z (Concrete.duration_audio (Ret 600000))
    (utf8 "a.mp3") (utf8 "./chunks")
  = Ret [(utf8 "./chunks/chunk_0.mp3", 600000)].
Proof. vm_compute. reflexivity. Qed.

(** ** Concurrent transcription: the order of the results *)

Section Gather.
Context {B : Type}.
Implicit Types (results : list B) (arrival done : list nat) (slots : list (option B)).










End Gather.


Section Transcription.
Context {Audio : Type} `{V2.Whisper Audio}.


End Transcription.



(** The same three chunks, evaluated: the transcript does not depend on the
    order of arrival. *)
Example transcribe_all_chunks_orders :
  let chunk_paths :=
    [ (utf8 "./chunks/chunk_0.mp3", 100); (utf8 "./chunks/chunk_1.mp3", 200);
      (utf8 "./chunks/chunk_2.mp3", 300) ] in
  @V2.transcribe_all_chunks Z Concrete.echo_whisper chunk_paths (utf8 "small")
    [2%nat; 0%nat; 1%nat]
  = @V2.transcribe_all_chunks Z Concrete.echo_whisper chunk_paths (utf8 "small")
      [0%nat; 1%nat; 2%nat]
  /\ @V2.transcribe_all_chunks Z Concrete.echo_whisper chunk_paths (utf8 "small")
       [2%nat; 0%nat]
     = None.
Proof. split; vm_compute; reflexivity. Qed.

(** ** The summarization client: soft failure *)

Section SoftFail.
Context `{PyLib} `{Env}.

Lemma try_except_returns {A} (body : M A) (handler : exn -> M A) (w : World) :
  (forall e w', exists v w'', handler e w' = (Ret v, w'')) ->
  exists v w', try_except body handler w = (Ret v, w').
Proof.
  intros Hh. unfold try_except. destruct (body w) as [[v | e] w'].
  - eauto.
  - apply Hh.
Qed.

(** Whatever happens inside, [generate_gemini_summary] returns. *)
Lemma V1_generate_gemini_summary_returns (text model : pystr) (w : World) :
  exists v w', V1.generate_gemini_summary text model w = (Ret v, w').
Proof.
  apply try_except_returns. intros e w'. now exists VNone, w'.
Qed.

Lemma V2_generate_gemini_summary_returns (text model : pystr) (w : World) :
  exists v w', V2.generate_gemini_summary text model w = (Ret v, w').
Proof.
  unfold V2.generate_gemini_summary, mbind, M_bind, getenv_api_key.
  destruct (negb (V1.set_and_nonempty (gemini_api_key w))).
  - now exists VNone, w.
  - apply try_except_returns. intros e w'. now exists VNone, w'.
Qed.

Lemma V2_strip_fences_empty : V2.strip_fences [] = [].
Proof. reflexivity. Qed.

(** C6. Whenever the call to the generative backend fails (it raises, as
    on a network failure or a status that is not 2xx, or the answer is
    empty), [generate_gemini_summary] returns [None] to its caller and does
    not raise, in both versions. *)
Theorem generate_gemini_summary_soft_fail (text model : pystr) (w : World) :
  json_loads [] = None ->
  (forall model_config,
     Spec.backend_failed
       (generate_content
          (V1.summary_request model (V1.build_prompt (V1.truncate_text text)) model_config))) ->
  Spec.backend_failed
    (generate_content (V2.summary_request model (V2.build_prompt text))) ->
  fst (V1.generate_gemini_summary text model w) = Ret VNone
  /\ fst (V2.generate_gemini_summary text model w) = Ret VNone.
Proof.
  intros Hempty Hfail1 Hfail2. split.
  - unfold V1.generate_gemini_summary, try_except, mbind, M_bind, getenv_api_key, lift.
    destruct (negb (V1.set_and_nonempty (gemini_api_key w))); [reflexivity |].
    cbv zeta. destruct (V1.model_config_for model) as [cfg | e]; [| reflexivity].
    unfold call_backend. specialize (Hfail1 cfg).
    destruct (generate_content _) as [t | e]; [| reflexivity].
    simpl in Hfail1. subst t. reflexivity.
  - unfold V2.generate_gemini_summary, try_except, mbind, M_bind, getenv_api_key, lift.
    destruct (negb (V1.set_and_nonempty (gemini_api_key w))); [reflexivity |].
    cbv zeta. unfold call_backend.
    destruct (generate_content _) as [t | e]; [| reflexivity].
    simpl in Hfail2. subst t. rewrite V2_strip_fences_empty, Hempty. reflexivity.
Qed.

End SoftFail.

(** A backend that answers 503 to every request. *)
Lemma generate_gemini_summary_soft_fail_witness :
  let py := Concrete.py in
  let env := Concrete.env (Raise (BackendError 503)) (utf8 "hola") in
  let w := Concrete.world (Some (utf8 "clave")) in
  fst (@V1.generate_gemini_summary py env (utf8 "hola") (utf8 "gemini-1.5-flash") w)
  = Ret VNone
  /\ fst (@V2.generate_gemini_summary py env (utf8 "hola") (utf8 "gemini-1.5-flash") w)
     = Ret VNone.
Proof.
  intros py env w.
  apply (@generate_gemini_summary_soft_fail py env).
  - reflexivity.
  - intros model_config. exact I.
  - exact I.
Defined.

(** An empty answer and a raised error, evaluated in both versions. *)
Example generate_gemini_summary_empty_answer :
  let w := Concrete.world (Some (utf8 "clave")) in
  fst (@V1.generate_gemini_summary Concrete.py (Concrete.env (Ret []) []) (utf8 "hola")
         (utf8 "gemini-1.5-flash") w) = Ret VNone
  /\ fst (@V2.generate_gemini_summary Concrete.py (Concrete.env (Ret []) []) (utf8 "hola")
            (utf8 "gemini-1.5-flash") w) = Ret VNone.
Proof. split; vm_compute; reflexivity. Qed.

(** ** The summarization client: what is sent *)

Lemma model_config_for_returns (model : pystr) :
  exists model_config, V1.model_config_for model = Ret model_config.
Proof.
  unfold V1.model_config_for.
  destruct (V1.models_get (utf8 "gemini-1.5-flash") V1.get_available_gemini_models)
    as [fallback |] eqn:Hflash.
  - eauto.
  - vm_compute in Hflash. discriminate.
Qed.

Lemma len_app {A} (a b : list A) : len (a ++ b) = len a + len b.
Proof. unfold len. rewrite length_app. lia. Qed.

Lemma truncation_marker_len : len V1.truncation_marker = 34.
Proof. vm_compute. reflexivity. Qed.

Lemma truncate_text_short (text : pystr) :
  len text <= 12000 -> V1.truncate_text text = text.
Proof.
  intros Hlen. unfold V1.truncate_text, V1.max_chars.
  destruct (Z.gtb_spec (len text) 12000); [lia | reflexivity].
Qed.

Lemma truncate_text_long (text : pystr) :
  12000 < len text ->
  V1.truncate_text text = take (Z.to_nat 12000) text ++ V1.truncation_marker
  /\ len (take (Z.to_nat 12000) text) = 12000.
Proof.
  intros Hlen. unfold V1.truncate_text, V1.max_chars.
  destruct (Z.gtb_spec (len text) 12000); [| lia]. split.
  - reflexivity.
  - unfold len in *. rewrite length_take. lia.
Qed.

Lemma truncate_text_bound (text : pystr) :
  len (V1.truncate_text text) <= 12034.
Proof.
  destruct (Z.le_gt_cases (len text) 12000) as [Hle | Hgt].
  - rewrite truncate_text_short by exact Hle. lia.
  - destruct (truncate_text_long text Hgt) as [Htrunc Htake].
    rewrite Htrunc, len_app, Htake, truncation_marker_len. lia.
Qed.

Section Sent.
Context `{PyLib} `{Env}.

Lemma V1_generate_sent (text model : pystr) (w : World) :
  V1.set_and_nonempty (gemini_api_key w) = true ->
  exists model_config,
    sent (snd (V1.generate_gemini_summary text model w))
    = sent w ++ [V1.summary_request model (V1.build_prompt (V1.truncate_text text))
                   model_config].
Proof.
  intros Hkey. destruct (model_config_for_returns model) as [cfg Hcfg].
  exists cfg.
  unfold V1.generate_gemini_summary, try_except, mbind, M_bind, getenv_api_key, lift.
  rewrite Hkey. cbv zeta. rewrite Hcfg. unfold call_backend.
  destruct (generate_content _) as [t | e]; [| reflexivity].
  destruct (negb (V1.nonempty t)); [reflexivity |].
  destruct (V1.parse_response t); reflexivity.
Qed.

Lemma V2_generate_sent (text model : pystr) (w : World) :
  V1.set_and_nonempty (gemini_api_key w) = true ->
  sent (snd (V2.generate_gemini_summary text model w))
  = sent w ++ [V2.summary_request model (V2.build_prompt text)].
Proof.
  intros Hkey.
  unfold V2.generate_gemini_summary, try_except, mbind, M_bind, getenv_api_key, lift.
  rewrite Hkey. cbv zeta. unfold call_backend.
  destruct (generate_content _) as [t | e]; [| reflexivity].
  destruct (json_loads (V2.strip_fences t)) as [v |]; [| reflexivity].
  destruct (V1.fill_required_keys v); reflexivity.
Qed.

(** C3, as the code has it. With the API key set, version 1 sends one
    request whose prompt embeds the transcript when it has at most 12000
    characters, and otherwise its first 12000 characters followed by the
    truncation marker, so at most 12034 characters of transcript text;
    version 2 sends one request whose prompt embeds the whole transcript,
    whatever its length. *)
Theorem summary_request_text (text model : pystr) (w : World) :
  V1.set_and_nonempty (gemini_api_key w) = true ->
  (exists model_config,
     sent (snd (V1.generate_gemini_summary text model w))
     = sent w ++ [V1.summary_request model (V1.build_prompt (V1.truncate_text text))
                    model_config])
  /\ (len text <= 12000 -> V1.truncate_text text = text)
  /\ (12000 < len text ->
      V1.truncate_text text = take (Z.to_nat 12000) text ++ V1.truncation_marker
      /\ len (take (Z.to_nat 12000) text) = 12000)
  /\ len (V1.truncate_text text) <= 12034
  /\ sent (snd (V2.generate_gemini_summary text model w))
     = sent w ++ [V2.summary_request model (V2.build_prompt text)].
Proof.
  intros Hkey. split; [now apply V1_generate_sent |].
  split; [apply truncate_text_short |].
  split; [apply truncate_text_long |].
  split; [apply truncate_text_bound |].
  now apply V2_generate_sent.
Qed.

End Sent.

(** A short transcript in version 1 and version 2. *)
Lemma summary_request_text_witness :
  let py := Concrete.py in
  let env := Concrete.env (Ret []) [] in
  let text := utf8 "hola" in
  let model := utf8 "gemini-1.5-flash" in
  let w := Concrete.world (Some (utf8 "clave")) in
  (exists model_config,
     sent (snd (@V1.generate_gemini_summary py env text model w))
     = sent w ++ [V1.summary_request model (V1.build_prompt (V1.truncate_text text))
                    model_config])
  /\ (len text <= 12000 -> V1.truncate_text text = text)
  /\ (12000 < len text ->
      V1.truncate_text text = take (Z.to_nat 12000) text ++ V1.truncation_marker
      /\ len (take (Z.to_nat 12000) text) = 12000)
  /\ len (V1.truncate_text text) <= 12034
  /\ sent (snd (@V2.generate_gemini_summary py env text model w))
     = sent w ++ [V2.summary_request model (V2.build_prompt text)].
Proof.
  intros py env text model w.
  apply (@summary_request_text py env text model w).
  reflexivity.
Defined.

(** C3 fails on version 2: a transcript of 12001 characters is sent whole,
    and no truncation marker is added. *)
Lemma summary_request_text_unbounded :
  let text := replicate (Z.to_nat 12001) 97%N in
  let model := utf8 "gemini-1.5-flash" in
  let w := Concrete.world (Some (utf8 "clave")) in
  let request := V2.summary_request model (V2.build_prompt text) in
  len text = 12001
  /\ sent (snd (@V2.generate_gemini_summary Concrete.py (Concrete.env (Ret []) []) text model w))
     = [request]
  /\ contains (req_prompt request) text = true
  /\ contains (req_prompt request) V1.truncation_marker = false.
Proof. repeat split; vm_compute; reflexivity. Qed.

(** The same transcript in version 1: cut after 12000 characters. *)
Example summary_request_text_truncated :
  let text := replicate (Z.to_nat 12001) 97%N in
  V1.truncate_text text = replicate (Z.to_nat 12000) 97%N ++ V1.truncation_marker
  /\ len (V1.truncate_text text) = 12034.
Proof. split; vm_compute; reflexivity. Qed.

(** ** The response normalizer *)

Lemma fallback_structure_record (response_text : pystr) :
  V1.fallback_structure response_text
  = Spec.to_value
      {| Spec.resumen_ejecutivo :=
           if len response_text >? 800
           then take 800 response_text ++ utf8 "..."
           else response_text;
         Spec.puntos_clave :=
           [ utf8 "Contenido procesado por Gemini"; utf8 "Revisar formato de respuesta" ];
         Spec.conceptos_importantes := [ utf8 "Respuesta sin formato JSON válido" ];
         Spec.preguntas_dudas := [];
         Spec.tareas_acciones := [ utf8 "Revisar configuración de prompt" ];
         Spec.detalles_adicionales := [ utf8 "Contenido generado pero formato incorrecto" ];
         Spec.estructura_contenido :=
           [ utf8 "Gemini respondió correctamente"; utf8 "Formato de JSON necesita ajuste" ] |}.
Proof. reflexivity. Qed.

Section Normalizer.
Context `{PyLib} `{Env}.

(** When no JSON can be read, the inner [try] of version 1 returns the
    degraded record if the direct parse raised [json.JSONDecodeError], and
    lets any other exception of the direct parse through. *)
Lemma parse_response_undecodable (t : pystr) :
  json_loads (V1.strip_fences t) = None ->
  (forall j, search_braces (V1.strip_fences t) = Some j -> json_loads j = None) ->
  V1.parse_response t
  = match json_loads_error (V1.strip_fences t) with
    | JSONDecodeError => Ret (V1.fallback_structure t)
    | e => Raise e
    end.
Proof.
  intros Hdirect Hspan. unfold V1.parse_response. cbv zeta. rewrite Hdirect.
  destruct (json_loads_error (V1.strip_fences t)); try reflexivity.
  destruct (search_braces (V1.strip_fences t)) as [j |] eqn:Hj.
  - now rewrite (Hspan j eq_refl).
  - reflexivity.
Qed.

Lemma parse_response_fallback (t : pystr) :
  json_loads (V1.strip_fences t) = None ->
  json_loads_error (V1.strip_fences t) = JSONDecodeError ->
  (forall j, search_braces (V1.strip_fences t) = Some j -> json_loads j = None) ->
  V1.parse_response t = Ret (V1.fallback_structure t).
Proof.
  intros Hdirect Herror Hspan.
  rewrite (parse_response_undecodable t Hdirect Hspan). now rewrite Herror.
Qed.

(** C2, as the code has it. When the backend answers with a text that is not
    empty and from which no JSON can be read (neither from the text without
    its fences nor from its span between the first opening and the last
    closing brace), version 1 returns the degraded record if the direct
    parse failed with [json.JSONDecodeError]: the executive summary is the
    raw answer, cut after 800 characters and followed by three dots when it
    is longer, and the other six fields are fixed lists of placeholder
    strings (empty for [preguntas_dudas]). If the direct parse failed with
    another exception ([RecursionError] on a text nested too deeply,
    [ValueError] on an integer of too many digits), the inner handler does
    not take it and version 1 returns [None]. Version 2 returns [None] in
    every case. Neither raises. *)
Theorem generate_gemini_summary_unparsable (text model t : pystr) (w : World) :
  V1.set_and_nonempty (gemini_api_key w) = true ->
  t ≠ [] ->
  (forall model_config,
     generate_content
       (V1.summary_request model (V1.build_prompt (V1.truncate_text text)) model_config)
     = Ret t) ->
  generate_content (V2.summary_request model (V2.build_prompt text)) = Ret t ->
  json_loads (V1.strip_fences t) = None ->
  (forall j, search_braces (V1.strip_fences t) = Some j -> json_loads j = None) ->
  json_loads (V2.strip_fences t) = None ->
  fst (V1.generate_gemini_summary text model w)
  = Ret (match json_loads_error (V1.strip_fences t) with
         | JSONDecodeError =>
           Spec.to_value
             {| Spec.resumen_ejecutivo :=
                  if len t >? 800 then take 800 t ++ utf8 "..." else t;
                Spec.puntos_clave :=
                  [ utf8 "Contenido procesado por Gemini";
                    utf8 "Revisar formato de respuesta" ];
                Spec.conceptos_importantes := [ utf8 "Respuesta sin formato JSON válido" ];
                Spec.preguntas_dudas := [];
                Spec.tareas_acciones := [ utf8 "Revisar configuración de prompt" ];
                Spec.detalles_adicionales :=
                  [ utf8 "Contenido generado pero formato incorrecto" ];
                Spec.estructura_contenido :=
                  [ utf8 "Gemini respondió correctamente";
                    utf8 "Formato de JSON necesita ajuste" ] |}
         | _ => VNone
         end)
  /\ fst (V2.generate_gemini_summary text model w) = Ret VNone.
Proof.
  intros Hkey Hne Hreply1 Hreply2 Hdirect Hspan Hdirect2. split.
  - rewrite <- fallback_structure_record.
    destruct (model_config_for_returns model) as [cfg Hcfg].
    pose proof (parse_response_undecodable t Hdirect Hspan) as Hparse.
    unfold V1.generate_gemini_summary, try_except, mbind, M_bind, getenv_api_key, lift.
    rewrite Hkey. cbv zeta. rewrite Hcfg. unfold call_backend. rewrite (Hreply1 cfg).
    assert (Hnonempty : negb (V1.nonempty t) = false)
      by (destruct t; [congruence | reflexivity]).
    rewrite Hnonempty, Hparse.
    destruct (json_loads_error (V1.strip_fences t)); reflexivity.
  - unfold V2.generate_gemini_summary, try_except, mbind, M_bind, getenv_api_key, lift.
    rewrite Hkey. cbv zeta. unfold call_backend. rewrite Hreply2.
    now rewrite Hdirect2.
Qed.

End Normalizer.

(** An answer in prose. *)
Lemma generate_gemini_summary_unparsable_witness :
  let py := Concrete.py in
  let t := utf8 "Lo siento, no puedo resumir esto." in
  let env := Concrete.env (Ret t) [] in
  let text := utf8 "hola" in
  let model := utf8 "gemini-1.5-flash" in
  let w := Concrete.world (Some (utf8 "clave")) in
  fst (@V1.generate_gemini_summary py env text model w)
  = Ret (match @json_loads_error py (V1.strip_fences t) with
         | JSONDecodeError =>
           Spec.to_value
             {| Spec.resumen_ejecutivo :=
                  if len t >? 800 then take 800 t ++ utf8 "..." else t;
                Spec.puntos_clave :=
                  [ utf8 "Contenido procesado por Gemini";
                    utf8 "Revisar formato de respuesta" ];
                Spec.conceptos_importantes := [ utf8 "Respuesta sin formato JSON válido" ];
                Spec.preguntas_dudas := [];
                Spec.tareas_acciones := [ utf8 "Revisar configuración de prompt" ];
                Spec.detalles_adicionales :=
                  [ utf8 "Contenido generado pero formato incorrecto" ];
                Spec.estructura_contenido :=
                  [ utf8 "Gemini respondió correctamente";
                    utf8 "Formato de JSON necesita ajuste" ] |}
         | _ => VNone
         end)
  /\ fst (@V2.generate_gemini_summary py env text model w) = Ret VNone.
Proof.
  intros py t env text model w.
  apply (@generate_gemini_summary_unparsable py env text model t w).
  - reflexivity.
  - discriminate.
  - intros model_config. reflexivity.
  - reflexivity.
  - vm_compute. reflexivity.
  - intros j Hj. vm_compute in Hj. discriminate.
  - vm_compute. reflexivity.
Defined.

(** The two cases of version 1 on examples: the answer in prose gives the
    degraded record; an answer of 1100 opening brackets, with an
    interpreter that allows 990 levels of nesting, gives [None]. *)
Example generate_gemini_summary_unparsable_cases :
  let prose := utf8 "Lo siento, no puedo resumir esto." in
  let nested := repeat 91%N 1100 in
  let w := Concrete.world (Some (utf8 "clave")) in
  fst (@V1.generate_gemini_summary Concrete.py (Concrete.env (Ret prose) [])
         (utf8 "hola") (utf8 "gemini-1.5-flash") w)
  = Ret (V1.fallback_structure prose)
  /\ @json_loads_error (Worlds.py_limited 990) nested = RecursionError
  /\ fst (@V1.generate_gemini_summary (Worlds.py_limited 990)
            (Concrete.env (Ret nested) []) (utf8 "hola") (utf8 "gemini-1.5-flash") w)
     = Ret VNone
  /\ fst (@V2.generate_gemini_summary (Worlds.py_limited 990)
            (Concrete.env (Ret nested) []) (utf8 "hola") (utf8 "gemini-1.5-flash") w)
     = Ret VNone.
Proof. repeat split; vm_compute; reflexivity. Qed.

(** C2 fails on version 2: for an answer in prose, on which every parsing
    attempt fails, no degraded record is built; the result is [None]. *)
Lemma generate_gemini_summary_unparsable_V2_none :
  let t := utf8 "Lo siento, no puedo resumir esto." in
  let env := Concrete.env (Ret t) [] in
  let w := Concrete.world (Some (utf8 "clave")) in
  Json.loads (V2.strip_fences t) = None
  /\ search_braces (V2.strip_fences t) = None
  /\ fst (@V2.generate_gemini_summary Concrete.py env (utf8 "hola") (utf8 "gemini-1.5-flash") w)
     = Ret VNone
  /\ fst (@V2.generate_gemini_summary Concrete.py env (utf8 "hola") (utf8 "gemini-1.5-flash") w)
     <> Ret (V1.fallback_structure t).
Proof. repeat split; try (vm_compute; reflexivity). vm_compute. discriminate. Qed.

(** *** Filling in the required keys *)

Lemma dict_get_set_eq (k : pystr) (v : value) (d : list (pystr * value)) :
  Dict.get k (Dict.set k v d) = Some v.
Proof.
  induction d as [| [k' v'] d IH]; simpl.
  - now rewrite decide_True.
  - destruct (decide (k' = k)) as [-> | Hne]; simpl.
    + now rewrite decide_True.
    + now rewrite decide_False.
Qed.

Lemma dict_get_set_ne (k k' : pystr) (v : value) (d : list (pystr * value)) :
  k ≠ k' -> Dict.get k' (Dict.set k v d) = Dict.get k' d.
Proof.
  intros Hne. induction d as [| [k0 v0] d IH]; simpl.
  - now rewrite decide_False.
  - destruct (decide (k0 = k)) as [-> | Hne0]; simpl.
    + now rewrite !decide_False.
    + destruct (decide (k0 = k')); [reflexivity | exact IH].
Qed.

Lemma dict_mem_get (k : pystr) (d : list (pystr * value)) :
  Dict.mem k d = true <-> is_Some (Dict.get k d).
Proof.
  unfold Dict.mem. destruct (Dict.get k d); split; intros Hx;
    try reflexivity; try (eexists; reflexivity); try discriminate.
  destruct Hx as [x Hx]. discriminate.
Qed.

Lemma fill_defaults_keeps (keys : list pystr) (d : list (pystr * value))
    (k : pystr) (v : value) :
  Dict.get k d = Some v -> Dict.get k (Spec.fill_defaults keys d) = Some v.
Proof.
  revert d. induction keys as [| k0 keys IH]; intros d Hk; [exact Hk |].
  simpl. apply IH. destruct (Dict.mem k0 d) eqn:Hmem; [exact Hk |].
  rewrite dict_get_set_ne; [exact Hk |].
  intros ->. unfold Dict.mem in Hmem. rewrite Hk in Hmem. discriminate.
Qed.

Lemma fill_defaults_adds (keys : list pystr) (d : list (pystr * value)) (k : pystr) :
  k ∈ keys -> Dict.get k d = None ->
  Dict.get k (Spec.fill_defaults keys d) = Some (VList []).
Proof.
  revert d. induction keys as [| k0 keys IH]; intros d Hin Hk.
  - now apply not_elem_of_nil in Hin.
  - simpl. destruct (decide (k0 = k)) as [-> | Hne].
    + unfold Dict.mem. rewrite Hk. apply fill_defaults_keeps, dict_get_set_eq.
    + apply elem_of_cons in Hin. destruct Hin as [-> | Hin]; [congruence |].
      apply IH; [exact Hin |].
      destruct (Dict.mem k0 d); [exact Hk |]. now rewrite dict_get_set_ne.
Qed.

Lemma fill_defaults_other (keys : list pystr) (d : list (pystr * value)) (k : pystr) :
  k ∉ keys -> Dict.get k (Spec.fill_defaults keys d) = Dict.get k d.
Proof.
  revert d. induction keys as [| k0 keys IH]; intros d Hout; [reflexivity |].
  simpl. rewrite IH by (intros Hin; apply Hout; now right).
  destruct (Dict.mem k0 d); [reflexivity |].
  apply dict_get_set_ne. intros ->. apply Hout. left.
Qed.

Lemma fill_defaults_complete (d : list (pystr * value)) :
  Spec.complete (Spec.fill_defaults V1.required_keys d) = true.
Proof.
  unfold Spec.complete. apply forallb_forall. intros k Hk.
  apply list_elem_of_In in Hk. apply dict_mem_get.
  destruct (Dict.get k d) as [v |] eqn:Hget.
  - exists v. now apply fill_defaults_keeps.
  - exists (VList []). now apply fill_defaults_adds.
Qed.

(** The key loop on a dict. *)
Lemma fill_keys_dict (keys : list pystr) (d : list (pystr * value)) :
  ofold
    (fun summary_json key =>
       present ← py_in key summary_json;
       if negb present then py_setitem summary_json key (VList [])
       else mret summary_json)
    keys (VDict d)
  = Ret (VDict (Spec.fill_defaults keys d)).
Proof.
  revert d. induction keys as [| k keys IH]; intros d; [reflexivity |].
  simpl. destruct (Dict.mem k d); simpl; apply IH.
Qed.

Lemma fill_required_keys_dict (d : list (pystr * value)) :
  V1.fill_required_keys (VDict d)
  = Ret (VDict (Spec.fill_defaults V1.required_keys d)).
Proof. apply fill_keys_dict. Qed.

Section DirectParse.
Context `{PyLib}.

(** The direct parse, in both versions: when the text without its fences is
    a JSON object, the record returned has the seven required fields; a
    field the object had keeps its value, a required field it lacked is the
    empty list, and nothing else is added. *)
Lemma parse_response_direct (t : pystr) (d : list (pystr * value)) :
  json_loads (V1.strip_fences t) = Some (VDict d) ->
  exists d',
    V1.parse_response t = Ret (VDict d')
    /\ Spec.complete d' = true
    /\ (forall k v, Dict.get k d = Some v -> Dict.get k d' = Some v)
    /\ (forall k, k ∈ V1.required_keys -> Dict.get k d = None ->
                  Dict.get k d' = Some (VList []))
    /\ (forall k, k ∉ V1.required_keys -> Dict.get k d' = Dict.get k d).
Proof.
  intros Hloads. exists (Spec.fill_defaults V1.required_keys d).
  split; [| split; [| split; [| split]]].
  - unfold V1.parse_response. cbv zeta. rewrite Hloads.
    unfold mbind, outcome_bind. now rewrite fill_required_keys_dict.
  - apply fill_defaults_complete.
  - intros k v. apply fill_defaults_keeps.
  - intros k. apply fill_defaults_adds.
  - intros k. apply fill_defaults_other.
Qed.

(** The extraction path of version 1: what [json.loads] reads from the span
    between the braces is returned as it is. *)
Lemma parse_response_extracted (t j : pystr) (v : value) :
  json_loads (V1.strip_fences t) = None ->
  json_loads_error (V1.strip_fences t) = JSONDecodeError ->
  search_braces (V1.strip_fences t) = Some j ->
  json_loads j = Some v ->
  V1.parse_response t = Ret v.
Proof.
  intros Hdirect Herror Hspan Hj. unfold V1.parse_response. cbv zeta.
  now rewrite Hdirect, Herror, Hspan, Hj.
Qed.

End DirectParse.

(** C1 at the input [foo {"a":1} bar]: the direct parse fails, the span
    between the braces is a JSON object, and version 1 returns that object
    with none of the seven required fields. *)
Theorem extraction_path_returns_partial_record :
  let t := utf8q "foo {~a~:1} bar" in
  let env := Concrete.env (Ret t) [] in
  let w := Concrete.world (Some (utf8 "clave")) in
  Json.loads (V1.strip_fences t) = None
  /\ search_braces (V1.strip_fences t) = Some (utf8q "{~a~:1}")
  /\ Json.loads (utf8q "{~a~:1}") = Some (VDict [(utf8 "a", VInt 1)])
  /\ fst (@V1.generate_gemini_summary Concrete.py env (utf8 "hola") (utf8 "gemini-1.5-flash") w)
     = Ret (VDict [(utf8 "a", VInt 1)])
  /\ Spec.complete [(utf8 "a", VInt 1)] = false
  /\ existsb (fun k => Dict.mem k [(utf8 "a", VInt 1)]) V1.required_keys = false.
Proof. repeat split; vm_compute; reflexivity. Qed.

(** The same object read directly is completed. *)
Example direct_parse_completes :
  match @V1.parse_response Concrete.py (utf8q "{~a~:1}") with
  | Ret (VDict d) => Spec.complete d
  | _ => false
  end = true.
Proof. vm_compute. reflexivity. Qed.

(** The examples of the specification: a fenced object with one field, and
    an object inside prose. *)
Example parse_response_fenced :
  @V1.parse_response Concrete.py (utf8q "```json
{~resumen_ejecutivo~: ~x~}
```")
  = Ret (Spec.to_value
           {| Spec.resumen_ejecutivo := utf8 "x"; Spec.puntos_clave := [];
              Spec.conceptos_importantes := []; Spec.preguntas_dudas := [];
              Spec.tareas_acciones := []; Spec.detalles_adicionales := [];
              Spec.estructura_contenido := [] |}).
Proof. vm_compute. reflexivity. Qed.

(** ** The summary note *)

Lemma startswith_nil (s : pystr) : startswith s [] = true.
Proof. destruct s; reflexivity. Qed.

(** [s.split(':', 1)] gives two parts when [s] holds a colon and [s] itself
    otherwise. *)
Lemma split1_colon (s : pystr) :
  if contains s [58%N]
  then exists name desc, split1 58 s = [name; desc]
  else split1 58 s = [s].
Proof.
  induction s as [| c s' IH]; [reflexivity |].
  cbn [contains startswith split1]. rewrite startswith_nil. rewrite (N.eqb_sym 58 c).
  destruct (c =? 58)%N; [eauto |].
  destruct (contains s' [58%N]).
  - destruct IH as (name & desc & ->). eauto.
  - now rewrite IH.
Qed.

Section Rendering.
Context `{PyLib}.

Lemma concepto_line_string (i : Z) (s : pystr) :
  V1.concepto_line i (VStr s) = Ret (Spec.concepto_line i s).
Proof.
  unfold V1.concepto_line, Spec.concepto_line, V1.split_name_desc,
    mbind, outcome_bind, mret, outcome_ret.
  change (utf8 ":") with [58%N]. cbn [py_in py_split1 obind fstr].
  pose proof (split1_colon s) as Hs.
  destruct (contains s [58%N]).
  - destruct Hs as (name & desc & ->). reflexivity.
  - rewrite Hs. reflexivity.
Qed.

Lemma tema_line_string (i : Z) (s : pystr) :
  V1.tema_line i (VStr s) = Ret (Spec.tema_line i s).
Proof.
  unfold V1.tema_line, Spec.tema_line, V1.split_name_desc,
    mbind, outcome_bind, mret, outcome_ret.
  change (utf8 ":") with [58%N]. cbn [py_in py_split1 obind fstr].
  pose proof (split1_colon s) as Hs.
  destruct (contains s [58%N]).
  - destruct Hs as (name & desc & ->). reflexivity.
  - rewrite Hs. reflexivity.
Qed.

(** The loop over the items of a section. *)
Lemma section_loop (line : Z -> value -> outcome pystr) (pure : Z -> pystr -> pystr)
    (items : list pystr) (start : Z) (acc : pystr) :
  (forall i s, line i (VStr s) = Ret (pure i s)) ->
  ofold (fun acc ix => l ← line (fst ix) (snd ix); mret (acc ++ l))
        (enumerate start (map VStr items)) acc
  = Ret (acc ++ concat (map (fun ix => pure (fst ix) (snd ix)) (enumerate start items))).
Proof.
  intros Hline. revert start acc.
  induction items as [| s items IH]; intros start acc.
  - simpl. now rewrite app_nil_r.
  - cbn [map enumerate ofold fst snd concat].
    unfold mbind at 1, outcome_bind at 1. rewrite Hline. cbn [obind].
    unfold mret at 1, outcome_ret at 1. cbn [obind].
    rewrite IH. now rewrite <- app_assoc.
Qed.

Lemma len_cons_pos {A} (x : A) (l : list A) : (len (x :: l) >? 0) = true.
Proof. unfold len. simpl length. destruct (Z.gtb_spec (Z.of_nat (S (length l))) 0); [reflexivity | lia]. Qed.

(** A section of the note of version 1, for a field that holds a list of
    strings: nothing when the list is empty. *)
Lemma section_strings (g : value) (key heading : pystr)
    (line : Z -> value -> outcome pystr) (pure : Z -> pystr -> pystr)
    (items : list pystr) (content : pystr) :
  py_get g key VNone = Ret (VList (map VStr items)) ->
  py_getitem g key = Ret (VList (map VStr items)) ->
  (forall i s, line i (VStr s) = Ret (pure i s)) ->
  V1.section g key heading line content
  = Ret (content ++ Spec.section heading pure items).
Proof.
  intros Hget Hitem Hline. unfold V1.section, mbind, outcome_bind.
  rewrite Hget. cbn [obind]. destruct items as [| s items].
  - cbn [map truthy Spec.section]. unfold mret, outcome_ret. now rewrite app_nil_r.
  - cbn [map truthy]. rewrite Hitem. cbn [obind py_len py_iter map].
    rewrite len_cons_pos.
    change (VStr s :: map VStr items) with (map VStr (s :: items)).
    pose proof (section_loop line pure (s :: items) 1 (content ++ heading) Hline) as Hloop.
    unfold mbind, outcome_bind in Hloop. rewrite Hloop. cbn [obind].
    unfold mret, outcome_ret. unfold Spec.section. now rewrite <- !app_assoc.
Qed.

Lemma bullets_loop (mark : pystr) (items : list pystr) (content : pystr) :
  fold_left (fun acc x => acc ++ mark ++ fstr x ++ utf8 "
") (map VStr items) content
  = content ++ Spec.bullets mark items.
Proof.
  unfold Spec.bullets. revert content.
  induction items as [| s items IH]; intros content.
  - simpl. now rewrite app_nil_r.
  - cbn [map fold_left concat fstr]. rewrite IH. now rewrite <- !app_assoc.
Qed.

(** A list of the note of version 2, for a field that holds a list of
    strings. *)
Lemma bullet_list_strings (g : value) (key mark : pystr) (items : list pystr)
    (content : pystr) :
  py_get g key (VList []) = Ret (VList (map VStr items)) ->
  V2.bullet_list g key mark content = Ret (content ++ Spec.bullets mark items).
Proof.
  intros Hget. unfold V2.bullet_list, mbind, outcome_bind, mret, outcome_ret.
  rewrite Hget. cbn [obind py_iter]. now rewrite bullets_loop.
Qed.

End Rendering.

Section RecordFields.
Context (r : Spec.SummaryRecord).

Lemma get_resumen (default : value) :
  py_get (Spec.to_value r) (utf8 "resumen_ejecutivo") default
  = Ret (VStr (Spec.resumen_ejecutivo r)).
Proof. reflexivity. Qed.

Lemma get_puntos (default : value) :
  py_get (Spec.to_value r) (utf8 "puntos_clave") default
  = Ret (VList (map VStr (Spec.puntos_clave r))).
Proof. reflexivity. Qed.

Lemma get_conceptos (default : value) :
  py_get (Spec.to_value r) (utf8 "conceptos_importantes") default
  = Ret (VList (map VStr (Spec.conceptos_importantes r))).
Proof. reflexivity. Qed.

Lemma get_preguntas (default : value) :
  py_get (Spec.to_value r) (utf8 "preguntas_dudas") default
  = Ret (VList (map VStr (Spec.preguntas_dudas r))).
Proof. reflexivity. Qed.

Lemma get_tareas (default : value) :
  py_get (Spec.to_value r) (utf8 "tareas_acciones") default
  = Ret (VList (map VStr (Spec.tareas_acciones r))).
Proof. reflexivity. Qed.

Lemma get_detalles (default : value) :
  py_get (Spec.to_value r) (utf8 "detalles_adicionales") default
  = Ret (VList (map VStr (Spec.detalles_adicionales r))).
Proof. reflexivity. Qed.

Lemma get_estructura (default : value) :
  py_get (Spec.to_value r) (utf8 "estructura_contenido") default
  = Ret (VList (map VStr (Spec.estructura_contenido r))).
Proof. reflexivity. Qed.

Lemma getitem_puntos :
  py_getitem (Spec.to_value r) (utf8 "puntos_clave")
  = Ret (VList (map VStr (Spec.puntos_clave r))).
Proof. reflexivity. Qed.

Lemma getitem_conceptos :
  py_getitem (Spec.to_value r) (utf8 "conceptos_importantes")
  = Ret (VList (map VStr (Spec.conceptos_importantes r))).
Proof. reflexivity. Qed.

Lemma getitem_preguntas :
  py_getitem (Spec.to_value r) (utf8 "preguntas_dudas")
  = Ret (VList (map VStr (Spec.preguntas_dudas r))).
Proof. reflexivity. Qed.

Lemma getitem_tareas :
  py_getitem (Spec.to_value r) (utf8 "tareas_acciones")
  = Ret (VList (map VStr (Spec.tareas_acciones r))).
Proof. reflexivity. Qed.

Lemma getitem_detalles :
  py_getitem (Spec.to_value r) (utf8 "detalles_adicionales")
  = Ret (VList (map VStr (Spec.detalles_adicionales r))).
Proof. reflexivity. Qed.

Lemma getitem_estructura :
  py_getitem (Spec.to_value r) (utf8 "estructura_contenido")
  = Ret (VList (map VStr (Spec.estructura_contenido r))).
Proof. reflexivity. Qed.

End RecordFields.

Section SummaryNote.
Context `{PyLib} `{Env}.

(** The note of version 1 for a record of the data model. *)
Lemma V1_summary_markdown_record (r : Spec.SummaryRecord)
    (original_filename gemini_model : pystr) :
  V1.summary_markdown (Spec.to_value r) original_filename gemini_model
  = Ret (V1.summary_header (VStr (Spec.resumen_ejecutivo r)) original_filename gemini_model
         ++ Spec.section (utf8 "## Puntos Clave Principales
") Spec.numbered_line (Spec.puntos_clave r)
         ++ Spec.section (utf8 "## Conceptos Importantes
") Spec.concepto_line (Spec.conceptos_importantes r)
         ++ Spec.section (utf8 "## Preguntas y Dudas
") (Spec.marked_line (utf8 "❓ ")) (Spec.preguntas_dudas r)
         ++ Spec.section (utf8 "## Tareas y Acciones
") (Spec.marked_line (utf8 "- [ ] ")) (Spec.tareas_acciones r)
         ++ Spec.section (utf8 "## Detalles Adicionales
") (Spec.marked_line (utf8 "💡 ")) (Spec.detalles_adicionales r)
         ++ Spec.section (utf8 "## Estructura del Contenido
") Spec.tema_line (Spec.estructura_contenido r)
         ++ V1.summary_footer gemini_model).
Proof.
  unfold V1.summary_markdown, mbind, outcome_bind, mret, outcome_ret.
  rewrite get_resumen. cbn [obind].
  rewrite (section_strings _ _ _ _ Spec.numbered_line (Spec.puntos_clave r));
    [| apply get_puntos | apply getitem_puntos | reflexivity].
  cbn [obind].
  rewrite (section_strings _ _ _ _ Spec.concepto_line (Spec.conceptos_importantes r));
    [| apply get_conceptos | apply getitem_conceptos | apply concepto_line_string].
  cbn [obind].
  rewrite (section_strings _ _ _ _ (Spec.marked_line (utf8 "❓ ")) (Spec.preguntas_dudas r));
    [| apply get_preguntas | apply getitem_preguntas | reflexivity].
  cbn [obind].
  rewrite (section_strings _ _ _ _ (Spec.marked_line (utf8 "- [ ] ")) (Spec.tareas_acciones r));
    [| apply get_tareas | apply getitem_tareas | reflexivity].
  cbn [obind].
  rewrite (section_strings _ _ _ _ (Spec.marked_line (utf8 "💡 ")) (Spec.detalles_adicionales r));
    [| apply get_detalles | apply getitem_detalles | reflexivity].
  cbn [obind].
  rewrite (section_strings _ _ _ _ Spec.tema_line (Spec.estructura_contenido r));
    [| apply get_estructura | apply getitem_estructura | apply tema_line_string].
  cbn [obind].
  now rewrite <- !app_assoc.
Qed.

(** The note of version 2 for a record of the data model. *)
Lemma V2_summary_markdown_record (r : Spec.SummaryRecord)
    (original_filename gemini_model : pystr) :
  V2.summary_markdown (Spec.to_value r) original_filename gemini_model
  = Ret (V2.summary_header (VStr (Spec.resumen_ejecutivo r)) original_filename gemini_model
         ++ Spec.bullets (utf8 "- ") (Spec.puntos_clave r)
         ++ utf8 "
## Conceptos Importantes
" ++ Spec.bullets (utf8 "- ") (Spec.conceptos_importantes r)
         ++ utf8 "
## Preguntas y Dudas
" ++ Spec.bullets (utf8 "- ") (Spec.preguntas_dudas r)
         ++ utf8 "
## Tareas y Acciones
" ++ Spec.bullets (utf8 "- [ ] ") (Spec.tareas_acciones r)
         ++ utf8 "
## Detalles Adicionales
" ++ Spec.bullets (utf8 "- ") (Spec.detalles_adicionales r)
         ++ utf8 "
## Estructura del Contenido
" ++ Spec.bullets (utf8 "- ") (Spec.estructura_contenido r)).
Proof.
  unfold V2.summary_markdown, mbind, outcome_bind, mret, outcome_ret.
  rewrite get_resumen. cbn [obind].
  rewrite (bullet_list_strings _ _ _ (Spec.puntos_clave r)) by apply get_puntos.
  cbn [obind].
  rewrite (bullet_list_strings _ _ _ (Spec.conceptos_importantes r)) by apply get_conceptos.
  cbn [obind].
  rewrite (bullet_list_strings _ _ _ (Spec.preguntas_dudas r)) by apply get_preguntas.
  cbn [obind].
  rewrite (bullet_list_strings _ _ _ (Spec.tareas_acciones r)) by apply get_tareas.
  cbn [obind].
  rewrite (bullet_list_strings _ _ _ (Spec.detalles_adicionales r)) by apply get_detalles.
  cbn [obind].
  rewrite (bullet_list_strings _ _ _ (Spec.estructura_contenido r)) by apply get_estructura.
  now rewrite <- !app_assoc.
Qed.

Lemma section_empty_iff (heading : pystr) (line : Z -> pystr -> pystr)
    (items : list pystr) :
  heading ≠ [] -> (Spec.section heading line items = [] <-> items = []).
Proof.
  intros Hh. destruct items as [| s items]; [easy |]. split; [| easy].
  unfold Spec.section. intros Happ. apply app_eq_nil in Happ. tauto.
Qed.

(** C8, as the code has it. For every record of the data model (a string
    and six lists of strings), the summary note of version 1 is the title
    and metadata, the executive-summary section, which is always there, then
    one section for each of the six list fields, left out exactly when the
    list is empty, then the fixed footer (tags, the two check lists, the
    stamp with the model name, date and time); the note of version 2 is the
    title and metadata, the executive-summary section and the six headings,
    each always there and followed by one line per item, and has no
    footer. *)
Theorem summary_note_sections (r : Spec.SummaryRecord)
    (original_filename gemini_model : pystr) :
  V1.summary_markdown (Spec.to_value r) original_filename gemini_model
  = Ret (V1.summary_metadata original_filename gemini_model
         ++ utf8 "## Resumen Ejecutivo
" ++ Spec.resumen_ejecutivo r ++ utf8 "

"
         ++ Spec.section (utf8 "## Puntos Clave Principales
") Spec.numbered_line (Spec.puntos_clave r)
         ++ Spec.section (utf8 "## Conceptos Importantes
") Spec.concepto_line (Spec.conceptos_importantes r)
         ++ Spec.section (utf8 "## Preguntas y Dudas
") (Spec.marked_line (utf8 "❓ ")) (Spec.preguntas_dudas r)
         ++ Spec.section (utf8 "## Tareas y Acciones
") (Spec.marked_line (utf8 "- [ ] ")) (Spec.tareas_acciones r)
         ++ Spec.section (utf8 "## Detalles Adicionales
") (Spec.marked_line (utf8 "💡 ")) (Spec.detalles_adicionales r)
         ++ Spec.section (utf8 "## Estructura del Contenido
") Spec.tema_line (Spec.estructura_contenido r)
         ++ V1.summary_footer gemini_model)
  /\ (forall heading line items,
        heading ≠ [] -> (Spec.section heading line items = [] <-> items = []))
  /\ V2.summary_markdown (Spec.to_value r) original_filename gemini_model
     = Ret (V2.summary_metadata original_filename gemini_model
            ++ utf8 "## Resumen Ejecutivo
" ++ Spec.resumen_ejecutivo r ++ utf8 "

## Puntos Clave Principales
"
            ++ Spec.bullets (utf8 "- ") (Spec.puntos_clave r)
            ++ utf8 "
## Conceptos Importantes
" ++ Spec.bullets (utf8 "- ") (Spec.conceptos_importantes r)
            ++ utf8 "
## Preguntas y Dudas
" ++ Spec.bullets (utf8 "- ") (Spec.preguntas_dudas r)
            ++ utf8 "
## Tareas y Acciones
" ++ Spec.bullets (utf8 "- [ ] ") (Spec.tareas_acciones r)
            ++ utf8 "
## Detalles Adicionales
" ++ Spec.bullets (utf8 "- ") (Spec.detalles_adicionales r)
            ++ utf8 "
## Estructura del Contenido
" ++ Spec.bullets (utf8 "- ") (Spec.estructura_contenido r)).
Proof.
  split; [| split].
  - rewrite V1_summary_markdown_record. unfold V1.summary_header. cbn [fstr].
    now rewrite <- !app_assoc.
  - apply section_empty_iff.
  - rewrite V2_summary_markdown_record. unfold V2.summary_header. cbn [fstr].
    now rewrite <- !app_assoc.
Qed.

End SummaryNote.

(** C8 fails on the empty record: the note of version 1 still has the
    executive-summary section (and none of the six others), and the note of
    version 2 has every heading and no footer. *)
Lemma summary_note_sections_on_empty_record :
  let py := Concrete.py in
  let env := Concrete.env (Ret []) [] in
  let g := Spec.to_value Spec.empty_record in
  match @V1.summary_markdown py env g (utf8 "clase.m4a") (utf8 "gemini-1.5-flash") with
  | Ret md =>
    contains md (utf8 "## Resumen Ejecutivo")
    && negb (contains md (utf8 "## Puntos Clave Principales"))
    && contains md (utf8 "## Tags")
  | Raise _ => false
  end = true
  /\ match @V2.summary_markdown py env g (utf8 "clase") (utf8 "gemini-1.5-flash") with
     | Ret md =>
       contains md (utf8 "## Resumen Ejecutivo")
       && contains md (utf8 "## Puntos Clave Principales")
       && contains md (utf8 "## Conceptos Importantes")
       && contains md (utf8 "## Preguntas y Dudas")
       && contains md (utf8 "## Tareas y Acciones")
       && contains md (utf8 "## Detalles Adicionales")
       && contains md (utf8 "## Estructura del Contenido")
       && negb (contains md (utf8 "## Tags"))
       && negb (contains md (utf8 "- [ ]"))
       && negb (contains md (utf8 "generado"))
     | Raise _ => false
     end = true.
Proof. split; vm_compute; reflexivity. Qed.

(** ** The pipeline of version 1 *)

Section Pipeline.
Context `{PyLib} `{Env}.

Lemma write_note_result (path markdown_content : pystr) (w : World) :
  V1.write_note path markdown_content w
  = (Ret (writable path),
     set_files (Spec.write_if (writable path) path markdown_content (files w)) w).
Proof.
  unfold V1.write_note, try_except, mbind, M_bind, write_file, Spec.write_if.
  destruct (writable path); [reflexivity |]. now destruct w.
Qed.

(** The note for the fallback record is always rendered. *)
Lemma fallback_note_renders (text_content original_filename gemini_model : pystr) :
  exists summary_note,
    V1.summary_markdown (V1.generate_basic_summary text_content)
      original_filename gemini_model
    = Ret summary_note.
Proof.
  rewrite generate_basic_summary_record, V1_summary_markdown_record. eauto.
Qed.

Lemma success_count_produced (summary_written transcription_written : bool) :
  ((if transcription_written
    then (if summary_written then 0 + 1 else 0) + 1
    else (if summary_written then 0 + 1 else 0)) + 1 >=? 2)
  = (2 <=? Spec.files_produced summary_written transcription_written).
Proof. destruct summary_written, transcription_written; reflexivity. Qed.



End Pipeline.


(** The same run on a disk where no note can be written: only the plain
    transcript counts, and the run is a failure with exit status 1. *)
Example pipeline_read_only_disk :
  let transcript := utf8 "Hoy vimos derivadas. Mañana hay examen." in
  let env := Concrete.env_read_only (Raise (BackendError 503)) transcript in
  let args :=
    {| V1.audio_file := Some (utf8 "clase.m4a"); V1.model := utf8 "medium";
       V1.output_dir := utf8 "."; V1.gemini_api_key_arg := None;
       V1.gemini_model := utf8 "gemini-1.5-flash"; V1.list_models := false;
       V1.check_gemini := false |} in
  fst (@V1.main Concrete.py env args (Concrete.world (Some (utf8 "clave")))) = Ret 1.
Proof. vm_compute. reflexivity. Qed.

(** ** The pipeline of version 2 *)

Section Version2.
Context `{PyLib} `{Env} {Audio : Type} `{V2.AudioLib Audio} `{V2.Whisper Audio}.

Lemma V2_generate_keeps_files (text model : pystr) (w : World) :
  files (snd (V2.generate_gemini_summary text model w)) = files w.
Proof.
  unfold V2.generate_gemini_summary, try_except, mbind, M_bind, getenv_api_key, lift.
  destruct (negb (V1.set_and_nonempty (gemini_api_key w))); [reflexivity |].
  cbv zeta. unfold call_backend.
  destruct (generate_content _) as [t | e]; [| reflexivity].
  destruct (json_loads (V2.strip_fences t)) as [v |]; [| reflexivity].
  destruct (V1.fill_required_keys v); reflexivity.
Qed.

(** Without an API key version 2 returns [None] at once. *)
Lemma V2_generate_without_key (text model : pystr) (w : World) :
  V1.set_and_nonempty (gemini_api_key w) = false ->
  V2.generate_gemini_summary text model w = (Ret VNone, w).
Proof.
  intros Hkey. unfold V2.generate_gemini_summary, mbind, M_bind, getenv_api_key.
  now rewrite Hkey.
Qed.

(** The renderer of version 2 on [None]: the first field access raises. *)
Lemma V2_summary_markdown_none (original_filename gemini_model : pystr) :
  V2.summary_markdown VNone original_filename gemini_model = Raise AttributeError.
Proof. reflexivity. Qed.

Lemma V2_create_summary_none (original_filename output_path gemini_model : pystr)
    (w : World) :
  V2.create_obsidian_summary_only VNone original_filename output_path gemini_model w
  = (Raise AttributeError, w).
Proof.
  unfold V2.create_obsidian_summary_only, mbind, M_bind, lift.
  now rewrite V2_summary_markdown_none.
Qed.

(** C10. In the driver of version 2, when the transcription went through
    and the summarization call returns [None], the renderer is handed [None]
    and its first field access raises [AttributeError], which nothing
    catches: the run ends with that error, and the only file written is the
    plain transcript. *)
Theorem main_null_summary_raises (args : V2.Args) (arrival : list nat)
    (chunk_paths : list (pystr * Audio)) (transcriptions : list value)
    (full_text : pystr) (w w2 : World) :
  V2.fragment_audio (V2.audio_path args) (utf8 "./chunks") = Ret chunk_paths ->
  V2.transcribe_all_chunks chunk_paths (V2.model args) arrival
  = Some (Ret transcriptions) ->
  V2.py_join (utf8 "

") transcriptions = Ret full_text ->
  let txt_path :=
    path_join (V2.output_dir args) (path_base_name (V2.audio_path args) ++ utf8 ".txt") in
  writable txt_path = true ->
  V2.generate_gemini_summary full_text (utf8 "gemini-1.5-flash")
    (set_files (<[txt_path := full_text]> (files w)) w)
  = (Ret VNone, w2) ->
  exists run,
    V2.main args arrival = Some run
    /\ run w = (Raise AttributeError, w2)
    /\ files w2 = <[txt_path := full_text]> (files w).
Proof.
  intros Hchunks Htexts Hjoin txt_path Hwrite Hnone.
  unfold V2.main. cbv zeta. rewrite Hchunks, Htexts.
  eexists. split; [reflexivity |]. split.
  - unfold mbind at 1, M_bind at 1, lift at 1.
    unfold mbind at 1, M_bind at 1, lift at 1. rewrite Hjoin.
    unfold mbind at 1, M_bind at 1.
    unfold V2.save_transcription at 1, mbind at 1, M_bind at 1, write_file at 1.
    fold txt_path. rewrite Hwrite. unfold mret at 1, M_ret at 1.
    unfold mbind at 1, M_bind at 1. rewrite Hnone.
    apply V2_create_summary_none.
  - pose proof (V2_generate_keeps_files full_text (utf8 "gemini-1.5-flash")
                  (set_files (<[txt_path := full_text]> (files w)) w)) as Hfiles.
    rewrite Hnone in Hfiles. exact Hfiles.
Qed.

End Version2.

(** A recording of ten minutes and no API key: the transcript is written,
    then the run ends with [AttributeError]. *)
Lemma main_null_summary_raises_witness :
  let py := Concrete.py in
  let env := Concrete.env (Ret []) [] in
  let audio := Concrete.duration_audio (Ret 600000) in
  let args :=
    {| V2.audio_path := utf8 "clase.mp3"; V2.model := utf8 "small";
       V2.output_dir := utf8 "./output" |} in
  let full_text := utf8 "audio de 600000 ms" in
  let w := Concrete.world None in
  let txt_path :=
    @path_join py (V2.output_dir args)
      (@path_base_name py (V2.audio_path args) ++ utf8 ".txt") in
  let w2 := set_files (<[txt_path := full_text]> (files w)) w in
  exists run,
    @V2.main py env Z audio Concrete.echo_whisper args [0%nat] = Some run
    /\ run w = (Raise AttributeError, w2)
    /\ files w2 = <[txt_path := full_text]> (files w).
Proof.
  intros py env audio args full_text w txt_path w2.
  apply (@main_null_summary_raises py env Z audio Concrete.echo_whisper args [0%nat]
           [(utf8 "./chunks/chunk_0.mp3", 600000)] [VStr full_text] full_text w w2).
  - vm_compute. reflexivity.
  - vm_compute. reflexivity.
  - reflexivity.
  - reflexivity.
  - apply V2_generate_without_key. reflexivity.
Defined.

(** The same run, evaluated: the transcript file is there, the summary file
    is not. *)
Example main_without_key_files :
  let args :=
    {| V2.audio_path := utf8 "clase.mp3"; V2.model := utf8 "small";
       V2.output_dir := utf8 "./output" |} in
  match @V2.main Concrete.py (Concrete.env (Ret []) []) Z
          (Concrete.duration_audio (Ret 600000)) Concrete.echo_whisper args [0%nat] with
  | Some run =>
    let '(result, w') := run (Concrete.world None) in
    (result,
     files w' !! utf8 "./output/clase.txt",
     files w' !! utf8 "./output/clase_resumen.md")
  | None => (Ret tt, None, None)
  end
  = (Raise AttributeError, Some (utf8 "audio de 600000 ms"), None).
Proof. vm_compute. reflexivity. Qed.

(** * Further properties of the program *)

(** ** Fences and the span between braces *)

Lemma strip_unchanged (s : pystr) :
  match s with c :: _ => isspace c = false | [] => True end ->
  match rev s with d :: _ => isspace d = false | [] => True end ->
  strip s = s.
Proof.
  intros Hfirst Hlast. unfold strip, rstrip.
  assert (Hl : lstrip s = s).
  { destruct s as [| c s']; [reflexivity |]. simpl. now rewrite Hfirst. }
  rewrite Hl. destruct (rev s) as [| d r] eqn:Hrev.
  - simpl. rewrite <- (rev_involutive s), Hrev. reflexivity.
  - simpl lstrip. rewrite Hlast. rewrite <- Hrev. apply rev_involutive.
Qed.

Lemma startswith_app (p s : pystr) : startswith (p ++ s) p = true.
Proof.
  induction p as [| c p IH]; [apply startswith_nil |].
  simpl. now rewrite N.eqb_refl.
Qed.

Lemma fenced_ends (opening body : pystr) :
  match rev (opening ++ body ++ [96; 96; 96]%N) with
  | d :: _ => isspace d = false
  | [] => True
  end.
Proof. rewrite !rev_app_distr. reflexivity. Qed.

Lemma take_before_fence (body : pystr) :
  take (length (body ++ [96; 96; 96]%N) - 3) (body ++ [96; 96; 96]%N) = body.
Proof.
  rewrite length_app. simpl length.
  replace (length body + 3 - 3)%nat with (length body) by lia.
  apply take_app_length.
Qed.

(** X1. An answer inside a fence that names JSON: the three programs drop the
    fence; version 1 and the test script also trim what is left, version 2
    does not. *)
Theorem strip_fences_json_fence (body : pystr) :
  V1.strip_fences (utf8 "```json" ++ body ++ utf8 "```") = strip body
  /\ V2.strip_fences (utf8 "```json" ++ body ++ utf8 "```") = body
  /\ TestScript.clean (utf8 "```json" ++ body ++ utf8 "```") = strip body.
Proof.
  change (utf8 "```json") with ([96; 96; 96; 106; 115; 111; 110]%N).
  change (utf8 "```") with ([96; 96; 96]%N).
  assert (Hstrip :
    strip ([96; 96; 96; 106; 115; 111; 110]%N ++ body ++ [96; 96; 96]%N)
    = [96; 96; 96; 106; 115; 111; 110]%N ++ body ++ [96; 96; 96]%N).
  { apply strip_unchanged; [reflexivity | apply fenced_ends]. }
  assert (Hend : endswith (body ++ [96; 96; 96]%N) [96; 96; 96]%N = true)
    by apply endswith_app.
  split; [| split].
  - unfold V1.strip_fences. cbv zeta.
    change (utf8 "```json") with ([96; 96; 96; 106; 115; 111; 110]%N).
    change (utf8 "```") with ([96; 96; 96]%N).
    rewrite Hstrip, startswith_app.
    change (drop 7 ([96; 96; 96; 106; 115; 111; 110]%N ++ body ++ [96; 96; 96]%N))
      with (body ++ [96; 96; 96]%N).
    rewrite Hend. now rewrite take_before_fence.
  - unfold V2.strip_fences. cbv zeta.
    change (utf8 "```json") with ([96; 96; 96; 106; 115; 111; 110]%N).
    change (utf8 "```") with ([96; 96; 96]%N).
    rewrite Hstrip, startswith_app.
    change (drop 7 ([96; 96; 96; 106; 115; 111; 110]%N ++ body ++ [96; 96; 96]%N))
      with (body ++ [96; 96; 96]%N).
    rewrite Hend. apply take_before_fence.
  - unfold TestScript.clean. cbv zeta.
    change (utf8 "```json") with ([96; 96; 96; 106; 115; 111; 110]%N).
    change (utf8 "```") with ([96; 96; 96]%N).
    rewrite Hstrip, startswith_app.
    change (drop 7 ([96; 96; 96; 106; 115; 111; 110]%N ++ body ++ [96; 96; 96]%N))
      with (body ++ [96; 96; 96]%N).
    rewrite Hend. now rewrite take_before_fence.
Qed.

Lemma startswith_json_after (body rest : pystr) :
  startswith body (utf8 "json") = false ->
  startswith (body ++ 96%N :: rest) (utf8 "json") = false.
Proof.
  change (utf8 "json") with ([106; 115; 111; 110]%N).
  destruct body as [| a [| b [| c [| d body']]]]; simpl;
    repeat match goal with
           | |- context [(?x =? ?y)%N] => destruct (x =? y)%N
           end;
    try reflexivity; try discriminate; intros Hf; try exact Hf;
    destruct body'; simpl in *; congruence.
Qed.

(** X2. An answer inside a bare fence: versions 1 and 2 drop it, provided the
    text inside does not itself begin with [json]; the test script keeps the
    opening fence, and only trims. *)
Theorem strip_fences_bare_fence (body : pystr) :
  startswith body (utf8 "json") = false ->
  V1.strip_fences (utf8 "```" ++ body ++ utf8 "```") = strip body
  /\ V2.strip_fences (utf8 "```" ++ body ++ utf8 "```") = body
  /\ TestScript.clean (utf8 "```" ++ body ++ utf8 "```") = strip (utf8 "```" ++ body).
Proof.
  intros Hjson.
  assert (Hno : startswith (utf8 "```" ++ body ++ utf8 "```") (utf8 "```json") = false).
  { change (utf8 "```json") with ([96; 96; 96]%N ++ utf8 "json").
    change (utf8 "```") with ([96; 96; 96]%N).
    change (startswith ([96; 96; 96]%N ++ body ++ [96; 96; 96]%N)
              ([96; 96; 96]%N ++ utf8 "json"))
      with (startswith (body ++ 96%N :: [96; 96]%N) (utf8 "json")).
    now apply startswith_json_after. }
  assert (Hstrip :
    strip (utf8 "```" ++ body ++ utf8 "```") = utf8 "```" ++ body ++ utf8 "```").
  { change (utf8 "```") with ([96; 96; 96]%N).
    apply strip_unchanged; [reflexivity | apply fenced_ends]. }
  assert (Hend : endswith (body ++ utf8 "```") (utf8 "```") = true)
    by apply endswith_app.
  split; [| split].
  - unfold V1.strip_fences. cbv zeta. rewrite Hstrip, Hno, startswith_app.
    change (drop 3 (utf8 "```" ++ body ++ utf8 "```")) with (body ++ utf8 "```").
    rewrite Hend. change (utf8 "```") with ([96; 96; 96]%N).
    now rewrite take_before_fence.
  - unfold V2.strip_fences. cbv zeta. rewrite Hstrip, Hno, startswith_app.
    change (drop 3 (utf8 "```" ++ body ++ utf8 "```")) with (body ++ utf8 "```").
    rewrite Hend. change (utf8 "```") with ([96; 96; 96]%N).
    apply take_before_fence.
  - unfold TestScript.clean. cbv zeta. rewrite Hstrip, Hno.
    assert (Hend' :
      endswith (utf8 "```" ++ body ++ utf8 "```") (utf8 "```") = true).
    { rewrite app_assoc. apply endswith_app. }
    rewrite Hend'. change (utf8 "```") with ([96; 96; 96]%N).
    now rewrite app_assoc, take_before_fence.
Qed.

(** A bare fence around an object. *)
Lemma strip_fences_bare_fence_witness :
  let body := utf8 "
{}
" in
  V1.strip_fences (utf8 "```" ++ body ++ utf8 "```") = strip body
  /\ V2.strip_fences (utf8 "```" ++ body ++ utf8 "```") = body
  /\ TestScript.clean (utf8 "```" ++ body ++ utf8 "```") = strip (utf8 "```" ++ body).
Proof.
  intros body. apply (strip_fences_bare_fence body). reflexivity.
Defined.

Lemma up_to_last_brace_none (s : pystr) :
  125%N ∉ s -> up_to_last_brace s = None.
Proof.
  induction s as [| c s IH]; intros Hout; [reflexivity |].
  simpl. rewrite IH by (intros Hin; apply Hout; now right).
  destruct (N.eqb_spec c 125) as [-> | Hne]; [| reflexivity].
  exfalso. apply Hout. left.
Qed.

Lemma up_to_last_brace_some (mid post : pystr) :
  125%N ∉ post ->
  up_to_last_brace (mid ++ 125%N :: post) = Some (mid ++ [125%N]).
Proof.
  intros Hout. induction mid as [| c mid IH]; simpl.
  - now rewrite (up_to_last_brace_none post Hout).
  - now rewrite IH.
Qed.

Lemma up_to_last_brace_inv (s m : pystr) :
  up_to_last_brace s = Some m ->
  exists mid post, s = mid ++ 125%N :: post /\ m = mid ++ [125%N] /\ 125%N ∉ post.
Proof.
  revert m. induction s as [| c s IH]; intros m Hm; [discriminate |].
  simpl in Hm. destruct (up_to_last_brace s) as [m' |] eqn:Hs.
  - injection Hm as <-. destruct (IH m' eq_refl) as (mid & post & -> & -> & Hout).
    exists (c :: mid), post. auto.
  - destruct (N.eqb_spec c 125) as [-> | Hne]; [| discriminate].
    injection Hm as <-. exists [], s. split; [reflexivity |]. split; [reflexivity |].
    intros Hin. clear IH. revert Hs Hin. induction s as [| d s IHs]; intros Hs Hin.
    + now apply not_elem_of_nil in Hin.
    + simpl in Hs. destruct (up_to_last_brace s) eqn:Hs'; [discriminate |].
      destruct (N.eqb_spec d 125) as [-> | Hd]; [discriminate |].
      apply elem_of_cons in Hin. destruct Hin as [Heq | Hin]; [congruence |].
      now apply IHs.
Qed.

Lemma up_to_last_brace_inv_none (a b : pystr) :
  up_to_last_brace (a ++ 125%N :: b) = None -> False.
Proof.
  induction a as [| c a IH]; simpl.
  - destruct (up_to_last_brace b); discriminate.
  - destruct (up_to_last_brace (a ++ 125%N :: b)); [discriminate | auto].
Qed.

(** X3. The search for an object inside prose is greedy: in a text that holds an
    opening brace and, after it, a closing brace, the span found runs from
    the first opening brace to the last closing brace. *)
Theorem search_braces_greedy (pre mid post : pystr) :
  123%N ∉ pre -> 125%N ∉ post ->
  search_braces (pre ++ 123%N :: mid ++ 125%N :: post)
  = Some (123%N :: mid ++ [125%N]).
Proof.
  intros Hpre Hpost. induction pre as [| c pre IH]; simpl.
  - now rewrite (up_to_last_brace_some mid post Hpost).
  - destruct (N.eqb_spec c 123) as [-> | Hne].
    + exfalso. apply Hpre. left.
    + apply IH. intros Hin. apply Hpre. now right.
Qed.

(** An object in prose that itself holds braces. *)
Lemma search_braces_greedy_witness :
  search_braces (utf8 "foo " ++ 123%N :: utf8q "~a~: {~b~: 1} " ++ 125%N :: utf8 " bar")
  = Some (123%N :: utf8q "~a~: {~b~: 1} " ++ [125%N]).
Proof.
  apply (search_braces_greedy (utf8 "foo ") (utf8q "~a~: {~b~: 1} ") (utf8 " bar")).
  - vm_compute. intros Hin. repeat (apply elem_of_cons in Hin; destruct Hin as [Hin | Hin]; [discriminate |]).
    now apply not_elem_of_nil in Hin.
  - vm_compute. intros Hin. repeat (apply elem_of_cons in Hin; destruct Hin as [Hin | Hin]; [discriminate |]).
    now apply not_elem_of_nil in Hin.
Defined.

(** What the search returns starts with an opening brace. *)
Lemma search_braces_starts (s m : pystr) :
  search_braces s = Some m -> exists rest, m = 123%N :: rest.
Proof.
  induction s as [| c s IH]; simpl; [discriminate |].
  destruct (N.eqb_spec c 123) as [-> | Hne]; [| exact IH].
  destruct (up_to_last_brace s) as [m' |]; [| discriminate].
  intros Hm. injection Hm as <-. eauto.
Qed.

(** X4. Whatever the search returns is a piece of the text that starts at its
    first opening brace and ends at its last closing brace; and it returns
    nothing only when no closing brace follows an opening one. *)
Theorem search_braces_span (s : pystr) :
  match search_braces s with
  | Some m =>
    exists pre mid post,
      s = pre ++ m ++ post /\ m = 123%N :: mid ++ [125%N]
      /\ (123%N ∉ pre) /\ (125%N ∉ post)
  | None =>
    forall pre rest, s = pre ++ 123%N :: rest -> 125%N ∉ rest
  end.
Proof.
  induction s as [| c s IH]; simpl.
  - intros pre rest Hs. now destruct pre.
  - destruct (N.eqb_spec c 123) as [-> | Hne].
    + destruct (up_to_last_brace s) as [m |] eqn:Hm.
      * destruct (up_to_last_brace_inv _ _ Hm) as (mid & post & -> & -> & Hout).
        exists [], mid, post. split; [| split; [reflexivity | split; [apply not_elem_of_nil | exact Hout]]].
        simpl. now rewrite <- app_assoc.
      * intros pre rest Hs Hin.
        assert (Hs' : exists pre', s = pre' ++ rest).
        { destruct pre as [| p pre]; simpl in Hs.
          - injection Hs as ->. now exists [].
          - injection Hs as _ ->. exists (pre ++ [123%N]). now rewrite <- app_assoc. }
        destruct Hs' as [pre' ->].
        apply list_elem_of_split in Hin. destruct Hin as (r1 & r2 & ->).
        rewrite app_assoc in Hm.
        destruct (up_to_last_brace_inv_none (pre' ++ r1) r2 Hm).
    + destruct (search_braces s) as [m |].
      * destruct IH as (pre & mid & post & -> & -> & Hpre & Hpost).
        exists (c :: pre), mid, post. split; [reflexivity |]. split; [reflexivity |].
        split; [| exact Hpost].
        intros Hin. apply elem_of_cons in Hin. destruct Hin as [Heq | Hin]; [congruence | auto].
      * intros pre rest Hs. destruct pre as [| p pre]; simpl in Hs.
        -- injection Hs as Hc _. congruence.
        -- injection Hs as _ ->. now apply (IH pre rest).
Qed.

(** ** The steps of the pipeline of version 1 *)

Section Steps.
Context `{PyLib} `{Env}.

Lemma run_whisper_result (audio_file model output_dir : pystr) (w : World) :
  run_whisper audio_file model output_dir w
  = match whisper audio_file model output_dir with
    | WhisperFailed => (Raise CalledProcessError, w)
    | WhisperNotRun e => (Raise e, w)
    | WhisperDone written =>
      (Ret tt,
       set_files (fold_left (fun fs pc => <[fst pc := snd pc]> fs) written (files w)) w)
    end.
Proof. reflexivity. Qed.

(** The outcomes of [transcribe_audio], by what Whisper did. *)
Lemma transcribe_audio_cases (audio_file model output_dir : pystr) (w : World) :
  exists r w',
    V1.transcribe_audio audio_file model output_dir w = (Ret r, w')
    /\ sent w' = sent w
    /\ gemini_api_key w' = gemini_api_key w
    /\ (forall p, r = Some p ->
          p = path_join output_dir (path_stem audio_file ++ utf8 ".txt")
          /\ is_Some (files w' !! p))
    /\ ((forall written, whisper audio_file model output_dir <> WhisperDone written) ->
          r = None /\ w' = w).
Proof.
  unfold V1.transcribe_audio, try_except, mbind, M_bind.
  rewrite run_whisper_result.
  destruct (whisper audio_file model output_dir) as [| e | written] eqn:Hw.
  - exists None, w. split; [reflexivity |]. split; [reflexivity |].
    split; [reflexivity |]. split; [intros p Hp; discriminate | auto].
  - exists None, w. split; [reflexivity |]. split; [reflexivity |].
    split; [reflexivity |]. split; [intros p Hp; discriminate | auto].
  - cbv zeta. unfold file_exists, lift, mret, M_ret. cbn [files set_files].
    set (fs := fold_left (fun fs pc => <[fst pc := snd pc]> fs) written (files w)).
    set (p := path_join output_dir (path_stem audio_file ++ utf8 ".txt")).
    destruct (bool_decide (is_Some (fs !! p))) eqn:Hex.
    + exists (Some p), (set_files fs w). split; [reflexivity |].
      split; [reflexivity |]. split; [reflexivity |]. split.
      * intros q Hq. injection Hq as <-. split; [reflexivity |].
        now apply bool_decide_eq_true in Hex.
      * intros Hnot. exfalso. now apply (Hnot written).
    + exists None, (set_files fs w). split; [reflexivity |].
      split; [reflexivity |]. split; [reflexivity |]. split.
      * intros q Hq. discriminate.
      * intros Hnot. exfalso. now apply (Hnot written).
Qed.

(** X5. [transcribe_audio] never raises; when Whisper did not run to the end it
    returns [None] and leaves the world as it was; it returns a path only
    when that path is the text file expected for the audio and the file is
    there afterwards; and it never touches the API key or the backend. *)
Theorem transcribe_audio_result (audio_file model output_dir : pystr) (w : World) :
  exists r w',
    V1.transcribe_audio audio_file model output_dir w = (Ret r, w')
    /\ sent w' = sent w
    /\ gemini_api_key w' = gemini_api_key w
    /\ (forall p, r = Some p ->
          p = path_join output_dir (path_stem audio_file ++ utf8 ".txt")
          /\ is_Some (files w' !! p))
    /\ ((forall written, whisper audio_file model output_dir <> WhisperDone written) ->
          r = None /\ w' = w).
Proof. exact (transcribe_audio_cases audio_file model output_dir w). Qed.

(** The request of the access check. *)
Lemma check_gemini_access_result (w : World) :
  V1.check_gemini_access w
  = if V1.set_and_nonempty (gemini_api_key w)
    then
      (Ret match generate_content
                   {| req_model := utf8 "gemini-1.5-flash"; req_prompt := utf8 "Hello";
                      req_max_output_tokens := Some 10; req_temperature := None |} with
           | Ret t => V1.nonempty t
           | Raise _ => false
           end,
       add_sent {| req_model := utf8 "gemini-1.5-flash"; req_prompt := utf8 "Hello";
                   req_max_output_tokens := Some 10; req_temperature := None |} w)
    else (Ret false, w).
Proof.
  unfold V1.check_gemini_access, try_except, mbind, M_bind, getenv_api_key, call_backend.
  destruct (V1.set_and_nonempty (gemini_api_key w)); [| reflexivity].
  cbn [negb]. destruct (generate_content _); reflexivity.
Qed.

(** X6. [check_gemini_access] never raises and writes no file. Without an API
    key it answers [False] and sends nothing; with one it sends exactly one
    request, the prompt [Hello] limited to ten tokens, and answers [True]
    exactly when the backend returns a text that is not empty. *)
Theorem check_gemini_access_spec (w : World) :
  exists b w',
    V1.check_gemini_access w = (Ret b, w')
    /\ files w' = files w
    /\ (V1.set_and_nonempty (gemini_api_key w) = false -> b = false /\ w' = w)
    /\ (V1.set_and_nonempty (gemini_api_key w) = true ->
        let hello :=
          {| req_model := utf8 "gemini-1.5-flash"; req_prompt := utf8 "Hello";
             req_max_output_tokens := Some 10; req_temperature := None |} in
        sent w' = sent w ++ [hello]
        /\ (b = true <-> exists t, generate_content hello = Ret t /\ t ≠ [])).
Proof.
  rewrite check_gemini_access_result.
  destruct (V1.set_and_nonempty (gemini_api_key w)).
  - eexists _, _. split; [reflexivity |]. split; [reflexivity |].
    split; [discriminate |]. intros _ hello. split; [reflexivity |].
    subst hello. destruct (generate_content _) as [t | e].
    + split.
      * intros Ht. exists t. split; [reflexivity |]. now apply nonempty_true.
      * intros (t' & Ht' & Hne). injection Ht' as <-. now apply nonempty_true.
    + split; [discriminate |]. intros (t' & Ht' & _). discriminate.
  - exists false, w. split; [reflexivity |]. split; [reflexivity |].
    split; [auto | discriminate].
Qed.

Lemma gemini_summary_or_none_without_key (text_content gemini_model : pystr)
    (w : World) :
  V1.set_and_nonempty (gemini_api_key w) = false ->
  V1.gemini_summary_or_none text_content gemini_model w = (Ret VNone, w).
Proof.
  intros Hkey. unfold V1.gemini_summary_or_none, mbind, M_bind.
  rewrite check_gemini_access_result, Hkey. reflexivity.
Qed.

(** The run after a transcription that succeeded and a summary that came
    back as [None], with the world it ends in. *)
Lemma process_after_none
    (audio_file whisper_model output_dir gemini_model txt_file text_content : pystr)
    (w w1 w2 : World) :
  audio_exists audio_file = true ->
  V1.transcribe_audio audio_file whisper_model output_dir w = (Ret (Some txt_file), w1) ->
  txt_file ≠ [] ->
  files w1 !! txt_file = Some text_content ->
  V1.gemini_summary_or_none text_content gemini_model w1 = (Ret VNone, w2) ->
  exists b fs,
    V1.process_voice_note_gemini audio_file whisper_model output_dir gemini_model w
    = (Ret b, set_files fs w2).
Proof.
  intros Haudio Htrans Htxt Hread Hnone.
  destruct (fallback_note_renders text_content audio_file gemini_model) as [note Hnote].
  unfold V1.process_voice_note_gemini. rewrite Haudio. cbn [negb].
  unfold mbind at 1, M_bind at 1. rewrite Htrans.
  destruct txt_file as [| c txt']; [congruence |].
  cbn [V1.set_and_nonempty V1.nonempty negb default from_option id].
  unfold mbind at 1, M_bind at 1.
  unfold try_except at 1, mbind at 1, M_bind at 1, read_file at 1. rewrite Hread.
  unfold mret at 1, M_ret at 1.
  unfold mbind at 1, M_bind at 1. rewrite Hnone.
  cbn [truthy negb]. cbv zeta.
  unfold mbind at 1, M_bind at 1.
  unfold V1.create_obsidian_summary_only at 1, mbind at 1, M_bind at 1, lift at 1.
  rewrite Hnote. rewrite write_note_result.
  unfold mbind at 1, M_bind at 1.
  unfold V1.create_obsidian_transcription_only at 1. rewrite write_note_result.
  unfold mret, M_ret. eexists _, _. reflexivity.
Qed.

(** X7. Without an API key the pipeline of version 1 never contacts the
    backend: whatever the audio and whatever Whisper does, the run returns
    and the list of requests sent is as it was. *)
Theorem process_without_key_sends_nothing
    (audio_file whisper_model output_dir gemini_model : pystr) (w : World) :
  V1.set_and_nonempty (gemini_api_key w) = false ->
  exists b w',
    V1.process_voice_note_gemini audio_file whisper_model output_dir gemini_model w
    = (Ret b, w')
    /\ sent w' = sent w.
Proof.
  intros Hkey.
  destruct (transcribe_audio_cases audio_file whisper_model output_dir w)
    as (r & w1 & Htrans & Hsent & Hk & _ & _).
  destruct (audio_exists audio_file) eqn:Haudio.
  2: { exists false, w. unfold V1.process_voice_note_gemini. rewrite Haudio. now split. }
  destruct r as [txt |].
  2: { exists false, w1. unfold V1.process_voice_note_gemini. rewrite Haudio. cbn [negb].
       unfold mbind at 1, M_bind at 1. rewrite Htrans. now split. }
  destruct (V1.set_and_nonempty (Some txt)) eqn:Hset.
  2: { exists false, w1. unfold V1.process_voice_note_gemini. rewrite Haudio. cbn [negb].
       unfold mbind at 1, M_bind at 1. rewrite Htrans, Hset. now split. }
  assert (Htxt : txt ≠ []) by (intros ->; discriminate).
  destruct (files w1 !! txt) as [text_content |] eqn:Hread.
  - assert (Hkey1 : V1.set_and_nonempty (gemini_api_key w1) = false) by now rewrite Hk.
    destruct (process_after_none audio_file whisper_model output_dir gemini_model
                txt text_content w w1 w1 Haudio Htrans Htxt Hread
                (gemini_summary_or_none_without_key _ _ _ Hkey1))
      as (b & fs & Hrun).
    exists b, (set_files fs w1). split; [exact Hrun | exact Hsent].
  - exists false, w1. split; [| exact Hsent].
    unfold V1.process_voice_note_gemini. rewrite Haudio. cbn [negb].
    unfold mbind at 1, M_bind at 1. rewrite Htrans, Hset. cbn [negb].
    change (default [] (Some txt)) with txt.
    unfold mbind at 1, M_bind at 1.
    unfold try_except at 1, mbind at 1, M_bind at 1, read_file at 1. rewrite Hread.
    reflexivity.
Qed.

(** The pipeline stops before it reads a transcript that is not there. *)
Lemma process_stops_early
    (audio_file whisper_model output_dir gemini_model : pystr) (w : World) :
  audio_exists audio_file = false
  \/ (forall written, whisper audio_file whisper_model output_dir <> WhisperDone written) ->
  V1.process_voice_note_gemini audio_file whisper_model output_dir gemini_model w
  = (Ret false, w).
Proof.
  intros Hcase. unfold V1.process_voice_note_gemini.
  destruct (audio_exists audio_file) eqn:Haudio; [| reflexivity].
  destruct Hcase as [Hno | Hwhisper]; [discriminate |]. cbn [negb].
  destruct (transcribe_audio_cases audio_file whisper_model output_dir w)
    as (r & w1 & Htrans & _ & _ & _ & Hfail).
  destruct (Hfail Hwhisper) as [-> ->].
  unfold mbind at 1, M_bind at 1. now rewrite Htrans.
Qed.

(** X8. When the audio file is missing or Whisper does not run to the end, the
    pipeline of version 1 answers [False] at once: no file is written and
    nothing is sent. *)
Theorem process_without_transcript
    (audio_file whisper_model output_dir gemini_model : pystr) (w : World) :
  audio_exists audio_file = false
  \/ (forall written, whisper audio_file whisper_model output_dir <> WhisperDone written) ->
  V1.process_voice_note_gemini audio_file whisper_model output_dir gemini_model w
  = (Ret false, w).
Proof. exact (process_stops_early audio_file whisper_model output_dir gemini_model w). Qed.

End Steps.

Lemma process_without_key_sends_nothing_witness :
  let env := Concrete.env (Ret (utf8 "hola")) (utf8 "Una frase. Otra frase.") in
  let w := Concrete.world None in
  exists b w',
    @V1.process_voice_note_gemini Concrete.py env (utf8 "clase.m4a") (utf8 "medium")
      (utf8 ".") (utf8 "gemini-1.5-flash") w
    = (Ret b, w')
    /\ sent w' = sent w.
Proof.
  intros env w.
  apply (@process_without_key_sends_nothing Concrete.py env). reflexivity.
Defined.

Lemma process_without_transcript_witness :
  let env := Worlds.env_whisper_fails (Ret (utf8 "hola")) in
  let w := Concrete.world (Some (utf8 "clave")) in
  @V1.process_voice_note_gemini Concrete.py env (utf8 "clase.m4a") (utf8 "medium")
    (utf8 ".") (utf8 "gemini-1.5-flash") w
  = (Ret false, w).
Proof.
  intros env w.
  apply (@process_without_transcript Concrete.py env). right. intros written. discriminate.
Defined.

(** ** The notes *)

Section Notes.
Context `{PyLib} `{Env}.

(** The summary note of version 1, from what each field contributes. *)
Lemma V1_summary_markdown_fields (g resumen : value)
    (original_filename gemini_model s1 s2 s3 s4 s5 s6 : pystr) :
  py_get g (utf8 "resumen_ejecutivo") (VStr (utf8 "No disponible")) = Ret resumen ->
  (forall content,
     V1.section g (utf8 "puntos_clave") (utf8 "## Puntos Clave Principales
") V1.punto_line content = Ret (content ++ s1)) ->
  (forall content,
     V1.section g (utf8 "conceptos_importantes") (utf8 "## Conceptos Importantes
") V1.concepto_line content = Ret (content ++ s2)) ->
  (forall content,
     V1.section g (utf8 "preguntas_dudas") (utf8 "## Preguntas y Dudas
") V1.pregunta_line content = Ret (content ++ s3)) ->
  (forall content,
     V1.section g (utf8 "tareas_acciones") (utf8 "## Tareas y Acciones
") V1.tarea_line content = Ret (content ++ s4)) ->
  (forall content,
     V1.section g (utf8 "detalles_adicionales") (utf8 "## Detalles Adicionales
") V1.detalle_line content = Ret (content ++ s5)) ->
  (forall content,
     V1.section g (utf8 "estructura_contenido") (utf8 "## Estructura del Contenido
") V1.tema_line content = Ret (content ++ s6)) ->
  V1.summary_markdown g original_filename gemini_model
  = Ret (V1.summary_header resumen original_filename gemini_model
         ++ s1 ++ s2 ++ s3 ++ s4 ++ s5 ++ s6 ++ V1.summary_footer gemini_model).
Proof.
  intros Hres H1 H2 H3 H4 H5 H6.
  unfold V1.summary_markdown, mbind, outcome_bind, mret, outcome_ret.
  rewrite Hres. cbn [obind].
  rewrite H1. cbn [obind]. rewrite H2. cbn [obind]. rewrite H3. cbn [obind].
  rewrite H4. cbn [obind]. rewrite H5. cbn [obind]. rewrite H6. cbn [obind].
  now rewrite <- !app_assoc.
Qed.

(** A field that is missing, or holds a value Python takes for false, gives
    no section. *)
Lemma section_skipped (d : list (pystr * value)) (key heading : pystr)
    (line : Z -> value -> outcome pystr) (content : pystr) :
  match Dict.get key d with Some v => truthy v = false | None => True end ->
  V1.section (VDict d) key heading line content = Ret (content ++ []).
Proof.
  intros Hv. unfold V1.section, mbind, outcome_bind, mret, outcome_ret.
  cbn [py_get obind]. rewrite app_nil_r.
  destruct (Dict.get key d) as [v |]; [now rewrite Hv | reflexivity].
Qed.

(** A field that holds a number or a boolean that Python takes for true:
    [len] raises. *)
Lemma section_scalar (d : list (pystr * value)) (key heading : pystr)
    (line : Z -> value -> outcome pystr) (content : pystr) (v : value) :
  Dict.get key d = Some v -> Facts.scalar v -> truthy v = true ->
  V1.section (VDict d) key heading line content = Raise TypeError.
Proof.
  intros Hget Hscalar Htrue. unfold V1.section, mbind, outcome_bind.
  cbn [py_get py_getitem obind]. rewrite Hget, Htrue. cbn [obind].
  destruct v; try contradiction; reflexivity.
Qed.

(** A field that holds a string: one line per character. *)
Lemma section_of_string (d : list (pystr * value)) (key heading : pystr)
    (line : Z -> value -> outcome pystr) (pure : Z -> pystr -> pystr)
    (s content : pystr) :
  Dict.get key d = Some (VStr s) ->
  (forall i x, line i (VStr x) = Ret (pure i x)) ->
  V1.section (VDict d) key heading line content
  = Ret (content ++ Spec.section heading pure (map (fun c => [c]) s)).
Proof.
  intros Hget Hline. unfold V1.section, mbind, outcome_bind.
  cbn [py_get py_getitem obind]. rewrite Hget. cbn [obind].
  destruct s as [| c s].
  - cbn [truthy map Spec.section]. unfold mret, outcome_ret. now rewrite app_nil_r.
  - cbn [truthy py_len py_iter obind]. rewrite len_cons_pos.
    replace (map (fun c0 => VStr [c0]) (c :: s))
      with (map VStr (map (fun c0 => [c0]) (c :: s))) by apply map_map.
    pose proof (section_loop line pure (map (fun c => [c]) (c :: s)) 1
                  (content ++ heading) Hline) as Hloop.
    unfold mbind, outcome_bind in Hloop. rewrite Hloop. cbn [obind].
    unfold mret, outcome_ret. unfold Spec.section. cbn [map].
    now rewrite <- !app_assoc.
Qed.

Lemma pregunta_line_string (i : Z) (s : pystr) :
  V1.pregunta_line i (VStr s) = Ret (Spec.marked_line (utf8 "❓ ") i s).
Proof. reflexivity. Qed.

(** The summary note of version 2, from what each list contributes. *)
Lemma V2_summary_markdown_fields (g resumen : value)
    (original_filename gemini_model s1 s2 s3 s4 s5 s6 : pystr) :
  py_get g (utf8 "resumen_ejecutivo") (VStr (utf8 "No disponible")) = Ret resumen ->
  (forall content,
     V2.bullet_list g (utf8 "puntos_clave") (utf8 "- ") content = Ret (content ++ s1)) ->
  (forall content,
     V2.bullet_list g (utf8 "conceptos_importantes") (utf8 "- ") content
     = Ret (content ++ s2)) ->
  (forall content,
     V2.bullet_list g (utf8 "preguntas_dudas") (utf8 "- ") content = Ret (content ++ s3)) ->
  (forall content,
     V2.bullet_list g (utf8 "tareas_acciones") (utf8 "- [ ] ") content
     = Ret (content ++ s4)) ->
  (forall content,
     V2.bullet_list g (utf8 "detalles_adicionales") (utf8 "- ") content
     = Ret (content ++ s5)) ->
  (forall content,
     V2.bullet_list g (utf8 "estructura_contenido") (utf8 "- ") content
     = Ret (content ++ s6)) ->
  V2.summary_markdown g original_filename gemini_model
  = Ret (V2.summary_header resumen original_filename gemini_model
         ++ s1
         ++ utf8 "
## Conceptos Importantes
" ++ s2
         ++ utf8 "
## Preguntas y Dudas
" ++ s3
         ++ utf8 "
## Tareas y Acciones
" ++ s4
         ++ utf8 "
## Detalles Adicionales
" ++ s5
         ++ utf8 "
## Estructura del Contenido
" ++ s6).
Proof.
  intros Hres H1 H2 H3 H4 H5 H6.
  unfold V2.summary_markdown, mbind, outcome_bind, mret, outcome_ret.
  rewrite Hres. cbn [obind].
  rewrite H1. cbn [obind]. rewrite H2. cbn [obind]. rewrite H3. cbn [obind].
  rewrite H4. cbn [obind]. rewrite H5. cbn [obind]. rewrite H6.
  now rewrite <- !app_assoc.
Qed.

Lemma bullet_list_missing (d : list (pystr * value)) (key mark content : pystr) :
  Dict.get key d = None ->
  V2.bullet_list (VDict d) key mark content = Ret (content ++ []).
Proof.
  intros Hget. unfold V2.bullet_list, mbind, outcome_bind, mret, outcome_ret.
  cbn [py_get obind]. rewrite Hget. cbn [py_iter obind fold_left].
  now rewrite app_nil_r.
Qed.

Lemma bullet_list_scalar (d : list (pystr * value)) (key mark content : pystr)
    (v : value) :
  Dict.get key d = Some v -> Facts.scalar v ->
  V2.bullet_list (VDict d) key mark content = Raise TypeError.
Proof.
  intros Hget Hscalar. unfold V2.bullet_list, mbind, outcome_bind.
  cbn [py_get obind]. rewrite Hget. destruct v; try contradiction; reflexivity.
Qed.

(** X9. A record with none of the seven fields, such as the extraction path of
    version 1 can return, is still rendered: version 1 writes the header
    with [No disponible] for the summary and the footer, version 2 the
    header with [No disponible] and the six headings with nothing under
    them. *)
Theorem summary_note_without_fields (d : list (pystr * value))
    (original_filename gemini_model : pystr) :
  (forall k, k ∈ V1.required_keys -> Dict.get k d = None) ->
  V1.summary_markdown (VDict d) original_filename gemini_model
  = Ret (V1.summary_header (VStr (utf8 "No disponible")) original_filename gemini_model
         ++ V1.summary_footer gemini_model)
  /\ V2.summary_markdown (VDict d) original_filename gemini_model
     = Ret (V2.summary_header (VStr (utf8 "No disponible")) original_filename gemini_model
            ++ utf8 "
## Conceptos Importantes
" ++ utf8 "
## Preguntas y Dudas
" ++ utf8 "
## Tareas y Acciones
" ++ utf8 "
## Detalles Adicionales
" ++ utf8 "
## Estructura del Contenido
").
Proof.
  intros Hnone.
  assert (H1 : Dict.get (utf8 "resumen_ejecutivo") d = None)
    by (apply Hnone, list_elem_of_lookup; exists 0%nat; reflexivity).
  assert (H2 : Dict.get (utf8 "puntos_clave") d = None)
    by (apply Hnone, list_elem_of_lookup; exists 1%nat; reflexivity).
  assert (H3 : Dict.get (utf8 "conceptos_importantes") d = None)
    by (apply Hnone, list_elem_of_lookup; exists 2%nat; reflexivity).
  assert (H4 : Dict.get (utf8 "preguntas_dudas") d = None)
    by (apply Hnone, list_elem_of_lookup; exists 3%nat; reflexivity).
  assert (H5 : Dict.get (utf8 "tareas_acciones") d = None)
    by (apply Hnone, list_elem_of_lookup; exists 4%nat; reflexivity).
  assert (H6 : Dict.get (utf8 "detalles_adicionales") d = None)
    by (apply Hnone, list_elem_of_lookup; exists 5%nat; reflexivity).
  assert (H7 : Dict.get (utf8 "estructura_contenido") d = None)
    by (apply Hnone, list_elem_of_lookup; exists 6%nat; reflexivity).
  split.
  - rewrite (V1_summary_markdown_fields (VDict d) (VStr (utf8 "No disponible"))
               original_filename gemini_model [] [] [] [] [] []).
    + reflexivity.
    + cbn [py_get]. now rewrite H1.
    + intros content. apply section_skipped. now rewrite H2.
    + intros content. apply section_skipped. now rewrite H3.
    + intros content. apply section_skipped. now rewrite H4.
    + intros content. apply section_skipped. now rewrite H5.
    + intros content. apply section_skipped. now rewrite H6.
    + intros content. apply section_skipped. now rewrite H7.
  - rewrite (V2_summary_markdown_fields (VDict d) (VStr (utf8 "No disponible"))
               original_filename gemini_model [] [] [] [] [] []).
    + now rewrite !app_nil_r.
    + cbn [py_get]. now rewrite H1.
    + intros content. now apply bullet_list_missing.
    + intros content. now apply bullet_list_missing.
    + intros content. now apply bullet_list_missing.
    + intros content. now apply bullet_list_missing.
    + intros content. now apply bullet_list_missing.
    + intros content. now apply bullet_list_missing.
Qed.

(** X10. A list field that holds a number, a boolean or [null] instead of a list:
    version 2 raises [TypeError] while it renders the note, and so does
    version 1 when the value counts as true (version 1 skips a value that
    counts as false); in both the error leaves the renderer, and no file is
    written. *)
Theorem summary_note_scalar_field (d : list (pystr * value)) (v : value)
    (original_filename output_path gemini_model : pystr) (w : World) :
  Dict.get (utf8 "puntos_clave") d = Some v ->
  Facts.scalar v ->
  V2.create_obsidian_summary_only (VDict d) original_filename output_path gemini_model w
  = (Raise TypeError, w)
  /\ (truthy v = true ->
      V1.create_obsidian_summary_only (VDict d) original_filename output_path gemini_model w
      = (Raise TypeError, w)).
Proof.
  intros Hget Hscalar. split.
  - unfold V2.create_obsidian_summary_only, mbind, M_bind, lift.
    unfold V2.summary_markdown, mbind, outcome_bind. cbn [py_get obind].
    now rewrite (bullet_list_scalar d _ _ _ v Hget Hscalar).
  - intros Htrue.
    unfold V1.create_obsidian_summary_only, mbind, M_bind, lift.
    unfold V1.summary_markdown, mbind, outcome_bind. cbn [py_get obind].
    now rewrite (section_scalar d _ _ _ _ v Hget Hscalar Htrue).
Qed.

Lemma bullet_list_of_string (d : list (pystr * value)) (key mark s content : pystr) :
  Dict.get key d = Some (VStr s) ->
  V2.bullet_list (VDict d) key mark content
  = Ret (content ++ Spec.bullets mark (map (fun c => [c]) s)).
Proof.
  intros Hget. unfold V2.bullet_list, mbind, outcome_bind, mret, outcome_ret.
  cbn [py_get obind]. rewrite Hget. cbn [py_iter obind].
  replace (map (fun c0 => VStr [c0]) s)
    with (map VStr (map (fun c0 => [c0]) s)) by apply map_map.
  now rewrite bullets_loop.
Qed.

(** A list field that is a list of strings, or is missing. *)
Lemma section_field (d : list (pystr * value)) (key heading : pystr)
    (line : Z -> value -> outcome pystr) (pure : Z -> pystr -> pystr)
    (items : list pystr) (content : pystr) :
  Facts.holds_strings key d items ->
  (forall i x, line i (VStr x) = Ret (pure i x)) ->
  V1.section (VDict d) key heading line content
  = Ret (content ++ Spec.section heading pure items).
Proof.
  intros [Hget | [Hget ->]] Hline.
  - apply section_strings; [| | exact Hline].
    + cbn [py_get]. now rewrite Hget.
    + cbn [py_getitem]. now rewrite Hget.
  - apply section_skipped. now rewrite Hget.
Qed.

Lemma bullet_list_field (d : list (pystr * value)) (key mark : pystr)
    (items : list pystr) (content : pystr) :
  Facts.holds_strings key d items ->
  V2.bullet_list (VDict d) key mark content = Ret (content ++ Spec.bullets mark items).
Proof.
  intros [Hget | [Hget ->]].
  - apply bullet_list_strings. cbn [py_get]. now rewrite Hget.
  - now apply bullet_list_missing.
Qed.

(** X11. A record whose [puntos_clave] holds a string instead of a list,
    its other list fields being lists of strings (each possibly empty, or
    missing), is rendered without error in both versions: the string gives
    one line per character, numbered in version 1 and as bullets in
    version 2, and the other fields are rendered as usual. *)
Theorem summary_note_string_field (d : list (pystr * value)) (s : pystr)
    (conceptos preguntas tareas detalles estructura : list pystr)
    (original_filename gemini_model : pystr) :
  Dict.get (utf8 "puntos_clave") d = Some (VStr s) ->
  Facts.holds_strings (utf8 "conceptos_importantes") d conceptos ->
  Facts.holds_strings (utf8 "preguntas_dudas") d preguntas ->
  Facts.holds_strings (utf8 "tareas_acciones") d tareas ->
  Facts.holds_strings (utf8 "detalles_adicionales") d detalles ->
  Facts.holds_strings (utf8 "estructura_contenido") d estructura ->
  let resumen :=
    match Dict.get (utf8 "resumen_ejecutivo") d with
    | Some x => x
    | None => VStr (utf8 "No disponible")
    end in
  V1.summary_markdown (VDict d) original_filename gemini_model
  = Ret (V1.summary_header resumen original_filename gemini_model
         ++ Spec.section (utf8 "## Puntos Clave Principales
") Spec.numbered_line (map (fun c => [c]) s)
         ++ Spec.section (utf8 "## Conceptos Importantes
") Spec.concepto_line conceptos
         ++ Spec.section (utf8 "## Preguntas y Dudas
") (Spec.marked_line (utf8 "❓ ")) preguntas
         ++ Spec.section (utf8 "## Tareas y Acciones
") (Spec.marked_line (utf8 "- [ ] ")) tareas
         ++ Spec.section (utf8 "## Detalles Adicionales
") (Spec.marked_line (utf8 "💡 ")) detalles
         ++ Spec.section (utf8 "## Estructura del Contenido
") Spec.tema_line estructura
         ++ V1.summary_footer gemini_model)
  /\ V2.summary_markdown (VDict d) original_filename gemini_model
     = Ret (V2.summary_header resumen original_filename gemini_model
            ++ Spec.bullets (utf8 "- ") (map (fun c => [c]) s)
            ++ utf8 "
## Conceptos Importantes
" ++ Spec.bullets (utf8 "- ") conceptos
            ++ utf8 "
## Preguntas y Dudas
" ++ Spec.bullets (utf8 "- ") preguntas
            ++ utf8 "
## Tareas y Acciones
" ++ Spec.bullets (utf8 "- [ ] ") tareas
            ++ utf8 "
## Detalles Adicionales
" ++ Spec.bullets (utf8 "- ") detalles
            ++ utf8 "
## Estructura del Contenido
" ++ Spec.bullets (utf8 "- ") estructura).
Proof.
  intros Hget H3 H4 H5 H6 H7 resumen.
  split.
  - apply V1_summary_markdown_fields.
    + reflexivity.
    + intros content. now apply section_of_string.
    + intros content. apply section_field; [exact H3 | apply concepto_line_string].
    + intros content. now apply section_field.
    + intros content. now apply section_field.
    + intros content. now apply section_field.
    + intros content. apply section_field; [exact H7 | apply tema_line_string].
  - apply V2_summary_markdown_fields.
    + reflexivity.
    + intros content. now apply bullet_list_of_string.
    + intros content. now apply bullet_list_field.
    + intros content. now apply bullet_list_field.
    + intros content. now apply bullet_list_field.
    + intros content. now apply bullet_list_field.
    + intros content. now apply bullet_list_field.
Qed.

End Notes.

Lemma summary_note_without_fields_witness :
  let env := Concrete.env (Ret []) [] in
  let d := [(utf8 "a", VInt 1)] in
  @V1.summary_markdown Concrete.py env (VDict d) (utf8 "clase.m4a") (utf8 "gemini-pro")
  = Ret (@V1.summary_header Concrete.py env (VStr (utf8 "No disponible"))
           (utf8 "clase.m4a") (utf8 "gemini-pro")
         ++ @V1.summary_footer env (utf8 "gemini-pro"))
  /\ @V2.summary_markdown Concrete.py env (VDict d) (utf8 "clase.m4a") (utf8 "gemini-pro")
     = Ret (@V2.summary_header Concrete.py env (VStr (utf8 "No disponible"))
              (utf8 "clase.m4a") (utf8 "gemini-pro")
            ++ utf8 "
## Conceptos Importantes
" ++ utf8 "
## Preguntas y Dudas
" ++ utf8 "
## Tareas y Acciones
" ++ utf8 "
## Detalles Adicionales
" ++ utf8 "
## Estructura del Contenido
").
Proof.
  intros env d.
  apply (@summary_note_without_fields Concrete.py env d).
  intros k Hk. unfold V1.required_keys in Hk.
  repeat (apply elem_of_cons in Hk; destruct Hk as [-> | Hk]; [vm_compute; reflexivity |]).
  now apply not_elem_of_nil in Hk.
Defined.

Lemma summary_note_scalar_field_witness :
  let env := Concrete.env (Ret []) [] in
  let d := [(utf8 "puntos_clave", VInt 5)] in
  let w := Concrete.world None in
  @V2.create_obsidian_summary_only Concrete.py env (VDict d) (utf8 "clase")
    (utf8 "./clase_resumen.md") (utf8 "gemini-pro") w
  = (Raise TypeError, w)
  /\ (@truthy Concrete.py (VInt 5) = true ->
      @V1.create_obsidian_summary_only Concrete.py env (VDict d) (utf8 "clase")
        (utf8 "./clase_resumen.md") (utf8 "gemini-pro") w
      = (Raise TypeError, w)).
Proof.
  intros env d w.
  apply (@summary_note_scalar_field Concrete.py env d (VInt 5)).
  - reflexivity.
  - exact I.
Defined.

(** The record that the direct parse returns for an object whose
    [puntos_clave] is a string: the missing fields were filled with empty
    lists, and one field holds a list. *)
Lemma summary_note_string_field_witness :
  let env := Concrete.env (Ret []) [] in
  let d :=
    [ (utf8 "resumen_ejecutivo", VStr (utf8 "x"));
      (utf8 "puntos_clave", VStr (utf8 "ab"));
      (utf8 "tareas_acciones", VList (map VStr [utf8 "Estudiar"]));
      (utf8 "conceptos_importantes", VList []);
      (utf8 "preguntas_dudas", VList []);
      (utf8 "detalles_adicionales", VList []);
      (utf8 "estructura_contenido", VList []) ] in
  let resumen :=
    match Dict.get (utf8 "resumen_ejecutivo") d with
    | Some x => x
    | None => VStr (utf8 "No disponible")
    end in
  @V1.summary_markdown Concrete.py env (VDict d) (utf8 "clase.m4a") (utf8 "gemini-pro")
  = Ret (@V1.summary_header Concrete.py env resumen (utf8 "clase.m4a") (utf8 "gemini-pro")
         ++ Spec.section (utf8 "## Puntos Clave Principales
") Spec.numbered_line (map (fun c => [c]) (utf8 "ab"))
         ++ Spec.section (utf8 "## Conceptos Importantes
") Spec.concepto_line []
         ++ Spec.section (utf8 "## Preguntas y Dudas
") (Spec.marked_line (utf8 "❓ ")) []
         ++ Spec.section (utf8 "## Tareas y Acciones
") (Spec.marked_line (utf8 "- [ ] ")) [utf8 "Estudiar"]
         ++ Spec.section (utf8 "## Detalles Adicionales
") (Spec.marked_line (utf8 "💡 ")) []
         ++ Spec.section (utf8 "## Estructura del Contenido
") Spec.tema_line []
         ++ @V1.summary_footer env (utf8 "gemini-pro"))
  /\ @V2.summary_markdown Concrete.py env (VDict d) (utf8 "clase.m4a") (utf8 "gemini-pro")
     = Ret (@V2.summary_header Concrete.py env resumen (utf8 "clase.m4a") (utf8 "gemini-pro")
            ++ Spec.bullets (utf8 "- ") (map (fun c => [c]) (utf8 "ab"))
            ++ utf8 "
## Conceptos Importantes
" ++ Spec.bullets (utf8 "- ") []
            ++ utf8 "
## Preguntas y Dudas
" ++ Spec.bullets (utf8 "- ") []
            ++ utf8 "
## Tareas y Acciones
" ++ Spec.bullets (utf8 "- [ ] ") [utf8 "Estudiar"]
            ++ utf8 "
## Detalles Adicionales
" ++ Spec.bullets (utf8 "- ") []
            ++ utf8 "
## Estructura del Contenido
" ++ Spec.bullets (utf8 "- ") []).
Proof.
  intros env d.
  apply (@summary_note_string_field Concrete.py env d (utf8 "ab")
           [] [] [utf8 "Estudiar"] [] []).
  - reflexivity.
  - left. reflexivity.
  - left. reflexivity.
  - left. reflexivity.
  - left. reflexivity.
  - left. reflexivity.
Defined.

(** The note of that record in version 1, as text. *)
Example summary_note_string_field_text :
  let env := Concrete.env (Ret []) [] in
  let d :=
    [ (utf8 "puntos_clave", VStr (utf8 "ab"));
      (utf8 "conceptos_importantes", VList []) ] in
  exists before after,
    @V1.summary_markdown Concrete.py env (VDict d) (utf8 "clase.m4a") (utf8 "gemini-pro")
    = Ret (before ++ utf8 "## Puntos Clave Principales
1. a
2. b

" ++ after).
Proof.
  intros env d.
  exists (@V1.summary_header Concrete.py env (VStr (utf8 "No disponible"))
            (utf8 "clase.m4a") (utf8 "gemini-pro")),
         (@V1.summary_footer env (utf8 "gemini-pro")).
  vm_compute. reflexivity.
Qed.

Section TranscriptNote.
Context `{PyLib} `{Env}.

Lemma paragraphs_of_spec (text_content : pystr) :
  V1Parts.paragraphs_of text_content
  = filter (fun p => p ≠ []) (map strip (split 10 text_content)).
Proof. apply map_filter_strip. Qed.

Lemma no_long_paragraph (paragraphs : list pystr) (start : Z) :
  Forall (fun p => len p <= 30) paragraphs ->
  filter (fun ip : Z * pystr => (len (snd ip) >? 30) = true) (enumerate start paragraphs)
  = [].
Proof.
  intros Hshort. revert start.
  induction Hshort as [| p ps Hp Hps IH]; intros start; [reflexivity |].
  cbn [enumerate]. rewrite filter_cons. cbn [snd].
  rewrite decide_False; [apply IH |].
  intros Hgt. apply Z.gtb_lt in Hgt. lia.
Qed.

(** X12. The transcript note of version 1 is its header, one section for every
    paragraph of more than 30 characters, and its footer. The paragraphs are
    the trimmed lines that are not blank; a section carries the number its
    paragraph has among all of them, so the numbers of the paragraphs left
    out are missing; and a transcript without such a paragraph gives a note
    without any section. *)
Theorem transcription_note_sections (text_content original_filename : pystr) :
  let paragraphs := filter (fun p => p ≠ []) (map strip (split 10 text_content)) in
  let shown :=
    filter (fun ip => (len (snd ip) >? 30) = true) (enumerate 1 paragraphs) in
  V1.transcription_markdown text_content original_filename
  = V1Parts.transcription_header text_content original_filename
    ++ flat_map (fun ip => V1Parts.transcription_section (fst ip) (snd ip)) shown
    ++ V1Parts.transcription_footer
  /\ (Forall (fun p => len p <= 30) paragraphs ->
      V1.transcription_markdown text_content original_filename
      = V1Parts.transcription_header text_content original_filename
        ++ V1Parts.transcription_footer).
Proof.
  intros paragraphs shown.
  assert (Hmain :
    V1.transcription_markdown text_content original_filename
    = V1Parts.transcription_header text_content original_filename
      ++ flat_map (fun ip => V1Parts.transcription_section (fst ip) (snd ip)) shown
      ++ V1Parts.transcription_footer).
  { unfold V1.transcription_markdown. cbv zeta.
    rewrite (fold_left_extend
               (fun ip => V1Parts.transcription_section (fst ip) (snd ip))
               (fun ip => len (snd ip) >? 30)).
    fold (V1Parts.paragraphs_of text_content).
    rewrite <- app_assoc. subst shown paragraphs.
    rewrite <- paragraphs_of_spec.
    unfold V1Parts.transcription_header, V1Parts.transcription_footer. cbv zeta.
    reflexivity. }
  split; [exact Hmain |].
  intros Hshort. rewrite Hmain.
  assert (Hnone : shown = []) by (subst shown; now apply no_long_paragraph).
  now rewrite Hnone.
Qed.

End TranscriptNote.

(** ** Runs of the two pipelines *)

Section Runs.
Context `{PyLib} `{Env}.

(** The run of version 1 after a transcription that succeeded, for any
    summary whose note can be rendered. *)
Lemma process_after_summary
    (audio_file whisper_model output_dir gemini_model txt_file text_content note : pystr)
    (gemini_summary : value) (w w1 w2 : World) :
  audio_exists audio_file = true ->
  V1.transcribe_audio audio_file whisper_model output_dir w = (Ret (Some txt_file), w1) ->
  txt_file ≠ [] ->
  files w1 !! txt_file = Some text_content ->
  V1.gemini_summary_or_none text_content gemini_model w1 = (Ret gemini_summary, w2) ->
  V1.summary_markdown
    (if negb (truthy gemini_summary) then V1.generate_basic_summary text_content
     else gemini_summary)
    audio_file gemini_model
  = Ret note ->
  let summary_file := path_join output_dir (path_stem audio_file ++ utf8 "_resumen.md") in
  let transcription_file :=
    path_join output_dir (path_stem audio_file ++ utf8 "_transcripcion.md") in
  V1.process_voice_note_gemini audio_file whisper_model output_dir gemini_model w
  = (Ret (2 <=? Spec.files_produced (writable summary_file) (writable transcription_file)),
     set_files
       (Spec.write_if (writable transcription_file) transcription_file
          (V1.transcription_markdown text_content audio_file)
          (Spec.write_if (writable summary_file) summary_file note (files w2)))
       w2).
Proof.
  intros Haudio Htrans Htxt Hread Hsum Hnote summary_file transcription_file.
  unfold V1.process_voice_note_gemini. rewrite Haudio. cbn [negb].
  unfold mbind at 1, M_bind at 1. rewrite Htrans.
  assert (Hset : V1.set_and_nonempty (Some txt_file) = true)
    by (destruct txt_file; [congruence | reflexivity]).
  rewrite Hset. cbn [negb]. change (default [] (Some txt_file)) with txt_file.
  unfold mbind at 1, M_bind at 1.
  unfold try_except at 1, mbind at 1, M_bind at 1, read_file at 1. rewrite Hread.
  unfold mret at 1, M_ret at 1.
  unfold mbind at 1, M_bind at 1. rewrite Hsum. cbv zeta.
  unfold mbind at 1, M_bind at 1.
  unfold V1.create_obsidian_summary_only at 1, mbind at 1, M_bind at 1, lift at 1.
  rewrite Hnote. rewrite write_note_result.
  unfold mbind at 1, M_bind at 1.
  unfold V1.create_obsidian_transcription_only at 1. rewrite write_note_result.
  unfold mret, M_ret. rewrite success_count_produced. reflexivity.
Qed.

(** X13. When Gemini's summary is a record of the data model, the pipeline of
    version 1 renders that record, not the fallback one: the summary note
    written is the note of the record, and when both notes can be written
    (their paths can be opened, and their texts hold no lone surrogate, so
    that UTF-8 can encode them) the run reports success with three files.
    A note that UTF-8 cannot encode is outside this statement: there
    [f.write] raises [UnicodeEncodeError], which the writer of the model
    does not show. *)
Theorem process_with_record
    (audio_file whisper_model output_dir gemini_model txt_file text_content : pystr)
    (r : Spec.SummaryRecord) (w w1 w2 : World) :
  audio_exists audio_file = true ->
  V1.transcribe_audio audio_file whisper_model output_dir w = (Ret (Some txt_file), w1) ->
  txt_file ≠ [] ->
  files w1 !! txt_file = Some text_content ->
  V1.gemini_summary_or_none text_content gemini_model w1 = (Ret (Spec.to_value r), w2) ->
  let summary_file := path_join output_dir (path_stem audio_file ++ utf8 "_resumen.md") in
  let transcription_file :=
    path_join output_dir (path_stem audio_file ++ utf8 "_transcripcion.md") in
  writable summary_file = true ->
  writable transcription_file = true ->
  (forall note,
     V1.summary_markdown (Spec.to_value r) audio_file gemini_model = Ret note ->
     encodable note = true) ->
  encodable (V1.transcription_markdown text_content audio_file) = true ->
  exists note,
    V1.summary_markdown (Spec.to_value r) audio_file gemini_model = Ret note
    /\ V1.process_voice_note_gemini audio_file whisper_model output_dir gemini_model w
       = (Ret true,
          set_files
            (<[transcription_file := V1.transcription_markdown text_content audio_file]>
               (<[summary_file := note]> (files w2)))
            w2).
Proof.
  intros Haudio Htrans Htxt Hread Hsum summary_file transcription_file Hw1 Hw2 _ _.
  eexists. split; [apply V1_summary_markdown_record |].
  rewrite (process_after_summary audio_file whisper_model output_dir gemini_model
             txt_file text_content _ (Spec.to_value r) w w1 w2
             Haudio Htrans Htxt Hread Hsum (V1_summary_markdown_record r _ _)).
  fold summary_file transcription_file. rewrite Hw1, Hw2. reflexivity.
Qed.

End Runs.

(** A run where Gemini answers with a full record inside a fence. *)
Lemma process_with_record_witness :
  let py := Concrete.py in
  let transcript := utf8 "Hoy vimos derivadas. Mañana hay examen." in
  let reply := utf8q "```json
{~resumen_ejecutivo~: ~Clase de derivadas.~, ~puntos_clave~: [~La regla de la cadena~],
 ~conceptos_importantes~: [~Derivada: tasa de cambio~], ~preguntas_dudas~: [],
 ~tareas_acciones~: [~Estudiar para el examen~], ~detalles_adicionales~: [],
 ~estructura_contenido~: [~Repaso~, ~Ejemplos~]}
```" in
  let env := Concrete.env (Ret reply) transcript in
  let r :=
    {| Spec.resumen_ejecutivo := utf8 "Clase de derivadas.";
       Spec.puntos_clave := [utf8 "La regla de la cadena"];
       Spec.conceptos_importantes := [utf8 "Derivada: tasa de cambio"];
       Spec.preguntas_dudas := [];
       Spec.tareas_acciones := [utf8 "Estudiar para el examen"];
       Spec.detalles_adicionales := [];
       Spec.estructura_contenido := [utf8 "Repaso"; utf8 "Ejemplos"] |} in
  let w := Concrete.world (Some (utf8 "clave")) in
  let w1 :=
    snd (@V1.transcribe_audio py env (utf8 "clase.m4a") (utf8 "medium") (utf8 ".") w) in
  let w2 :=
    snd (@V1.gemini_summary_or_none py env transcript (utf8 "gemini-1.5-flash") w1) in
  let summary_file :=
    @path_join py (utf8 ".") (@path_stem py (utf8 "clase.m4a") ++ utf8 "_resumen.md") in
  let transcription_file :=
    @path_join py (utf8 ".") (@path_stem py (utf8 "clase.m4a") ++ utf8 "_transcripcion.md") in
  exists note,
    @V1.summary_markdown py env (Spec.to_value r) (utf8 "clase.m4a") (utf8 "gemini-1.5-flash")
    = Ret note
    /\ @V1.process_voice_note_gemini py env (utf8 "clase.m4a") (utf8 "medium") (utf8 ".")
         (utf8 "gemini-1.5-flash") w
       = (Ret true,
          set_files
            (<[transcription_file :=
                 @V1.transcription_markdown py env transcript (utf8 "clase.m4a")]>
               (<[summary_file := note]> (files w2)))
            w2).
Proof.
  intros py transcript reply env r w w1 w2.
  apply (@process_with_record py env (utf8 "clase.m4a") (utf8 "medium") (utf8 ".")
           (utf8 "gemini-1.5-flash") (utf8 "./clase.txt") transcript r w w1 w2).
  - reflexivity.
  - vm_compute. reflexivity.
  - discriminate.
  - vm_compute. reflexivity.
  - vm_compute. reflexivity.
  - reflexivity.
  - reflexivity.
  - intros note Hnote. vm_compute in Hnote. injection Hnote as <-.
    vm_compute. reflexivity.
  - vm_compute. reflexivity.
Defined.

(** ** The transcription and the driver of version 2 *)

Section Chunks.
Context {Audio : Type} `{V2.Whisper Audio}.



Lemma gather_loop_raises {B} (tasks : list (outcome B)) (arrival : list nat)
    (slots : list (option B)) (i : nat) (e : exn) :
  i ∈ arrival -> tasks !! i = Some (Raise e) ->
  exists e', V2.gather_loop tasks arrival slots = Some (Raise e')
             /\ Raise e' ∈ tasks.
Proof.
  intros Hin Hi. revert slots.
  induction arrival as [| k arrival IH]; intros slots.
  - now apply not_elem_of_nil in Hin.
  - cbn [V2.gather_loop]. destruct (tasks !! k) as [[r | e0] |] eqn:Hk.
    + apply elem_of_cons in Hin. destruct Hin as [-> | Hin]; [congruence |].
      now apply IH.
    + exists e0. split; [reflexivity |]. apply list_elem_of_lookup. eauto.
    + apply elem_of_cons in Hin. destruct Hin as [-> | Hin]; [congruence |].
      now apply IH.
Qed.

(** X15. The batch is lost when one request raises (a connection that breaks, an
    answer with status 200 whose body is not JSON): as soon as the reply of
    that chunk is among those arrived, [transcribe_all_chunks] raises, even
    if every other chunk was transcribed. *)
Theorem transcribe_all_chunks_raises
    (chunk_paths : list (pystr * Audio)) (model name : pystr)
    (arrival : list nat) (i : nat) (file : pystr * Audio) (e : exn) :
  V2.models_getitem model V2.WHISPER_MODELS = Ret name ->
  chunk_paths !! i = Some file ->
  V2.transcribe_chunk file (utf8 "https://api-inference.huggingface.co/models/" ++ name)
  = Raise e ->
  i ∈ arrival ->
  exists e', V2.transcribe_all_chunks chunk_paths model arrival = Some (Raise e').
Proof.
  intros Hmodel Hfile Hraise Hin.
  unfold V2.transcribe_all_chunks. rewrite Hmodel. cbv zeta. unfold V2.gather.
  revert Hraise.
  generalize (utf8 "https://api-inference.huggingface.co/models/" ++ name).
  intros url Hraise.
  destruct (gather_loop_raises
              (map (fun path => V2.transcribe_chunk path url) chunk_paths)
              arrival
              (replicate
                 (length (map (fun path => V2.transcribe_chunk path url) chunk_paths))
                 None)
              i e Hin) as (e' & He' & _).
  - change (map ?f chunk_paths) with (f <$> chunk_paths).
    rewrite list_lookup_fmap, Hfile.
    change ((fun path => V2.transcribe_chunk path url) <$> Some file)
      with (Some (V2.transcribe_chunk file url)).
    now rewrite Hraise.
  - eauto.
Qed.

End Chunks.


Example transcript_with_error_marker :
  join (utf8 "

")
    (map Facts.chunk_text
       [ {| V2.status := 200;
            V2.json := Ret (VDict [(utf8 "text", VStr (utf8 "hola"))]);
            V2.text := [] |};
         {| V2.status := 503; V2.json := Raise JSONDecodeError;
            V2.text := utf8 "Model is loading" |} ])
  = utf8 "hola

[ERROR] 503: Model is loading".
Proof. vm_compute. reflexivity. Qed.

(** Two chunks, the connection breaks on the second. *)
Lemma transcribe_all_chunks_raises_witness :
  exists e',
    @V2.transcribe_all_chunks Z Worlds.broken_whisper
      [ (utf8 "./chunks/chunk_0.mp3", 100); (utf8 "./chunks/chunk_1.mp3", 0) ]
      (utf8 "small") [0%nat; 1%nat]
    = Some (Raise e').
Proof.
  apply (@transcribe_all_chunks_raises Z Worlds.broken_whisper
           [ (utf8 "./chunks/chunk_0.mp3", 100); (utf8 "./chunks/chunk_1.mp3", 0) ]
           (utf8 "small") (utf8 "openai/whisper-small") [0%nat; 1%nat] 1%nat
           (utf8 "./chunks/chunk_1.mp3", 0) OSError).
  - reflexivity.
  - reflexivity.
  - reflexivity.
  - right. left.
Defined.

Section Driver.
Context `{PyLib} `{Env} {Audio : Type} `{V2.AudioLib Audio} `{V2.Whisper Audio}.


(** X17. When the plain transcript cannot be written, the driver of version 2
    stops with [OSError] and Gemini is never called: the world is as it
    was. *)
Theorem main_unwritable_transcript (args : V2.Args) (arrival : list nat)
    (chunk_paths : list (pystr * Audio)) (transcriptions : list value)
    (full_text : pystr) (w : World) :
  V2.fragment_audio (V2.audio_path args) (utf8 "./chunks") = Ret chunk_paths ->
  V2.transcribe_all_chunks chunk_paths (V2.model args) arrival
  = Some (Ret transcriptions) ->
  V2.py_join (utf8 "

") transcriptions = Ret full_text ->
  writable
    (path_join (V2.output_dir args) (path_base_name (V2.audio_path args) ++ utf8 ".txt"))
  = false ->
  exists run, V2.main args arrival = Some run /\ run w = (Raise OSError, w).
Proof.
  intros Hchunks Htexts Hjoin Hwrite.
  unfold V2.main. cbv zeta. rewrite Hchunks, Htexts.
  eexists. split; [reflexivity |].
  unfold mbind at 1, M_bind at 1, lift at 1.
  unfold mbind at 1, M_bind at 1, lift at 1. rewrite Hjoin.
  unfold mbind at 1, M_bind at 1.
  unfold V2.save_transcription at 1, mbind at 1, M_bind at 1, write_file at 1.
  now rewrite Hwrite.
Qed.


End Driver.

(** X19. With an audio taken as its list of millisecond frames and a slice
    cut as pydub cuts it, the chunks of [fragment_audio] put end to end are
    the audio: every frame is in exactly one chunk, in order, for a short
    recording (one chunk) and for a long one (four chunks). *)
Theorem fragment_audio_covers `{PyLib} (A : Type) (decode : pystr -> outcome (list A))
    (audio_path chunk_dir : pystr) (audio : list A) :
  decode audio_path = Ret audio ->
  exists chunks,
    @V2.fragment_audio _ (list A) (Concrete.frames_audio A decode) audio_path chunk_dir
    = Ret chunks
    /\ concat (map snd chunks) = audio.
Proof.
  intros Hdecode.
  destruct (@V2.audio_len (list A) (Concrete.frames_audio A decode) audio <=? 600000)
    eqn:Hd.
  - eexists. split.
    + unfold V2.fragment_audio, mbind, outcome_bind. cbn [V2.from_file Concrete.frames_audio].
      rewrite Hdecode. cbn [obind]. change (10 * 60 * 1000) with 600000.
      cbn [V2.audio_len Concrete.frames_audio] in *. rewrite Hd. reflexivity.
    + simpl. apply app_nil_r.
  - eexists. split.
    + apply (@fragment_audio_long _ (list A) (Concrete.frames_audio A decode));
        [exact Hdecode | exact Hd].
    + cbn [map snd concat V2.audio_slice V2.audio_len Concrete.frames_audio].
      cbn [V2.audio_len Concrete.frames_audio] in Hd.
      apply Z.leb_gt in Hd. unfold len in *.
      set (n := length audio) in *.
      set (q := Z.of_nat n / 4).
      assert (Hq : 0 <= q) by (apply Z.div_pos; lia).
      assert (Hq4 : 4 * q <= Z.of_nat n) by (apply Z.mul_div_le; lia).
      cbn [Z.ltb Z.compare Z.add Z.mul Pos.compare Pos.compare_cont Pos.add Pos.succ Pos.mul].
      replace (Z.to_nat (0 * q)) with 0%nat by lia.
      replace (Z.to_nat (1 * q) - 0)%nat with (Z.to_nat q) by lia.
      replace (Z.to_nat (1 * q)) with (Z.to_nat q) by lia.
      replace (Z.to_nat (2 * q) - Z.to_nat q)%nat with (Z.to_nat q) by lia.
      replace (Z.to_nat (3 * q) - Z.to_nat (2 * q))%nat with (Z.to_nat q) by lia.
      replace (Z.to_nat (Z.of_nat n) - Z.to_nat (3 * q))%nat
        with (n - Z.to_nat (3 * q))%nat by lia.
      replace (Z.to_nat (2 * q)) with (Z.to_nat q + Z.to_nat q)%nat by lia.
      replace (Z.to_nat (3 * q)) with (Z.to_nat q + (Z.to_nat q + Z.to_nat q))%nat by lia.
      rewrite drop_0, app_nil_r.
      rewrite <- !drop_drop.
      set (k := Z.to_nat q).
      rewrite (take_ge (drop k (drop k (drop k audio)))).
      2: { rewrite !length_drop. fold n. lia. }
      replace (Z.to_nat ((0 + 1) * q) - 0)%nat with k by lia.
      replace (Z.to_nat ((1 + 1) * q) - k)%nat with k by lia.
      replace (Z.to_nat ((2 + 1) * q) - (k + k))%nat with k by lia.
      now rewrite !take_drop.
Qed.


Lemma main_unwritable_transcript_witness :
  let args :=
    {| V2.audio_path := utf8 "clase.mp3"; V2.model := utf8 "small";
       V2.output_dir := utf8 "./output" |} in
  let w := Concrete.world (Some (utf8 "clave")) in
  exists run,
    @V2.main Concrete.py (Concrete.env_read_only (Ret []) []) Z
      (Concrete.duration_audio (Ret 600000)) Concrete.echo_whisper args [0%nat]
    = Some run
    /\ run w = (Raise OSError, w).
Proof.
  intros args w.
  apply (@main_unwritable_transcript Concrete.py (Concrete.env_read_only (Ret []) []) Z
           (Concrete.duration_audio (Ret 600000)) Concrete.echo_whisper args [0%nat]
           [(utf8 "./chunks/chunk_0.mp3", 600000)]
           [VStr (utf8 "audio de 600000 ms")] (utf8 "audio de 600000 ms") w).
  - vm_compute. reflexivity.
  - vm_compute. reflexivity.
  - reflexivity.
  - reflexivity.
Defined.


Lemma fragment_audio_covers_witness :
  exists chunks,
    @V2.fragment_audio Concrete.py (list Z)
      (Concrete.frames_audio Z (fun _ => Ret [1; 2; 3])) (utf8 "clase.mp3") (utf8 "./chunks")
    = Ret chunks
    /\ concat (map snd chunks) = [1; 2; 3].
Proof.
  apply (@fragment_audio_covers Concrete.py Z (fun _ => Ret [1; 2; 3])
           (utf8 "clase.mp3") (utf8 "./chunks") [1; 2; 3]).
  reflexivity.
Defined.

(** ** The test script *)

Section Script.
Context `{PyLib} `{Env}.

(** The inner [try] of the script: it answers [True], or an exception
    leaves it. It answers [True] when the text parses and the value read can
    be written back and shown, and when the text is not JSON and can itself
    be shown. *)
Lemma check_json_cases (response_text : pystr) :
  let passes :=
    match json_loads (TestScript.clean response_text) with
    | Some parsed_json =>
      exists shown, json_dumps parsed_json = Some shown /\ encodable shown = true
    | None =>
      json_loads_error (TestScript.clean response_text) = JSONDecodeError
      /\ encodable response_text = true
    end in
  (TestScript.check_json response_text = Ret true /\ passes)
  \/ (exists e, TestScript.check_json response_text = Raise e /\ ~ passes).
Proof.
  unfold TestScript.check_json, print_text, otry, mbind, outcome_bind, mret, outcome_ret.
  destruct (json_loads (TestScript.clean response_text)) as [parsed_json |].
  - destruct (json_dumps parsed_json) as [shown |].
    + destruct (encodable shown) eqn:Hshown; cbn [obind].
      * left. split; [reflexivity | eauto].
      * right. exists UnicodeEncodeError. split; [reflexivity |].
        intros (shown' & Heq & Hok). congruence.
    + right. exists RecursionError. split; [reflexivity |].
      intros (shown & Heq & _). discriminate.
  - destruct (json_loads_error (TestScript.clean response_text)) eqn:Herror;
      try (right; eexists; split; [reflexivity | intros [Habs _]; discriminate]).
    destruct (encodable response_text) eqn:Htext; cbn [obind].
    + left. split; [reflexivity | split; reflexivity].
    + right. exists UnicodeEncodeError. split; [reflexivity |].
      intros [_ Habs]. discriminate.
Qed.

(** X20. The test script never raises and writes no file. It answers [True]
    exactly when the API key is set, the backend returns to both prompts a
    text that is not empty, the first answer can be shown, and the second
    answer either parses to a value that can be written back and shown, or
    is not JSON ([json.JSONDecodeError]) and can itself be shown; so an
    answer that is not JSON does not fail the test, but another exception
    of [json.loads] ([RecursionError], [ValueError]) or a text that the
    standard output cannot encode does. It sends nothing without a key, and
    sends the second request only after a first answer that is not empty
    and was shown. *)
Theorem test_gemini_api_simple_spec (w : World) :
  let hello := TestScript.plain_request (utf8 "Say hello in Spanish") in
  let structured := TestScript.plain_request TestScript.json_prompt in
  exists ok w',
    TestScript.test_gemini_api_simple w = (Ret ok, w')
    /\ files w' = files w
    /\ (ok = true <->
        V1.set_and_nonempty (gemini_api_key w) = true
        /\ exists t1 t2,
             generate_content hello = Ret t1 /\ t1 ≠ [] /\ encodable t1 = true
             /\ generate_content structured = Ret t2 /\ t2 ≠ []
             /\ match json_loads (TestScript.clean t2) with
                | Some parsed_json =>
                  exists shown,
                    json_dumps parsed_json = Some shown /\ encodable shown = true
                | None =>
                  json_loads_error (TestScript.clean t2) = JSONDecodeError
                  /\ encodable t2 = true
                end)
    /\ sent w'
       = sent w
         ++ (if V1.set_and_nonempty (gemini_api_key w)
             then hello :: match generate_content hello with
                           | Ret (c :: t) => if encodable (c :: t) then [structured] else []
                           | _ => []
                           end
             else []).
Proof.
  intros hello structured.
  unfold TestScript.test_gemini_api_simple, mbind, M_bind, getenv_api_key, try_except.
  destruct (V1.set_and_nonempty (gemini_api_key w)) eqn:Hkey; cbn [negb].
  2: { exists false, w. unfold mret, M_ret.
       repeat split; try discriminate; [now intros [? _] | now rewrite app_nil_r]. }
  unfold call_backend at 1. fold hello.
  destruct (generate_content hello) as [t1 | e1] eqn:Hhello.
  2: { exists false, (add_sent hello w). unfold mret, M_ret.
       repeat split; try discriminate.
       intros (_ & t1 & t2 & Ht1 & _). discriminate. }
  destruct t1 as [| c1 t1']; cbn [V1.nonempty].
  { exists false, (add_sent hello w). unfold mret, M_ret.
    repeat split; try discriminate.
    intros (_ & t1 & t2 & Ht1 & Hne & _). congruence. }
  unfold lift at 1, print_text at 1.
  destruct (encodable (c1 :: t1')) eqn:Hshown.
  2: { exists false, (add_sent hello w). unfold mret, M_ret.
       repeat split; try discriminate.
       intros (_ & t1 & t2 & Ht1 & _ & Henc & _). congruence. }
  unfold call_backend at 1. fold structured.
  destruct (generate_content structured) as [t2 | e2] eqn:Hjson.
  2: { exists false, (add_sent structured (add_sent hello w)). unfold mret, M_ret.
       repeat split; try discriminate.
       - intros (_ & t1 & t2 & _ & _ & _ & Ht2 & _). discriminate.
       - cbn [sent add_sent]. now rewrite <- app_assoc. }
  destruct t2 as [| c2 t2']; cbn [V1.nonempty].
  { exists false, (add_sent structured (add_sent hello w)). unfold mret, M_ret.
    repeat split; try discriminate.
    - intros (_ & t1 & t2 & _ & _ & _ & Ht2 & Hne & _). congruence.
    - cbn [sent add_sent]. now rewrite <- app_assoc. }
  unfold lift.
  destruct (check_json_cases (c2 :: t2')) as [[Hcheck Hpasses] | (e & Hcheck & Hfails)];
    rewrite Hcheck.
  - exists true, (add_sent structured (add_sent hello w)).
    repeat split; try reflexivity.
    + exists (c1 :: t1'), (c2 :: t2'). repeat split; try discriminate; assumption.
    + cbn [sent add_sent]. now rewrite <- app_assoc.
  - exists false, (add_sent structured (add_sent hello w)). unfold mret, M_ret.
    repeat split; try discriminate.
    + intros (_ & t1 & t2 & _ & _ & _ & Ht2 & _ & Hpasses).
      injection Ht2 as <-. exfalso. apply Hfails. exact Hpasses.
    + cbn [sent add_sent]. now rewrite <- app_assoc.
Qed.

End Script.

(** The writer of the examples against [json.dumps]. *)
Example json_dumps_text :
  Json.dumps 0
    (VDict [ (utf8 "a", VList [VInt 1; VStr (utf8 "x" ++ [10%N] ++ utf8q "~q~" ++ [92%N])]);
             (utf8 "b", VDict []); (utf8 "c", VList []); (utf8 "d", VNone);
             (utf8 "e", VBool true); (utf8 "f", VStr ([1; 31]%N ++ utf8 " ñ")) ])
  = utf8q "{
  ~a~: [
    1,
    ~x\n\~q\~\\~
  ],
  ~b~: {},
  ~c~: [],
  ~d~: null,
  ~e~: true,
  ~f~: ~\u0001\u001f ñ~
}".
Proof. vm_compute. reflexivity. Qed.

(** Runs of the test script: an answer in prose and an answer that is JSON
    pass; an answer that reads as a string with a lone surrogate fails when
    it is shown; an answer of 1100 opening brackets, with an interpreter that
    allows 990 levels of nesting, fails with [RecursionError]. *)
Example test_gemini_api_simple_runs :
  let w := Concrete.world (Some (utf8 "clave")) in
  let env reply :=
    Worlds.env_two_replies (utf8 "Say hello in Spanish") (Ret (utf8 "Hola")) (Ret reply) in
  fst (@TestScript.test_gemini_api_simple Concrete.py (env (utf8 "No puedo.")) w) = Ret true
  /\ fst (@TestScript.test_gemini_api_simple Concrete.py
            (env (utf8q "{~test~: ~success~, ~numbers~: [1, 2, 3]}")) w) = Ret true
  /\ Json.loads (utf8q "~\ud800~") = Some (VStr [55296%N])
  /\ fst (@TestScript.test_gemini_api_simple Concrete.py (env (utf8q "~\ud800~")) w)
     = Ret false
  /\ fst (@TestScript.test_gemini_api_simple (Worlds.py_limited 990)
            (env (repeat 91%N 1100)) w)
     = Ret false.
Proof. repeat split; vm_compute; reflexivity. Qed.

(** ** What the summarization returns *)

Section Replies.
Context `{PyLib} `{Env}.

(** The configuration of a model: the entry of the table, or the entry of
    [gemini-1.5-flash] for a model the table does not have. *)
Lemma model_config_for_limits (model : pystr) :
  exists model_config,
    V1.model_config_for model = Ret model_config
    /\ V1.max_tokens model_config
       = (if decide (model = utf8 "gemini-pro") then 4096 else 8192)
    /\ V1.temperature model_config = utf8 "0.7".
Proof.
  unfold V1.model_config_for, V1.get_available_gemini_models.
  cbn [V1.models_get].
  destruct (decide (utf8 "gemini-1.5-flash" = utf8 "gemini-1.5-flash")) as [_ | Hne];
    [| now destruct Hne].
  cbn [default from_option].
  destruct (decide (utf8 "gemini-1.5-flash" = model)) as [<- | H1].
  { eexists. split; [reflexivity |]. split; [| reflexivity].
    destruct (decide (utf8 "gemini-1.5-flash" = utf8 "gemini-pro")) as [Habs | _];
      [vm_compute in Habs; discriminate | reflexivity]. }
  destruct (decide (utf8 "gemini-1.5-pro" = model)) as [<- | H2].
  { eexists. split; [reflexivity |]. split; [| reflexivity].
    destruct (decide (utf8 "gemini-1.5-pro" = utf8 "gemini-pro")) as [Habs | _];
      [vm_compute in Habs; discriminate | reflexivity]. }
  destruct (decide (utf8 "gemini-pro" = model)) as [<- | H3].
  { eexists. split; [reflexivity |]. split; [| reflexivity].
    destruct (decide (utf8 "gemini-pro" = utf8 "gemini-pro")) as [_ | Hne];
      [reflexivity | now destruct Hne]. }
  destruct (decide (utf8 "gemini-2.0-flash" = model)) as [<- | H4].
  { eexists. split; [reflexivity |]. split; [| reflexivity].
    destruct (decide (utf8 "gemini-2.0-flash" = utf8 "gemini-pro")) as [Habs | _];
      [vm_compute in Habs; discriminate | reflexivity]. }
  eexists. split; [reflexivity |]. split; [| reflexivity].
  destruct (decide (model = utf8 "gemini-pro")) as [-> | _];
    [now destruct H3 | reflexivity].
Qed.

(** X21. With the API key set, each version sends one request, to the model it
    was asked for, at temperature 0.7. Version 1 limits the answer to 4096
    tokens for [gemini-pro] and to 8192 tokens for every other model, known
    or not; version 2 always limits it to 4096 tokens. *)
Theorem generation_config_sent (text model : pystr) (w : World) :
  V1.set_and_nonempty (gemini_api_key w) = true ->
  sent (snd (V1.generate_gemini_summary text model w))
  = sent w
    ++ [ {| req_model := model;
            req_prompt := V1.build_prompt (V1.truncate_text text);
            req_max_output_tokens :=
              Some (if decide (model = utf8 "gemini-pro") then 4096 else 8192);
            req_temperature := Some (utf8 "0.7") |} ]
  /\ sent (snd (V2.generate_gemini_summary text model w))
     = sent w
       ++ [ {| req_model := model;
               req_prompt := V2.build_prompt text;
               req_max_output_tokens := Some 4096;
               req_temperature := Some (utf8 "0.7") |} ].
Proof.
  intros Hkey. split; [| exact (V2_generate_sent text model w Hkey)].
  destruct (model_config_for_limits model) as (cfg & Hcfg & Hmax & Htemp).
  rewrite <- Hmax, <- Htemp.
  unfold V1.generate_gemini_summary, try_except, mbind, M_bind, getenv_api_key, lift.
  rewrite Hkey. cbv zeta. rewrite Hcfg. unfold call_backend.
  destruct (generate_content _) as [t | e]; [| reflexivity].
  destruct (negb (V1.nonempty t)); [reflexivity |].
  destruct (V1.parse_response t); reflexivity.
Qed.

(** The key loop on a value that is not an object: it goes through only
    when Python finds every key in the value, and leaves the value as it
    is; otherwise it raises [TypeError]. *)
Lemma fill_keys_non_object (keys : list pystr) (v : value) :
  (forall d, v ≠ VDict d) ->
  ofold
    (fun summary_json key =>
       present ← py_in key summary_json;
       if negb present then py_setitem summary_json key (VList [])
       else mret summary_json)
    keys v
  = if forallb (fun key => match py_in key v with Ret true => true | _ => false end) keys
    then Ret v else Raise TypeError.
Proof.
  intros Hv. induction keys as [| k keys IH]; [reflexivity |].
  cbn [ofold forallb]. unfold mbind at 1, outcome_bind at 1.
  destruct v as [| b | n | x | s | l | d]; try reflexivity.
  - cbn [py_in obind]. destruct (contains s k); cbn [negb andb]; [exact IH | reflexivity].
  - cbn [py_in obind].
    destruct (existsb (fun x => eq_str x k) l); cbn [negb andb]; [exact IH | reflexivity].
  - now destruct (Hv d).
Qed.

Lemma fill_required_keys_non_object (v : value) :
  (forall d, v ≠ VDict d) ->
  V1.fill_required_keys v
  = if Facts.holds_required_keys v then Ret v else Raise TypeError.
Proof. apply fill_keys_non_object. Qed.

(** The inner [try] of version 1 on an answer that is JSON but not an
    object: an exception other than [json.JSONDecodeError] leaves it. *)
Lemma parse_response_non_object (t : pystr) (v : value) :
  json_loads (V1.strip_fences t) = Some v ->
  (forall d, v ≠ VDict d) ->
  exists e, V1.parse_response t = Raise e.
Proof.
  intros Hloads Hv. unfold V1.parse_response. cbv zeta. rewrite Hloads.
  unfold mbind at 1, outcome_bind at 1.
  rewrite (fill_required_keys_non_object v Hv).
  destruct (Facts.holds_required_keys v); cbn [obind]; [| eauto].
  destruct v as [| b | n | x | s | l | d]; try (eexists; reflexivity).
  now destruct (Hv d).
Qed.

(** X22. An answer that is valid JSON but not an object (a list, a string, a
    number, [true], [null]) gives [None] in version 1: once the answer is
    read, the key loop or the listing of the keys raises and the outer
    handler takes over. *)
Theorem V1_generate_non_object (text model reply : pystr) (v : value) (w : World) :
  V1.set_and_nonempty (gemini_api_key w) = true ->
  (forall model_config,
     generate_content
       (V1.summary_request model (V1.build_prompt (V1.truncate_text text)) model_config)
     = Ret reply) ->
  json_loads (V1.strip_fences reply) = Some v ->
  (forall d, v ≠ VDict d) ->
  fst (V1.generate_gemini_summary text model w) = Ret VNone.
Proof.
  intros Hkey Hreply Hloads Hv.
  destruct (model_config_for_returns model) as [cfg Hcfg].
  destruct (parse_response_non_object reply v Hloads Hv) as [e He].
  unfold V1.generate_gemini_summary, try_except, mbind, M_bind, getenv_api_key, lift.
  rewrite Hkey. cbv zeta. rewrite Hcfg. unfold call_backend. rewrite Hreply.
  destruct (negb (V1.nonempty reply)); [reflexivity |].
  now rewrite He.
Qed.

(** X23. Version 2 does not list the keys, so there the same kind of answer is
    returned as it is when Python finds the seven keys in it (a list that
    holds the seven names, a string in which each occurs), and gives [None]
    otherwise. A value returned this way is not a record: the renderer
    raises [AttributeError] at its first field access. *)
Theorem V2_generate_non_object (text model reply : pystr) (v : value) (w : World)
    (original_filename gemini_model : pystr) :
  V1.set_and_nonempty (gemini_api_key w) = true ->
  generate_content (V2.summary_request model (V2.build_prompt text)) = Ret reply ->
  json_loads (V2.strip_fences reply) = Some v ->
  (forall d, v ≠ VDict d) ->
  fst (V2.generate_gemini_summary text model w)
  = Ret (if Facts.holds_required_keys v then v else VNone)
  /\ V2.summary_markdown v original_filename gemini_model = Raise AttributeError.
Proof.
  intros Hkey Hreply Hloads Hv. split.
  - unfold V2.generate_gemini_summary, try_except, mbind, M_bind, getenv_api_key, lift.
    rewrite Hkey. cbv zeta. unfold call_backend. rewrite Hreply, Hloads.
    rewrite (fill_required_keys_non_object v Hv).
    now destruct (Facts.holds_required_keys v).
  - destruct v as [| b | n | x | s | l | d]; try reflexivity. now destruct (Hv d).
Qed.

(** X24. An answer that is a JSON object: both versions return it with the
    seven required fields. A field of the object keeps its value, a required
    field it lacked is the empty list, and nothing else is added. *)
Theorem generate_gemini_summary_object (text model reply : pystr)
    (d : list (pystr * value)) (w : World) :
  V1.set_and_nonempty (gemini_api_key w) = true ->
  reply ≠ [] ->
  (forall model_config,
     generate_content
       (V1.summary_request model (V1.build_prompt (V1.truncate_text text)) model_config)
     = Ret reply) ->
  generate_content (V2.summary_request model (V2.build_prompt text)) = Ret reply ->
  json_loads (V1.strip_fences reply) = Some (VDict d) ->
  json_loads (V2.strip_fences reply) = Some (VDict d) ->
  exists d',
    fst (V1.generate_gemini_summary text model w) = Ret (VDict d')
    /\ fst (V2.generate_gemini_summary text model w) = Ret (VDict d')
    /\ (forall k, k ∈ V1.required_keys -> is_Some (Dict.get k d'))
    /\ (forall k v, Dict.get k d = Some v -> Dict.get k d' = Some v)
    /\ (forall k, k ∈ V1.required_keys -> Dict.get k d = None ->
                  Dict.get k d' = Some (VList []))
    /\ (forall k, k ∉ V1.required_keys -> Dict.get k d' = Dict.get k d).
Proof.
  intros Hkey Hne Hreply1 Hreply2 Hloads1 Hloads2.
  exists (Spec.fill_defaults V1.required_keys d).
  split; [| split; [| split; [| split; [| split]]]].
  - destruct (model_config_for_returns model) as [cfg Hcfg].
    unfold V1.generate_gemini_summary, try_except, mbind, M_bind, getenv_api_key, lift.
    rewrite Hkey. cbv zeta. rewrite Hcfg. unfold call_backend. rewrite Hreply1.
    destruct reply as [| c reply']; [now destruct Hne |]. cbn [V1.nonempty negb].
    unfold V1.parse_response. cbv zeta. rewrite Hloads1.
    unfold mbind, outcome_bind. now rewrite fill_required_keys_dict.
  - unfold V2.generate_gemini_summary, try_except, mbind, M_bind, getenv_api_key, lift.
    rewrite Hkey. cbv zeta. unfold call_backend. rewrite Hreply2, Hloads2.
    now rewrite fill_required_keys_dict.
  - intros k Hk. destruct (Dict.get k d) as [v |] eqn:Hget.
    + exists v. now apply fill_defaults_keeps.
    + exists (VList []). now apply fill_defaults_adds.
  - intros k v. apply fill_defaults_keeps.
  - intros k. apply fill_defaults_adds.
  - intros k. apply fill_defaults_other.
Qed.

(** X25. With a [json.loads] that reads only objects from a text that begins
    with a brace, version 1 returns [None] or an object, whatever the
    backend answers. *)
Theorem V1_generate_none_or_object (text model : pystr) (w : World) :
  Facts.objects_from_braces ->
  fst (V1.generate_gemini_summary text model w) = Ret VNone
  \/ exists d, fst (V1.generate_gemini_summary text model w) = Ret (VDict d).
Proof.
  intros Hobjects.
  unfold V1.generate_gemini_summary, try_except, mbind, M_bind, getenv_api_key, lift.
  destruct (negb (V1.set_and_nonempty (gemini_api_key w))); [now left |].
  cbv zeta. destruct (V1.model_config_for model) as [cfg | e]; [| now left].
  unfold call_backend.
  destruct (generate_content _) as [t | e]; [| now left].
  destruct (negb (V1.nonempty t)); [now left |].
  destruct (json_loads (V1.strip_fences t)) as [v |] eqn:Hloads.
  - destruct v as [| b | n | x | s | l | d].
    1-6: destruct (parse_response_non_object t _ Hloads) as [e He];
         [discriminate | rewrite He; now left].
    destruct (parse_response_direct t d Hloads) as (d' & Hd' & _).
    rewrite Hd'. right. now exists d'.
  - unfold V1.parse_response. cbv zeta. rewrite Hloads.
    destruct (json_loads_error (V1.strip_fences t)); try now left.
    destruct (search_braces (V1.strip_fences t)) as [j |] eqn:Hsearch.
    + destruct (json_loads j) as [v |] eqn:Hj.
      * destruct (search_braces_starts _ _ Hsearch) as [rest ->].
        assert (Hstart : startswith (123%N :: rest) [123%N] = true)
          by (change (startswith rest [] = true); apply startswith_nil).
        destruct (Hobjects _ v Hstart Hj) as [d ->]. right. now exists d.
      * right. eexists. reflexivity.
    + right. eexists. reflexivity.
Qed.

End Replies.

(** The parser of the examples reads only objects from a text that begins
    with a brace. *)
Lemma members_object (fuel : nat) :
  forall (s : pystr) (acc : list (pystr * value)) (v : value) (rest : pystr),
    Json.members fuel s acc = Some (v, rest) -> exists d, v = VDict d.
Proof.
  induction fuel as [| fuel IH]; intros s acc v rest Hm; [discriminate |].
  cbn [Json.members] in Hm.
  repeat match type of Hm with
         | match ?x with _ => _ end = Some _ =>
           let E := fresh "E" in destruct x eqn:E; try discriminate
         | (if ?b then _ else _) = Some _ =>
           let E := fresh "E" in destruct b eqn:E; try discriminate
         | (let '(_, _) := ?p in _) = Some _ => destruct p
         end.
  - now apply IH in Hm.
  - injection Hm as <- _. eauto.
Qed.

Lemma loads_objects_from_braces : @Facts.objects_from_braces Concrete.py.
Proof.
  intros j v Hstart Hloads.
  destruct j as [| c j']; [discriminate |].
  cbn [startswith] in Hstart.
  destruct (N.eqb_spec 123 c) as [<- | Hc]; [clear Hstart | discriminate].
  cbn [json_loads Concrete.py] in Hloads. unfold Json.loads in Hloads.
  change (Json.skip_ws (123%N :: j')) with (123%N :: j') in Hloads.
  cbn [Json.parse_value] in Hloads.
  change (123 =? 34)%N with false in Hloads.
  change (123 =? 123)%N with true in Hloads. cbv iota in Hloads.
  destruct (Json.skip_ws j') as [| d rest'] eqn:Hws; [discriminate |].
  destruct (d =? 125)%N.
  - destruct (Json.skip_ws rest'); [| discriminate].
    injection Hloads as <-. eauto.
  - destruct (Json.members _ _ _) as [[v' r] |] eqn:Hm; [| discriminate].
    destruct (Json.skip_ws r); [| discriminate].
    injection Hloads as <-. now apply members_object in Hm.
Qed.

(** The request for [gemini-pro]. *)
Lemma generation_config_sent_witness :
  let py := Concrete.py in
  let env := Concrete.env (Ret (utf8 "{}")) [] in
  let text := utf8 "hola" in
  let model := utf8 "gemini-pro" in
  let w := Concrete.world (Some (utf8 "clave")) in
  sent (snd (@V1.generate_gemini_summary py env text model w))
  = sent w
    ++ [ {| req_model := model;
            req_prompt := V1.build_prompt (V1.truncate_text text);
            req_max_output_tokens :=
              Some (if decide (model = utf8 "gemini-pro") then 4096 else 8192);
            req_temperature := Some (utf8 "0.7") |} ]
  /\ sent (snd (@V2.generate_gemini_summary py env text model w))
     = sent w
       ++ [ {| req_model := model;
               req_prompt := V2.build_prompt text;
               req_max_output_tokens := Some 4096;
               req_temperature := Some (utf8 "0.7") |} ].
Proof.
  intros py env text model w.
  apply (@generation_config_sent py env text model w). reflexivity.
Defined.

(** The answer [[1, 2]]. *)
Lemma V1_generate_non_object_witness :
  let py := Concrete.py in
  let reply := utf8 "[1, 2]" in
  let env := Concrete.env (Ret reply) [] in
  let w := Concrete.world (Some (utf8 "clave")) in
  fst (@V1.generate_gemini_summary py env (utf8 "hola") (utf8 "gemini-1.5-flash") w)
  = Ret VNone.
Proof.
  intros py reply env w.
  apply (@V1_generate_non_object py env (utf8 "hola") (utf8 "gemini-1.5-flash") reply
           (VList [VInt 1; VInt 2]) w).
  - reflexivity.
  - intros model_config. reflexivity.
  - vm_compute. reflexivity.
  - intros d. discriminate.
Defined.

(** The answer that lists the seven names: version 2 returns the list. *)
Lemma V2_generate_non_object_witness :
  let py := Concrete.py in
  let reply := utf8q "[~resumen_ejecutivo~, ~puntos_clave~, ~conceptos_importantes~, ~preguntas_dudas~, ~tareas_acciones~, ~detalles_adicionales~, ~estructura_contenido~]" in
  let env := Concrete.env (Ret reply) [] in
  let w := Concrete.world (Some (utf8 "clave")) in
  let v := VList (map VStr V1.required_keys) in
  fst (@V2.generate_gemini_summary py env (utf8 "hola") (utf8 "gemini-1.5-flash") w)
  = Ret (if Facts.holds_required_keys v then v else VNone)
  /\ @V2.summary_markdown py env v (utf8 "clase") (utf8 "gemini-1.5-flash")
     = Raise AttributeError.
Proof.
  intros py reply env w v.
  apply (@V2_generate_non_object py env (utf8 "hola") (utf8 "gemini-1.5-flash") reply v w).
  - reflexivity.
  - reflexivity.
  - vm_compute. reflexivity.
  - intros d. discriminate.
Defined.

Example holds_required_keys_list :
  Facts.holds_required_keys (VList (map VStr V1.required_keys)) = true
  /\ Facts.holds_required_keys (VList [VInt 1; VInt 2]) = false
  /\ Facts.holds_required_keys (VInt 7) = false.
Proof. vm_compute. repeat split. Qed.

(** An object with one of the seven fields. *)
Lemma generate_gemini_summary_object_witness :
  let py := Concrete.py in
  let reply := utf8q "{~resumen_ejecutivo~: ~Clase de derivadas.~, ~nota~: 7}" in
  let d := [ (utf8 "resumen_ejecutivo", VStr (utf8 "Clase de derivadas."));
             (utf8 "nota", VInt 7) ] in
  let env := Concrete.env (Ret reply) [] in
  let text := utf8 "hola" in
  let model := utf8 "gemini-1.5-flash" in
  let w := Concrete.world (Some (utf8 "clave")) in
  exists d',
    fst (@V1.generate_gemini_summary py env text model w) = Ret (VDict d')
    /\ fst (@V2.generate_gemini_summary py env text model w) = Ret (VDict d')
    /\ (forall k, k ∈ V1.required_keys -> is_Some (Dict.get k d'))
    /\ (forall k v, Dict.get k d = Some v -> Dict.get k d' = Some v)
    /\ (forall k, k ∈ V1.required_keys -> Dict.get k d = None ->
                  Dict.get k d' = Some (VList []))
    /\ (forall k, k ∉ V1.required_keys -> Dict.get k d' = Dict.get k d).
Proof.
  intros py reply d env text model w.
  apply (@generate_gemini_summary_object py env text model reply d w).
  - reflexivity.
  - discriminate.
  - intros model_config. reflexivity.
  - reflexivity.
  - vm_compute. reflexivity.
  - vm_compute. reflexivity.
Defined.

(** With the parser of the examples. *)
Lemma V1_generate_none_or_object_witness :
  let py := Concrete.py in
  let env := Concrete.env (Ret (utf8q "nota: {~a~: [1, 2]} fin")) [] in
  let w := Concrete.world (Some (utf8 "clave")) in
  fst (@V1.generate_gemini_summary py env (utf8 "hola") (utf8 "gemini-1.5-flash") w)
  = Ret VNone
  \/ exists d,
       fst (@V1.generate_gemini_summary py env (utf8 "hola") (utf8 "gemini-1.5-flash") w)
       = Ret (VDict d).
Proof.
  intros py env w.
  apply (@V1_generate_none_or_object py env (utf8 "hola") (utf8 "gemini-1.5-flash") w).
  exact loads_objects_from_braces.
Defined.

(** ** The command line of version 1 *)

Section CommandLine.
Context `{PyLib} `{Env}.

(** X26. [--check-gemini] looks only at the environment: the check runs before
    the key given with [--gemini-api-key] is put there. So when the
    variable is not set, the driver ends with status 0 and has done nothing:
    no request is sent, whatever key the command line carries. *)
Theorem main_check_ignores_key_argument (args : V1.Args) (w : World) :
  V1.list_models args = false ->
  V1.check_gemini args = true ->
  V1.set_and_nonempty (gemini_api_key w) = false ->
  V1.main args w = (Ret 0, w).
Proof.
  intros Hlist Hcheck Hkey. unfold V1.main. rewrite Hlist, Hcheck.
  unfold mbind, M_bind. rewrite check_gemini_access_result, Hkey. reflexivity.
Qed.

(** X27. With an audio file that is missing, or on which Whisper does not run
    to the end, the driver ends with status 1: no file is written and
    nothing is sent; the only trace is the key of the command line, now in
    the environment. *)
Theorem main_without_transcript (args : V1.Args) (audio_file : pystr) (w : World) :
  V1.list_models args = false ->
  V1.check_gemini args = false ->
  V1.audio_file args = Some audio_file ->
  audio_file ≠ [] ->
  audio_exists audio_file = false
  \/ (forall written,
        whisper audio_file (V1.model args) (V1.output_dir args) <> WhisperDone written) ->
  V1.main args w
  = (Ret 1,
     if V1.set_and_nonempty (V1.gemini_api_key_arg args)
     then set_api_key (V1.gemini_api_key_arg args) w
     else w).
Proof.
  intros Hlist Hcheck Hfile Hne Hfail. unfold V1.main.
  rewrite Hlist, Hcheck, Hfile.
  destruct audio_file as [| c audio_file']; [now destruct Hne |].
  cbn [V1.set_and_nonempty V1.nonempty negb default from_option].
  unfold mbind at 1, M_bind at 1.
  destruct (V1.gemini_api_key_arg args) as [k |] eqn:Harg.
  - cbn [V1.set_and_nonempty]. destruct (V1.nonempty k).
    + unfold setenv_api_key. cbn [default from_option].
      unfold mbind, M_bind.
      now rewrite (process_stops_early _ _ _ _ _ Hfail).
    + unfold mret at 1, M_ret at 1. unfold mbind, M_bind.
      now rewrite (process_stops_early _ _ _ _ _ Hfail).
  - cbn [V1.set_and_nonempty]. unfold mret at 1, M_ret at 1. unfold mbind, M_bind.
    now rewrite (process_stops_early _ _ _ _ _ Hfail).
Qed.

End CommandLine.

(** [--check-gemini --gemini-api-key clave] with an empty environment. *)
Lemma main_check_ignores_key_argument_witness :
  let args :=
    {| V1.audio_file := None; V1.model := utf8 "medium"; V1.output_dir := utf8 ".";
       V1.gemini_api_key_arg := Some (utf8 "clave");
       V1.gemini_model := utf8 "gemini-1.5-flash";
       V1.list_models := false; V1.check_gemini := true |} in
  let w := Concrete.world None in
  @V1.main Concrete.py (Concrete.env (Ret (utf8 "hola")) []) args w = (Ret 0, w).
Proof.
  intros args w.
  apply (@main_check_ignores_key_argument Concrete.py (Concrete.env (Ret (utf8 "hola")) [])
           args w); reflexivity.
Defined.

(** Whisper fails on the file. *)
Lemma main_without_transcript_witness :
  let args :=
    {| V1.audio_file := Some (utf8 "clase.m4a"); V1.model := utf8 "medium";
       V1.output_dir := utf8 ".";
       V1.gemini_api_key_arg := Some (utf8 "clave");
       V1.gemini_model := utf8 "gemini-1.5-flash";
       V1.list_models := false; V1.check_gemini := false |} in
  let w := Concrete.world None in
  @V1.main Concrete.py (Worlds.env_whisper_fails (Ret (utf8 "hola"))) args w
  = (Ret 1,
     if V1.set_and_nonempty (V1.gemini_api_key_arg args)
     then set_api_key (V1.gemini_api_key_arg args) w
     else w).
Proof.
  intros args w.
  apply (@main_without_transcript Concrete.py (Worlds.env_whisper_fails (Ret (utf8 "hola")))
           args (utf8 "clase.m4a") w).
  - reflexivity.
  - reflexivity.
  - reflexivity.
  - discriminate.
  - right. intros written. discriminate.
Defined.
